(** * WeChat summary bot: message triage and escalation pipeline

    A shallow embedding of the Python sources under [wechat_summary_bot/]:
    [models/data_models.py], [core/database.py], [core/deduplication.py],
    [core/ai_service.py], [core/realtime_alerts.py] and
    [core/message_collector.py].

    Conventions of the embedding.
    - A Python [str] is the list of its code points ([list N]); literals are
      written [py "..."] and decoded from the UTF-8 bytes of the source text.
    - A naive [datetime] is the number of microseconds since [datetime.min];
      the text SQLite stores for it orders the same way, so SQL comparisons on
      [DATETIME] columns are comparisons on [Z].
    - A Python [float] (keyword weights) is an exact rational [Q]; binary64
      rounding is not modelled.
    - SQLite tables are lists of rows in rowid order; [UNIQUE] constraints are
      enforced by the statements, as in SQLite, not by the data structure.
    - Everything the program reads from outside (clock readings, whether an
      SQLite transaction commits, the answer of the AI provider, the answer of
      [bot.send_text]) is an explicit argument.
    - A [try] block is a value of a sum type where its body can raise; a
      handler that no modelled statement can reach ([process_message],
      [process_potential_alert]) has no counterpart, and logging is left out. *)

From Stdlib Require Import ZArith NArith QArith Qround String Ascii Lia.
From stdpp Require Import list gmap sorting.
From Corelib Require PrimFloat.

#[local] Open Scope Z_scope.

(** ** Python strings *)

Abbreviation str := (list N).

Module pystr.

(** UTF-8 decoding, used only to write literals. *)
Fixpoint utf8_decode (bs : list N) (acc : N) (k : nat) : str :=
  match bs with
  | [] => []
  | b :: bs' =>
      match k with
      | O =>
          if (b <? 128)%N then b :: utf8_decode bs' 0%N 0%nat
          else if (b <? 224)%N then utf8_decode bs' (b - 192)%N 1%nat
          else if (b <? 240)%N then utf8_decode bs' (b - 224)%N 2%nat
          else utf8_decode bs' (b - 240)%N 3%nat
      | S O => (acc * 64 + (b - 128))%N :: utf8_decode bs' 0%N 0%nat
      | S k' => utf8_decode bs' (acc * 64 + (b - 128))%N k'
      end
  end.

Definition py (s : string) : str :=
  utf8_decode (N_of_ascii <$> list_ascii_of_string s) 0%N 0%nat.

(** [s.encode('utf-8')] for strings of Unicode scalar values. *)
Definition encode_char (c : N) : list N :=
  if (c <? 128)%N then [c]
  else if (c <? 2048)%N then [192 + c / 64; 128 + c mod 64]%N
  else if (c <? 65536)%N then
    [224 + c / 4096; 128 + (c / 64) mod 64; 128 + c mod 64]%N
  else
    [240 + c / 262144; 128 + (c / 4096) mod 64;
     128 + (c / 64) mod 64; 128 + c mod 64]%N.

Definition encode (s : str) : list N := s ≫= encode_char.

(** The characters [str.strip()] removes: those with [str.isspace()] true. *)
Definition isspace (c : N) : bool :=
  (((9 <=? c) && (c <=? 13)) || ((28 <=? c) && (c <=? 32))
   || (c =? 133) || (c =? 160) || (c =? 5760)
   || ((8192 <=? c) && (c <=? 8202))
   || (c =? 8232) || (c =? 8233) || (c =? 8239) || (c =? 8287)
   || (c =? 12288))%N.

Fixpoint lstrip (s : str) : str :=
  match s with
  | [] => []
  | c :: s' => if isspace c then lstrip s' else s
  end.

Definition rstrip (s : str) : str := reverse (lstrip (reverse s)).

Definition strip (s : str) : str := rstrip (lstrip s).

(** [sep.join(parts)] *)
Fixpoint join (sep : str) (parts : list str) : str :=
  match parts with
  | [] => []
  | [p] => p
  | p :: ps => p ++ sep ++ join sep ps
  end.

Fixpoint startswith (s prefix : str) : bool :=
  match prefix, s with
  | [], _ => true
  | _ :: _, [] => false
  | p :: prefix', c :: s' => (p =? c)%N && startswith s' prefix'
  end.

(** [needle in hay] *)
Fixpoint contains (needle hay : str) : bool :=
  startswith hay needle ||
  match hay with
  | [] => false
  | _ :: hay' => contains needle hay'
  end.

(** [x in xs] for a list of strings. *)
Definition mem (x : str) (xs : list str) : bool := bool_decide (x ∈ xs).

(** [str(n)] for a non-negative integer, most significant digit first. *)
Fixpoint digits_fuel (fuel : nat) (n : N) (acc : str) : str :=
  match fuel with
  | O => acc
  | S fuel' =>
      let acc' := (48 + n mod 10)%N :: acc in
      if (n <? 10)%N then acc' else digits_fuel fuel' (n / 10)%N acc'
  end.

Definition of_N (n : N) : str := digits_fuel (S (N.to_nat (N.log2 n))) n [].

Definition of_Z (z : Z) : str :=
  if z <? 0 then 45%N :: of_N (Z.to_N (- z)) else of_N (Z.to_N z).

(** [f"{n:02d}"] for a non-negative integer. *)
Definition two_digits (z : Z) : str :=
  if z <? 10 then 48%N :: of_Z z else of_Z z.

(** [s.endswith(suffix)] *)
Definition endswith (s suffix : str) : bool :=
  startswith (reverse s) (reverse suffix).

(** [s.split(":", 1)] when [":" in s]: the text before the first colon and
    the text after it; [None] when [s] has no colon. *)
Fixpoint split_colon (s : str) : option (str * str) :=
  match s with
  | [] => None
  | c :: s' =>
      if (c =? 58)%N then Some ([], s')
      else
        match split_colon s' with
        | Some (before, after) => Some (c :: before, after)
        | None => None
        end
  end.

End pystr.

Abbreviation py := pystr.py.

(** ** [hashlib.md5(data).hexdigest()] (RFC 1321) on a list of bytes *)

Module hashlib.

#[local] Open Scope N_scope.

Definition mask32 : N := 4294967295.

Definition add32 (a b : N) : N := N.land (a + b) mask32.

Definition rotl32 (x c : N) : N :=
  N.land (N.lor (N.shiftl x c) (N.shiftr x (32 - c))) mask32.

Definition not32 (x : N) : N := N.lxor x mask32.

Definition shifts : list N :=
  [7; 12; 17; 22; 7; 12; 17; 22; 7; 12; 17; 22; 7; 12; 17; 22;
   5; 9; 14; 20; 5; 9; 14; 20; 5; 9; 14; 20; 5; 9; 14; 20;
   4; 11; 16; 23; 4; 11; 16; 23; 4; 11; 16; 23; 4; 11; 16; 23;
   6; 10; 15; 21; 6; 10; 15; 21; 6; 10; 15; 21; 6; 10; 15; 21].

Definition sines : list N :=
  [3614090360; 3905402710; 606105819; 3250441966; 4118548399; 1200080426;
   2821735955; 4249261313; 1770035416; 2336552879; 4294925233; 2304563134;
   1804603682; 4254626195; 2792965006; 1236535329; 4129170786; 3225465664;
   643717713; 3921069994; 3593408605; 38016083; 3634488961; 3889429448;
   568446438; 3275163606; 4107603335; 1163531501; 2850285829; 4243563512;
   1735328473; 2368359562; 4294588738; 2272392833; 1839030562; 4259657740;
   2763975236; 1272893353; 4139469664; 3200236656; 681279174; 3936430074;
   3572445317; 76029189; 3654602809; 3873151461; 530742520; 3299628645;
   4096336452; 1126891415; 2878612391; 4237533241; 1700485571; 2399980690;
   4293915773; 2240044497; 1873313359; 4264355552; 2734768916; 1309151649;
   4149444226; 3174756917; 718787259; 3951481745].

(** Message padding: a one bit, zeros up to 56 mod 64, the bit length on
    eight little-endian bytes. *)
Fixpoint le_bytes (k : nat) (n : N) : list N :=
  match k with
  | O => []
  | S k' => n mod 256 :: le_bytes k' (n / 256)
  end.

Definition pad (data : list N) : list N :=
  let len := N.of_nat (length data) in
  let zeros := N.to_nat ((55 + 64 - len mod 64) mod 64) in
  data ++ 128 :: replicate zeros 0 ++ le_bytes 8 (8 * len).

Fixpoint le_words (k : nat) (bs : list N) : list N :=
  match k, bs with
  | S k', b0 :: b1 :: b2 :: b3 :: bs' =>
      (b0 + 256 * b1 + 65536 * b2 + 16777216 * b3) :: le_words k' bs'
  | _, _ => []
  end.

Definition round_fg (i b c d : N) : N * N :=
  if i <? 16 then (N.lor (N.land b c) (N.land (not32 b) d), i)
  else if i <? 32 then
    (N.lor (N.land d b) (N.land (not32 d) c), (5 * i + 1) mod 16)
  else if i <? 48 then (N.lxor (N.lxor b c) d, (3 * i + 5) mod 16)
  else (N.lxor c (N.lor b (not32 d)), (7 * i) mod 16).

Definition step (w : list N) (st : N * N * N * N) (i : N) : N * N * N * N :=
  let '(a, b, c, d) := st in
  let '(f, g) := round_fg i b c d in
  let x := add32 (add32 (add32 a f) (sines !!! N.to_nat i)) (w !!! N.to_nat g) in
  (d, add32 b (rotl32 x (shifts !!! N.to_nat i)), b, c).

Definition block (st : N * N * N * N) (w : list N) : N * N * N * N :=
  let '(a0, b0, c0, d0) := st in
  let '(a, b, c, d) := foldl (step w) st (N.of_nat <$> seq 0 64) in
  (add32 a0 a, add32 b0 b, add32 c0 c, add32 d0 d).

Fixpoint blocks (k : nat) (ws : list N) (st : N * N * N * N) : N * N * N * N :=
  match k with
  | O => st
  | S k' => blocks k' (drop 16 ws) (block st (take 16 ws))
  end.

Definition hexdigit (n : N) : N := if n <? 10 then 48 + n else 87 + n.

Definition hexbyte (b : N) : str := [hexdigit (b / 16); hexdigit (b mod 16)].

Definition md5_hexdigest (data : list N) : str :=
  let padded := pad data in
  let nblocks := (length padded / 64)%nat in
  let '(a, b, c, d) :=
    blocks nblocks (le_words (16 * nblocks) padded)
      (1732584193, 4023233417, 2562383102, 271733878) in
  ([a; b; c; d] ≫= le_bytes 4) ≫= hexbyte.

End hashlib.

(** ** models/data_models.py *)

(** The four texts the media handlers store in [extracted_text] when OCR or
    voice retrieval fails. *)
Definition failure_sentinels : list str :=
  [py "[图片OCR失败]"; py "[语音获取失败]"; py "[图片处理异常]"; py "[语音处理异常]"].

Module Message.

Record t := mk {
  message_id : str;
  chat_id : str;
  chat_name : str;
  sender_id : str;
  sender_name : str;
  message_type : str;
  content : str;
  timestamp : Z;
  extracted_text : str;
  content_hash : str;
  is_important : bool;
  value_score : Z
}.

(** The hash [__post_init__] stores in [content_hash]. *)
Definition post_init_hash (content extracted_text : str) : str :=
  let content_parts := [content] in
  let content_parts :=
    if negb (bool_decide (extracted_text = []))
       && negb (pystr.mem extracted_text failure_sentinels)
    then content_parts ++ [extracted_text]
    else content_parts in
  let combined_content := pystr.strip (pystr.join (py " ") content_parts) in
  hashlib.md5_hexdigest (pystr.encode combined_content).

(** The dataclass constructor: [content_hash] is not an [__init__] argument
    and starts empty, so [__post_init__] always computes it. *)
Definition init (message_id chat_id chat_name sender_id sender_name
                 message_type content : str) (timestamp : Z)
                (extracted_text : str) (is_important : bool)
                (value_score : Z) : t :=
  mk message_id chat_id chat_name sender_id sender_name message_type content
     timestamp extracted_text (post_init_hash content extracted_text)
     is_important value_score.

(** The assignment [message.extracted_text = ...] made by the collector's
    image and voice handlers after construction; it does not touch
    [content_hash]. *)
Definition set_extracted_text (m : t) (x : str) : t :=
  mk (message_id m) (chat_id m) (chat_name m) (sender_id m) (sender_name m)
     (message_type m) (content m) (timestamp m) x (content_hash m)
     (is_important m) (value_score m).

Definition set_content_hash (m : t) (h : str) : t :=
  mk (message_id m) (chat_id m) (chat_name m) (sender_id m) (sender_name m)
     (message_type m) (content m) (timestamp m) (extracted_text m) h
     (is_important m) (value_score m).

(** The assignment [message.content = ...] made by the collector's emoji,
    video and card handlers after construction; it does not touch
    [content_hash] either. *)
Definition set_content (m : t) (c : str) : t :=
  mk (message_id m) (chat_id m) (chat_name m) (sender_id m) (sender_name m)
     (message_type m) c (timestamp m) (extracted_text m) (content_hash m)
     (is_important m) (value_score m).

End Message.

Module KeywordConfig.

Record t := mk {
  keyword : str;
  category : str;
  weight : Q;
  is_active : bool
}.

End KeywordConfig.

Module UrgencyAnalysisResult.

Record t := mk {
  is_urgent : bool;
  urgency_score : Z;
  push_type : str;
  push_message_ids : list str;
  summary : str;
  key_factors : list str
}.

End UrgencyAnalysisResult.

Module RealtimeAlert.

Record t := mk {
  trigger_message_id : str;
  chat_id : str;
  chat_name : str;
  alert_content : str;
  trigger_keywords : list str;
  context_message_ids : list str;
  urgency_score : Z;
  push_time : Z
}.

End RealtimeAlert.

Module DailySummary.

Record t := mk {
  date : str;
  chat_id : str;
  chat_name : str;
  summary_content : str;
  key_topics : list str;
  important_events : list str;
  action_items : list str;
  message_count : Z;
  high_value_count : Z;
  source_message_ids : list str;
  created_at : Z
}.

End DailySummary.

Module AlertConfig.

Record t := mk {
  enable_realtime_alerts : bool;
  urgency_threshold : Z;
  max_context_messages : Z;
  target_user : str
}.

Definition set_target_user (c : t) (u : str) : t :=
  mk (enable_realtime_alerts c) (urgency_threshold c) (max_context_messages c) u.

End AlertConfig.

(** ** core/database.py *)

(** Every method of [DatabaseManager] opens a connection inside
    [try: ... except Exception], so each takes the outcome of its SQLite
    transaction: [commits = true] when the statements run and commit,
    [false] when SQLite raises (locked file, full disk, bad binding), in
    which case nothing is written and the method returns its failure value. *)

Module DatabaseManager.

Record chat_row := mk_chat {
  chat_id : str;
  chat_name : str;
  is_active : bool;
  last_message_time : Z;
  total_messages : Z
}.

Record keyword_row := mk_keyword {
  keyword : str;
  category : str;
  kw_is_active : bool;
  weight : Q
}.

(** [system_config] is keyed by its [UNIQUE] column [config_key]; the value
    is the pair [(config_value, description)]. *)
Record t := mk {
  messages : list Message.t;
  chats : list chat_row;
  daily_summaries : list DailySummary.t;
  realtime_alerts : list RealtimeAlert.t;
  alert_keywords : list keyword_row;
  system_config : gmap str (str * str)
}.

Definition empty : t := mk [] [] [] [] [] ∅.

Definition default_keywords : list keyword_row :=
  [ mk_keyword (py "紧急") (py "urgent") true (20 # 10);
    mk_keyword (py "急") (py "urgent") true (18 # 10);
    mk_keyword (py "重要") (py "urgent") true (15 # 10);
    mk_keyword (py "deadline") (py "urgent") true (20 # 10);
    mk_keyword (py "截止") (py "urgent") true (20 # 10);
    mk_keyword (py "会议取消") (py "urgent") true (18 # 10);
    mk_keyword (py "故障") (py "urgent") true (18 # 10);
    mk_keyword (py "出事了") (py "urgent") true (20 # 10);
    mk_keyword (py "求助") (py "urgent") true (16 # 10);
    mk_keyword (py "@所有人") (py "work") true (15 # 10);
    mk_keyword (py "通知") (py "work") true (12 # 10);
    mk_keyword (py "会议") (py "work") true (10 # 10);
    mk_keyword (py "任务") (py "work") true (10 # 10);
    mk_keyword (py "项目") (py "work") true (8 # 10) ].

Definition default_configs : list (str * (str * str)) :=
  [ (py "target_user", (py "", py "接收推送的用户微信ID"));
    (py "daily_summary_time", (py "20:00", py "每日总结生成时间"));
    (py "urgency_threshold", (py "6", py "实时推送的紧急度阈值"));
    (py "max_context_messages", (py "10", py "上下文消息最大数量"));
    (py "data_retention_days", (py "180", py "数据保留天数")) ].

(** [INSERT OR IGNORE INTO alert_keywords]: a row whose [keyword] is
    already present is skipped. *)
Definition insert_keyword_or_ignore (rows : list keyword_row) (r : keyword_row)
  : list keyword_row :=
  if bool_decide (keyword r ∈ keyword <$> rows) then rows else rows ++ [r].

Definition insert_config_or_ignore (cfg : gmap str (str * str))
    (kv : str * (str * str)) : gmap str (str * str) :=
  match cfg !! kv.1 with
  | Some _ => cfg
  | None => <[kv.1 := kv.2]> cfg
  end.

(** [CREATE TABLE IF NOT EXISTS ...] keeps existing rows; the defaults are
    added where missing. *)
Definition init_database (db : t) : t :=
  mk (messages db) (chats db) (daily_summaries db) (realtime_alerts db)
     (foldl insert_keyword_or_ignore (alert_keywords db) default_keywords)
     (foldl insert_config_or_ignore (system_config db) default_configs).

(** [DatabaseManager(db_path)] on a fresh file. *)
Definition new : t := init_database empty.

(** [_update_chat_info]: [INSERT OR REPLACE INTO chats] with the message
    count read back from the row being replaced. *)
Definition _update_chat_info (rows : list chat_row) (cid cname : str)
    (last_message_time : Z) : list chat_row :=
  let old_total :=
    match filter (λ r, chat_id r = cid) rows with
    | r :: _ => total_messages r
    | [] => 0
    end in
  filter (λ r, chat_id r ≠ cid) rows
    ++ [mk_chat cid cname true last_message_time (old_total + 1)].

(** [save_message]: [INSERT OR REPLACE INTO messages], [message_id] being
    [UNIQUE]. *)
Definition save_message (commits : bool) (db : t) (message : Message.t)
  : t * bool :=
  if commits then
    (mk (filter (λ r, Message.message_id r ≠ Message.message_id message)
           (messages db) ++ [message])
        (_update_chat_info (chats db) (Message.chat_id message)
           (Message.chat_name message) (Message.timestamp message))
        (daily_summaries db) (realtime_alerts db) (alert_keywords db)
        (system_config db),
     true)
  else (db, false).

(** The [Message] built from a selected row: the constructor runs, then
    [content_hash] is overwritten with the stored column. *)
Definition message_of_row (row : Message.t) : Message.t :=
  Message.set_content_hash
    (Message.init (Message.message_id row) (Message.chat_id row)
       (Message.chat_name row) (Message.sender_id row)
       (Message.sender_name row) (Message.message_type row)
       (Message.content row) (Message.timestamp row)
       (Message.extracted_text row) (Message.is_important row)
       (Message.value_score row))
    (Message.content_hash row).

Definition by_timestamp (a b : Message.t) : Prop :=
  Message.timestamp a ≤ Message.timestamp b.

#[global] Instance by_timestamp_dec : RelDecision by_timestamp.
Proof. intros a b. unfold by_timestamp. apply _. Defined.

(** [LIMIT ?]: the clause is added only when [limit] is truthy ([None] and
    [0] add none); SQLite reads a negative limit as no limit. *)
Definition sql_limit {A} (limit : option Z) (rows : list A) : list A :=
  match limit with
  | None => rows
  | Some n =>
      if n =? 0 then rows
      else if n <? 0 then rows
      else take (Z.to_nat n) rows
  end.

(** [get_messages_by_date_range]:
    [WHERE chat_id = ? AND timestamp BETWEEN ? AND ? ORDER BY timestamp ASC]. *)
Definition get_messages_by_date_range (commits : bool) (db : t) (cid : str)
    (start_date end_date : Z) (limit : option Z) : list Message.t :=
  if commits then
    message_of_row <$>
      sql_limit limit
        (merge_sort by_timestamp
           (filter (λ r, Message.chat_id r = cid
                         ∧ start_date ≤ Message.timestamp r ≤ end_date)
              (messages db)))
  else [].

Definition by_weight_desc (a b : keyword_row) : Prop :=
  (weight b <= weight a)%Q.

#[global] Instance by_weight_desc_dec : RelDecision by_weight_desc.
Proof. intros a b. unfold by_weight_desc, Qle. apply _. Defined.

(** [get_active_keywords]: [WHERE is_active = TRUE ORDER BY weight DESC];
    [KeywordConfig(row[0], row[1], row[2])] leaves [is_active] at its
    default. On an SQLite error the method returns the empty list. *)
Definition get_active_keywords (commits : bool) (db : t)
  : list KeywordConfig.t :=
  if commits then
    (λ r, KeywordConfig.mk (keyword r) (category r) (weight r) true) <$>
      merge_sort by_weight_desc
        (filter (λ r, kw_is_active r = true) (alert_keywords db))
  else [].

(** [save_realtime_alert]: plain [INSERT]; [push_time] is not among the
    inserted columns and takes [CURRENT_TIMESTAMP]. *)
Definition save_realtime_alert (commits : bool) (current_timestamp : Z)
    (db : t) (alert : RealtimeAlert.t) : t * bool :=
  if commits then
    (mk (messages db) (chats db) (daily_summaries db)
        (realtime_alerts db ++
           [RealtimeAlert.mk
              (RealtimeAlert.trigger_message_id alert)
              (RealtimeAlert.chat_id alert) (RealtimeAlert.chat_name alert)
              (RealtimeAlert.alert_content alert)
              (RealtimeAlert.trigger_keywords alert)
              (RealtimeAlert.context_message_ids alert)
              (RealtimeAlert.urgency_score alert) current_timestamp])
        (alert_keywords db) (system_config db),
     true)
  else (db, false).

Definition same_digest_key (a b : DailySummary.t) : Prop :=
  DailySummary.date a = DailySummary.date b
  ∧ DailySummary.chat_id a = DailySummary.chat_id b.

(** The row [save_daily_summary] writes: the ten inserted columns, and
    [created_at] at its default [CURRENT_TIMESTAMP]. The list columns hold
    [json.dumps] of the lists. *)
Definition digest_row (current_timestamp : Z) (s : DailySummary.t)
  : DailySummary.t :=
  DailySummary.mk (DailySummary.date s) (DailySummary.chat_id s)
    (DailySummary.chat_name s) (DailySummary.summary_content s)
    (DailySummary.key_topics s) (DailySummary.important_events s)
    (DailySummary.action_items s) (DailySummary.message_count s)
    (DailySummary.high_value_count s) (DailySummary.source_message_ids s)
    current_timestamp.

(** [save_daily_summary]: [INSERT OR REPLACE INTO daily_summaries], the
    table being declared [UNIQUE(date, chat_id)]: rows in conflict with the
    new one are deleted, then the new row is inserted. *)
Definition save_daily_summary (commits : bool) (current_timestamp : Z)
    (db : t) (summary : DailySummary.t) : t * bool :=
  if commits then
    (mk (messages db) (chats db)
        (filter (λ r, ¬ same_digest_key r summary) (daily_summaries db)
           ++ [digest_row current_timestamp summary])
        (realtime_alerts db) (alert_keywords db) (system_config db),
     true)
  else (db, false).

Definition get_config (commits : bool) (db : t) (key default : str) : str :=
  if commits then
    match system_config db !! key with
    | Some (value, _) => value
    | None => default
    end
  else default.

(** [set_config]: [INSERT OR REPLACE INTO system_config]. *)
Definition set_config (commits : bool) (db : t) (key value description : str)
  : t * bool :=
  if commits then
    (mk (messages db) (chats db) (daily_summaries db) (realtime_alerts db)
        (alert_keywords db) (<[key := (value, description)]> (system_config db)),
     true)
  else (db, false).

(** A dictionary of [get_active_chats]' result. No statement of the
    repository writes the column [last_summary_date], which stays [NULL]. *)
Record active_chat := mk_active_chat {
  ac_chat_id : str;
  ac_chat_name : str;
  ac_total_messages : Z;
  ac_last_message_time : Z;
  ac_last_summary_date : option str
}.

Definition by_last_message_time_desc (a b : chat_row) : Prop :=
  last_message_time b ≤ last_message_time a.

#[global] Instance by_last_message_time_desc_dec
  : RelDecision by_last_message_time_desc.
Proof. intros a b. unfold by_last_message_time_desc. apply _. Defined.

(** [get_active_chats]:
    [WHERE is_active = TRUE ORDER BY last_message_time DESC]. *)
Definition get_active_chats (commits : bool) (db : t) : list active_chat :=
  if commits then
    (λ r, mk_active_chat (chat_id r) (chat_name r) (total_messages r)
            (last_message_time r) None) <$>
      merge_sort by_last_message_time_desc
        (filter (λ r, is_active r = true) (chats db))
  else [].

(** [datetime.now() - timedelta(days=n)]: [timedelta] takes at most
    999999999 days in either direction, and the difference must lie between
    [datetime.min] and [datetime.max]; otherwise [OverflowError] is raised. *)
Definition microseconds_per_day : Z := 86400000000.

Definition datetime_max : Z := 3652059 * microseconds_per_day - 1.

Definition minus_days (now n : Z) : option Z :=
  if bool_decide (-999999999 ≤ n ≤ 999999999) then
    let d := now - n * microseconds_per_day in
    if bool_decide (0 ≤ d ≤ datetime_max) then Some d else None
  else None.

(** [cleanup_old_data]: three [DELETE] statements in one transaction. The
    second cutoff is computed inside the [with] block, after the first two
    statements: when it overflows, the connection rolls back. *)
Definition cleanup_old_data (commits : bool) (now : Z) (db : t)
    (retention_days : Z) : t :=
  match minus_days now retention_days with
  | Some cutoff_date =>
      match minus_days now (retention_days * 2) with
      | Some summary_cutoff =>
          if commits then
            mk (filter (λ r, ¬ Message.timestamp r < cutoff_date) (messages db))
               (chats db)
               (filter (λ r, ¬ DailySummary.created_at r < summary_cutoff)
                  (daily_summaries db))
               (filter (λ r, ¬ RealtimeAlert.push_time r < cutoff_date)
                  (realtime_alerts db))
               (alert_keywords db) (system_config db)
          else db
      | None => db
      end
  | None => db
  end.

End DatabaseManager.

(** ** core/deduplication.py *)

Module DeduplicationEngine.

(** A row of [message_dedup]; [content_hash] is declared [UNIQUE] and
    [occurrence_count] defaults to 1. *)
Record dedup_row := mk_row {
  content_hash : str;
  first_message_id : str;
  occurrence_count : Z;
  last_seen : Z
}.

Definition hours (n : Z) : Z := n * 3600000000.
Definition days (n : Z) : Z := hours (24 * n).

Definition calculate_content_hash (message : Message.t) : str :=
  let content_parts := [Message.content message] in
  let content_parts :=
    if negb (bool_decide (Message.extracted_text message = []))
       && negb (pystr.mem (Message.extracted_text message) failure_sentinels)
    then content_parts ++ [Message.extracted_text message]
    else content_parts in
  let combined_content := pystr.strip (pystr.join (py " ") content_parts) in
  hashlib.md5_hexdigest (pystr.encode combined_content).

(** [is_duplicate]. [now] is [datetime.now()], the local wall clock, and
    [current_timestamp] is SQLite's [CURRENT_TIMESTAMP], the UTC wall clock:
    two readings the code compares as they are. [commits = false] stands
    for any SQLite error inside the [try], which the method answers with
    [False]. The plain [INSERT] of the not-found branch violates the
    [UNIQUE] constraint when an expired row with the same hash is still in
    the table: that [IntegrityError] is caught by the same handler. *)
Definition is_duplicate (commits : bool) (now current_timestamp : Z)
    (table : list dedup_row) (message : Message.t) : list dedup_row * bool :=
  if bool_decide (pystr.strip (Message.content message) = []) then
    (table, false)
  else
    let h := calculate_content_hash message in
    if commits then
      let cutoff_time := now - hours 24 in
      match filter (λ r, content_hash r = h ∧ cutoff_time < last_seen r) table with
      | _ :: _ =>
          ((λ r, if bool_decide (content_hash r = h)
                 then mk_row (content_hash r) (first_message_id r)
                        (occurrence_count r + 1) current_timestamp
                 else r) <$> table,
           true)
      | [] =>
          if bool_decide (h ∈ content_hash <$> table) then (table, false)
          else
            (table ++ [mk_row h (Message.message_id message) 1 current_timestamp],
             false)
      end
    else (table, false).

(** [cleanup_old_records]: rows last seen more than seven days ago go. *)
Definition cleanup_old_records (commits : bool) (now : Z)
    (table : list dedup_row) : list dedup_row :=
  if commits then filter (λ r, ¬ last_seen r < now - days 7) table
  else table.

(** [force_add_duplicate]: [INSERT OR REPLACE]. *)
Definition force_add_duplicate (commits : bool) (current_timestamp : Z)
    (table : list dedup_row) (message : Message.t) : list dedup_row * bool :=
  if commits then
    let h := calculate_content_hash message in
    (filter (λ r, content_hash r ≠ h) table
       ++ [mk_row h (Message.message_id message) 1 current_timestamp],
     true)
  else (table, false).

End DeduplicationEngine.

(** ** Collaborators outside the repository *)

(** What a call into a collaborator does: return a value or raise. *)
Inductive outcome (A : Type) : Type :=
| Returns (a : A)
| Raises.
Arguments Returns {A} a.
Arguments Raises {A}.

(** The OpenAI client. [analyze_urgency] reads the reply only through
    [json.loads] and [result_data.get]; a reply is represented by what those
    yield. Field values are taken to have the JSON types the prompt asks for;
    [urgency_score] goes through [int(...)], which may raise. *)
Module OpenAI.

Inductive int_arg :=
| IntOf (z : Z)      (* int(value) returns z *)
| IntRaises.         (* int(value) raises ValueError or TypeError *)

Record reply_object := mk_reply {
  r_is_urgent : option bool;
  r_urgency_score : option int_arg;
  r_push_type : option str;
  r_push_message_ids : option (list str);
  r_summary : option str;
  r_key_factors : option (list str)
}.

Inductive content :=
| NotJson (result_text : str)    (* json.loads raises JSONDecodeError *)
| NotObject (result_text : str)  (* valid JSON, but not an object: no .get *)
| Object (fields : reply_object).

(** The remote provider: what the n-th request does (a reply, or an
    exception: network, authentication, timeout, a response without text),
    and the number of requests made so far. *)
Record t := mk {
  answer : nat → outcome content;
  requests : nat
}.

Definition create (client : t) : outcome content * t :=
  (answer client (requests client), mk (answer client) (S (requests client))).

End OpenAI.

(** The WeChat bot. [send_text] returns an object that may carry a [code]
    attribute, or raises. *)
Module Bot.

Record response := mk_response {
  code : option Z;
  msg : option str
}.

Record t := mk {
  reply : nat → outcome response;
  outbox : list (str * str)
}.

Definition send_text (bot : t) (wxid text : str) : outcome response * t :=
  (reply bot (length (outbox bot)), mk (reply bot) (outbox bot ++ [(wxid, text)])).

End Bot.

(** ** core/ai_service.py *)

(** [sorted(items, key=key, reverse=True)] and
    [items.sort(key=key, reverse=True)]: the sort is stable, items with
    equal keys keep their order. *)
Fixpoint insert_desc {A : Type} (key : A → Z) (x : A) (l : list A) : list A :=
  match l with
  | [] => [x]
  | y :: l' => if key x <=? key y then y :: insert_desc key x l' else x :: l
  end.

Definition sorted_desc {A : Type} (key : A → Z) (l : list A) : list A :=
  foldl (λ acc x, insert_desc key x acc) [] l.

(** The provider as [generate_daily_summary] meets it. The reply object
    holds the five keys the method reads, each possibly missing; values of
    other JSON types than the ones asked for are not represented, except
    for [high_value_message_ids], whose iteration decides the control
    flow. *)
Module SummaryReply.

Inductive ids_arg :=
| Ids (ids : list str)   (* iterating the value yields these strings *)
| IdsNotIterable.        (* a number, a boolean or null: TypeError *)

Record reply_object := mk_reply {
  r_summary_content : option str;
  r_key_topics : option (list str);
  r_important_events : option (list str);
  r_action_items : option (list str);
  r_high_value_message_ids : option ids_arg
}.

Inductive content :=
| NotJson (result_text : str)    (* json.loads raises JSONDecodeError *)
| NotObject (result_text : str)  (* valid JSON, but not an object: no .get *)
| Object (fields : reply_object).

Record t := mk {
  answer : nat → outcome content;
  requests : nat
}.

Definition create (client : t) : outcome content * t :=
  (answer client (requests client), mk (answer client) (S (requests client))).

End SummaryReply.

Module AIAnalysisService.

(** [int(x)] on a float: truncation toward zero. *)
Definition int_of_float (x : Q) : Z := Z.quot (Qnum x) (Z.pos (Qden x)).

(** Rounding to the nearest integer, ties to even (Python's [round] and
    the rounding of [format]). *)
Definition round_half_even (x : Q) : Z :=
  let f := Qfloor x in
  let twice_rest := (2 * (x - inject_Z f))%Q in
  if Qle_bool twice_rest 1 && negb (Qle_bool 1 twice_rest) then f
  else if Qle_bool 1 twice_rest && negb (Qle_bool twice_rest 1) then f + 1
  else if Z.even f then f else f + 1.

(** [f"{x:.1f}"] for [x >= 0]. *)
Definition format_1f (x : Q) : str :=
  let tenths := round_half_even (x * 10) in
  pystr.of_Z (tenths / 10) ++ py "." ++ pystr.of_Z (tenths mod 10).

(** [sum(k.weight for k in keywords)] *)
Definition keyword_score (keywords : list KeywordConfig.t) : Q :=
  foldl Qplus 0%Q (KeywordConfig.weight <$> keywords).

(** The [except json.JSONDecodeError] branch. *)
Definition parse_failure_result (trigger_msg : Message.t)
  : UrgencyAnalysisResult.t :=
  UrgencyAnalysisResult.mk false 3 (py "none")
    [Message.message_id trigger_msg]
    (py "AI分析失败，默认为低优先级") [py "AI解析错误"].

(** The outer [except Exception] branch. *)
Definition keyword_fallback_result (trigger_msg : Message.t)
    (keywords : list KeywordConfig.t) : UrgencyAnalysisResult.t :=
  let keyword_score := keyword_score keywords in
  let is_urgent := Qle_bool 3 keyword_score in
  UrgencyAnalysisResult.mk is_urgent
    (Z.min 10 (Z.max 1 (int_of_float (keyword_score * 2))))
    (if is_urgent then py "single" else py "none")
    [Message.message_id trigger_msg]
    (py "关键词触发 (权重:" ++ format_1f keyword_score ++ py ")")
    (KeywordConfig.keyword <$> keywords).

Inductive exn :=
| JSONDecodeError
| OtherException.

(** The inner [try]: [json.loads] and the construction of the result, with
    its handler for [json.JSONDecodeError] only. *)
Definition parse_reply (reply : OpenAI.content) (trigger_msg : Message.t)
  : exn + UrgencyAnalysisResult.t :=
  let body :=
    match reply with
    | OpenAI.NotJson _ => inl JSONDecodeError
    | OpenAI.NotObject _ => inl OtherException
    | OpenAI.Object result_data =>
        match default (OpenAI.IntOf 1) (OpenAI.r_urgency_score result_data) with
        | OpenAI.IntRaises => inl OtherException
        | OpenAI.IntOf score =>
            inr (UrgencyAnalysisResult.mk
                   (default false (OpenAI.r_is_urgent result_data))
                   score
                   (default (py "none") (OpenAI.r_push_type result_data))
                   (default [Message.message_id trigger_msg]
                      (OpenAI.r_push_message_ids result_data))
                   (default (py "AI分析完成") (OpenAI.r_summary result_data))
                   (default [] (OpenAI.r_key_factors result_data)))
        end
    end in
  match body with
  | inl JSONDecodeError => inr (parse_failure_result trigger_msg)
  | _ => body
  end.

(** [analyze_urgency]. The prompt text is not represented: it only reaches
    the provider, whose answer is part of [client]. The outer [try] sends
    one request and runs the inner [try]; its handler turns every exception
    into the keyword fallback, so the method always returns a result. *)
Definition analyze_urgency (client : OpenAI.t) (trigger_msg : Message.t)
    (context_msgs : list Message.t) (keywords : list KeywordConfig.t)
  : UrgencyAnalysisResult.t * OpenAI.t :=
  let '(response, client) := OpenAI.create client in
  let body :=
    match response with
    | Raises => inl OtherException
    | Returns reply => parse_reply reply trigger_msg
    end in
  (match body with
   | inr result => result
   | inl _ => keyword_fallback_result trigger_msg keywords
   end,
   client).

(** The sender statistics of [_generate_fallback_summary]: a dict, which
    keeps its keys in the order of their first insertion. *)
Fixpoint count_sender (name : str) (senders : list (str * Z)) : list (str * Z) :=
  match senders with
  | [] => [(name, 1)]
  | (n, c) :: rest =>
      if bool_decide (n = name) then (n, c + 1) :: rest
      else (n, c) :: count_sender name rest
  end.

Definition count_senders (messages : list Message.t) : list (str * Z) :=
  foldl (λ senders msg, count_sender (Message.sender_name msg) senders) []
    messages.

Definition top_senders (messages : list Message.t) : list (str * Z) :=
  take 3 (sorted_desc snd (count_senders messages)).

(** [_generate_fallback_summary]; [now] is the reading of [datetime.now]
    that fills [created_at]. The method is called with a non-empty list
    only ([messages[0]] of an empty list would raise). *)
Definition _generate_fallback_summary (now : Z) (chat_name : str)
    (messages : list Message.t) (date : str) : DailySummary.t :=
  let top_senders := top_senders messages in
  let summary_content :=
    py "今日" ++ chat_name ++ py "共有"
    ++ pystr.of_Z (Z.of_nat (length messages)) ++ py "条消息。" in
  let summary_content :=
    match top_senders with
    | [] => summary_content
    | _ :: _ =>
        summary_content ++ py "主要发言人："
        ++ pystr.join (py ", ")
             ((λ item, item.1 ++ py "(" ++ pystr.of_Z item.2 ++ py "条)")
                <$> top_senders)
        ++ py "。"
    end in
  DailySummary.mk date (default [] (Message.chat_id <$> head messages))
    chat_name summary_content [py "日常交流"] [] []
    (Z.of_nat (length messages)) 0 (Message.message_id <$> take 10 messages)
    now.

(** [generate_daily_summary]. The prompt is not represented: it only
    reaches the provider. An empty list is answered without a request;
    otherwise one request is sent, and every exception, from the call or
    from reading the reply, ends in the fallback summary. *)
Definition generate_daily_summary (now : Z) (client : SummaryReply.t)
    (chat_name : str) (messages : list Message.t) (date : str)
  : DailySummary.t * SummaryReply.t :=
  match messages with
  | [] =>
      (DailySummary.mk date (py "") chat_name (py "今日无消息") [] [] [] 0 0 []
         now,
       client)
  | first :: _ =>
      let '(response, client) := SummaryReply.create client in
      let fallback := _generate_fallback_summary now chat_name messages date in
      (match response with
       | Returns (SummaryReply.Object result_data) =>
           match default (SummaryReply.Ids [])
                   (SummaryReply.r_high_value_message_ids result_data) with
           | SummaryReply.IdsNotIterable => fallback
           | SummaryReply.Ids high_value_ids =>
               let high_value_count :=
                 length
                   (filter (λ mid, mid ∈ Message.message_id <$> messages)
                      high_value_ids) in
               DailySummary.mk date (Message.chat_id first) chat_name
                 (default (py "AI生成总结失败")
                    (SummaryReply.r_summary_content result_data))
                 (default [] (SummaryReply.r_key_topics result_data))
                 (default [] (SummaryReply.r_important_events result_data))
                 (default [] (SummaryReply.r_action_items result_data))
                 (Z.of_nat (length messages)) (Z.of_nat high_value_count)
                 (Message.message_id <$> messages) now
           end
       | _ => fallback
       end,
       client)
  end.

End AIAnalysisService.

(** ** core/realtime_alerts.py *)

(** The objects the engine and the collector share by reference: the
    database, the AI client and the bot. *)
Record world := mk_world {
  db : DatabaseManager.t;
  client : OpenAI.t;
  bot : Bot.t
}.

Module RealtimeAlertEngine.

Record t := mk {
  config : AlertConfig.t;
  target_user : str;
  _keywords_cache : option (list KeywordConfig.t);
  _last_keyword_update : option Z
}.

(** [__init__] *)
Definition init (config : AlertConfig.t) : t :=
  mk config (AlertConfig.target_user config) None None.

Definition minutes (n : Z) : Z := n * 60000000.

(** [_get_keywords]: the cache is reloaded when it is unset or when more
    than five minutes have passed since the last reload. *)
Definition needs_refresh (self : t) (now : Z) : bool :=
  match _keywords_cache self, _last_keyword_update self with
  | Some _, Some last => minutes 5 <? now - last
  | _, _ => true
  end.

Definition _get_keywords (now : Z) (commits : bool) (db : DatabaseManager.t)
    (self : t) : t * list KeywordConfig.t :=
  if needs_refresh self now then
    let keywords := DatabaseManager.get_active_keywords commits db in
    (mk (config self) (target_user self) (Some keywords) (Some now), keywords)
  else (self, default [] (_keywords_cache self)).

(** [check_urgent_keywords] *)
Definition check_urgent_keywords (now : Z) (commits : bool)
    (db : DatabaseManager.t) (self : t) (message : Message.t)
  : t * list KeywordConfig.t :=
  let '(self, keywords) := _get_keywords now commits db self in
  let content := Message.content message ++ Message.extracted_text message in
  (self,
   filter (λ k, pystr.contains (KeywordConfig.keyword k) content = true) keywords).

(** [timestamp.strftime('%H:%M:%S')] *)
Definition strftime_HMS (t : Z) : str :=
  pystr.two_digits ((t / 3600000000) mod 24) ++ py ":"
  ++ pystr.two_digits ((t / 60000000) mod 60) ++ py ":"
  ++ pystr.two_digits ((t / 1000000) mod 60).

(** The loop of [build_push_content] over [push_message_ids]: at most three
    context lines, the trigger itself and unknown ids skipped. *)
Fixpoint context_lines (trigger_id : str) (context_msgs : list Message.t)
    (ids : list str) (context_count : nat) : str :=
  match ids with
  | [] => []
  | msg_id :: ids' =>
      if negb (bool_decide (msg_id = trigger_id)) && (context_count <? 3)%nat
      then
        match filter (λ m, Message.message_id m = msg_id) context_msgs with
        | context_msg :: _ =>
            let content := Message.content context_msg in
            let content_preview :=
              if (50 <? length content)%nat then take 50 content ++ py "..."
              else content in
            py "
• " ++ Message.sender_name context_msg ++ py "：" ++ content_preview
            ++ context_lines trigger_id context_msgs ids' (S context_count)
        | [] => context_lines trigger_id context_msgs ids' context_count
        end
      else context_lines trigger_id context_msgs ids' context_count
  end.

Definition build_push_content (trigger_msg : Message.t)
    (context_msgs : list Message.t) (ai_result : UrgencyAnalysisResult.t)
  : str :=
  let score := UrgencyAnalysisResult.urgency_score ai_result in
  let emoji :=
    if 9 <=? score then py "🚨🔥"
    else if 7 <=? score then py "⚠️🔔"
    else py "💡📢" in
  let push_content :=
    emoji ++ py " 【重要消息提醒】

📱 群聊：" ++ Message.chat_name trigger_msg ++ py "
👤 发送人：" ++ Message.sender_name trigger_msg ++ py "
⏰ 时间：" ++ strftime_HMS (Message.timestamp trigger_msg) ++ py "
🎯 紧急度：" ++ pystr.of_Z score ++ py "/10

💡 AI分析：" ++ UrgencyAnalysisResult.summary ai_result ++ py "

📝 触发消息：
" ++ Message.content trigger_msg in
  let push_content :=
    if negb (bool_decide (Message.extracted_text trigger_msg = []))
       && negb (pystr.mem (Message.extracted_text trigger_msg) failure_sentinels)
    then push_content ++ py "
🔍 提取内容：" ++ Message.extracted_text trigger_msg
    else push_content in
  let ids := UrgencyAnalysisResult.push_message_ids ai_result in
  let push_content :=
    if bool_decide (UrgencyAnalysisResult.push_type ai_result = py "context")
       && (1 <? length ids)%nat
    then push_content ++ py "

📋 相关上下文：" ++ context_lines (Message.message_id trigger_msg) context_msgs ids 0
    else push_content in
  match UrgencyAnalysisResult.key_factors ai_result with
  | [] => push_content
  | key_factors =>
      push_content ++ py "

🔑 关键因素：" ++ pystr.join (py ", ") (take 3 key_factors)
  end.

(** [execute_push]: the push counts as sent when the bot's answer has a
    [code] attribute equal to 200; an answer without it, another code, or an
    exception give [False]. *)
Definition execute_push (bot : Bot.t) (self : t) (trigger_msg : Message.t)
    (context_msgs : list Message.t) (ai_result : UrgencyAnalysisResult.t)
  : Bot.t * bool :=
  let push_content := build_push_content trigger_msg context_msgs ai_result in
  let '(result, bot) := Bot.send_text bot (target_user self) push_content in
  match result with
  | Returns r => (bot, bool_decide (Bot.code r = Some 200))
  | Raises => (bot, false)
  end.

(** Clock readings and SQLite outcomes met by one call of
    [process_potential_alert]. *)
Record alert_env := mk_alert_env {
  now : Z;                      (* datetime.now() for today_start *)
  context_commits : bool;       (* get_messages_by_date_range *)
  push_time : Z;                (* RealtimeAlert's default_factory *)
  alert_current_timestamp : Z;  (* CURRENT_TIMESTAMP of the insert *)
  alert_commits : bool          (* save_realtime_alert *)
}.

Definition microseconds_per_day : Z := 86400000000.

(** [datetime.now().replace(hour=0, minute=0, second=0, microsecond=0)] *)
Definition today_start (now : Z) : Z := now - now mod microseconds_per_day.

(** The dispatch gate of [process_potential_alert]. *)
Definition passes_gate (self : t) (analysis_result : UrgencyAnalysisResult.t)
  : bool :=
  UrgencyAnalysisResult.is_urgent analysis_result
  && (AlertConfig.urgency_threshold (config self)
      <=? UrgencyAnalysisResult.urgency_score analysis_result).

(** What [process_potential_alert] does once the analysis is known. *)
Definition dispatch (env : alert_env) (w : world) (self : t)
    (trigger_message : Message.t) (triggered_keywords : list KeywordConfig.t)
    (context_messages : list Message.t)
    (analysis_result : UrgencyAnalysisResult.t) : world :=
  if passes_gate self analysis_result then
    let '(bot, success) :=
      execute_push (bot w) self trigger_message context_messages analysis_result in
    if success then
      let alert :=
        RealtimeAlert.mk
          (Message.message_id trigger_message)
          (Message.chat_id trigger_message)
          (Message.chat_name trigger_message)
          (UrgencyAnalysisResult.summary analysis_result)
          (KeywordConfig.keyword <$> triggered_keywords)
          (UrgencyAnalysisResult.push_message_ids analysis_result)
          (UrgencyAnalysisResult.urgency_score analysis_result)
          (push_time env) in
      let '(db, _) :=
        DatabaseManager.save_realtime_alert (alert_commits env)
          (alert_current_timestamp env) (db w) alert in
      mk_world db (client w) bot
    else mk_world (db w) (client w) bot
  else w.

(** The context query of [process_potential_alert]. *)
Definition context_of (env : alert_env) (w : world) (self : t)
    (trigger_message : Message.t) : list Message.t :=
  DatabaseManager.get_messages_by_date_range (context_commits env) (db w)
    (Message.chat_id trigger_message) (today_start (now env))
    (Message.timestamp trigger_message)
    (Some (AlertConfig.max_context_messages (config self))).

Definition process_potential_alert (env : alert_env) (w : world) (self : t)
    (trigger_message : Message.t) (triggered_keywords : list KeywordConfig.t)
  : world :=
  let context_messages := context_of env w self trigger_message in
  let '(analysis_result, client) :=
    AIAnalysisService.analyze_urgency (client w) trigger_message
      context_messages triggered_keywords in
  dispatch env (mk_world (db w) client (bot w)) self trigger_message
    triggered_keywords context_messages analysis_result.

(** [check_and_process] *)
Definition check_and_process (keywords_now : Z) (keywords_commits : bool)
    (env : alert_env) (w : world) (self : t) (message : Message.t)
  : world * t :=
  if negb (AlertConfig.enable_realtime_alerts (config self))
     || bool_decide (target_user self = [])
  then (w, self)
  else
    let '(self, triggered_keywords) :=
      check_urgent_keywords keywords_now keywords_commits (db w) self message in
    match triggered_keywords with
    | [] => (w, self)
    | _ :: _ =>
        (process_potential_alert env w self message triggered_keywords, self)
    end.

Definition set_targets (self : t) (target : str) : t :=
  mk (AlertConfig.set_target_user (config self) target) target
     (_keywords_cache self) (_last_keyword_update self).

(** The body of [update_target_user], given what the call
    [self.db.set_config(...)] does. *)
Definition update_target_user_after (set_config : outcome bool) (self : t)
    (new_target : str) : t * bool :=
  let old_target := target_user self in
  let self := set_targets self new_target in
  match set_config with
  | Returns success =>
      if success then (self, true)
      else (set_targets self old_target, false)
  | Raises => (self, false)
  end.

(** [update_target_user] over [DatabaseManager.set_config], which catches
    every SQLite error itself and returns [False]. *)
Definition update_target_user (commits : bool) (db : DatabaseManager.t)
    (self : t) (new_target : str) : DatabaseManager.t * t * bool :=
  let '(db, success) :=
    DatabaseManager.set_config commits db (py "target_user") new_target
      (py "接收推送的用户微信ID") in
  let '(self, result) :=
    update_target_user_after (Returns success) self new_target in
  (db, self, result).

End RealtimeAlertEngine.

(** ** core/message_collector.py *)

Module MessageCollector.

(** The [stats] dict; its four keys are fixed at construction. *)
Record stats := mk_stats {
  total_messages : Z;
  filtered_messages : Z;
  processed_messages : Z;
  error_messages : Z
}.

Record t := mk {
  dedup_engine : list DeduplicationEngine.dedup_row;
  alert_engine : option RealtimeAlertEngine.t;
  statistics : stats
}.

(** Clock readings and SQLite outcomes met by one call of
    [process_message]. *)
Record env := mk_env {
  dedup_now : Z;
  dedup_current_timestamp : Z;
  dedup_commits : bool;
  save_commits : bool;
  keywords_now : Z;
  keywords_commits : bool;
  alert : RealtimeAlertEngine.alert_env
}.

Definition count_filtered (s : stats) : stats :=
  mk_stats (total_messages s) (filtered_messages s + 1)
    (processed_messages s) (error_messages s).

Definition count_processed (s : stats) : stats :=
  mk_stats (total_messages s) (filtered_messages s)
    (processed_messages s + 1) (error_messages s).

(** [process_message]: duplicate check, then storage, then the alert
    engine. *)
Definition process_message (e : env) (w : world) (self : t)
    (message : Message.t) : world * t :=
  let '(table, duplicate) :=
    DeduplicationEngine.is_duplicate (dedup_commits e) (dedup_now e)
      (dedup_current_timestamp e) (dedup_engine self) message in
  if duplicate then
    (w, mk table (alert_engine self) (count_filtered (statistics self)))
  else
    let '(db, success) :=
      DatabaseManager.save_message (save_commits e) (db w) message in
    if negb success then (w, mk table (alert_engine self) (statistics self))
    else
      let w := mk_world db (client w) (bot w) in
      let counted := count_processed (statistics self) in
      match alert_engine self with
      | None => (w, mk table None counted)
      | Some engine =>
          let '(w, engine) :=
            RealtimeAlertEngine.check_and_process (keywords_now e)
              (keywords_commits e) (alert e) w engine message in
          (w, mk table (Some engine) counted)
      end.

(** A [wxhook] event as far as the collector reads it. [fromUser] is empty
    when the attribute is [None] or [""], which the code treats alike;
    [content] is the string content, [None] when the attribute is [None]
    (contents of other types are not represented); [msgId] holds
    [str(event.msgId)] of a truthy id; [createTime] holds what
    [datetime.fromtimestamp(event.createTime)] does for a truthy value. *)
Record event := mk_event {
  fromUser : str;
  content : option str;
  msgId : option str;
  createTime : option (outcome Z)
}.

(** What the lookups [get_sender_name] and [get_chat_name] answer, and the
    clocks read by [extract_message_info]. Both lookups catch every exception
    of the bot and fall back on the id. *)
Record directory := mk_directory {
  get_sender_name : str → str → str;
  get_chat_name : str → str;
  time_ms : Z;       (* int(time.time() * 1000) *)
  datetime_now : Z   (* datetime.now() *)
}.

Definition count_total (s : stats) : stats :=
  mk_stats (total_messages s + 1) (filtered_messages s)
    (processed_messages s) (error_messages s).

(** [extract_message_info]: the counter is incremented first; an event
    outside a group chat, or one whose timestamp cannot be converted, gives
    [None]. *)
Definition extract_message_info (d : directory) (s : stats) (ev : event)
    (message_type : str) : stats * option Message.t :=
  let s := count_total s in
  let is_group :=
    negb (bool_decide (fromUser ev = []))
    && pystr.endswith (fromUser ev) (py "@chatroom") in
  if negb is_group then (s, None)
  else
    let '(sender_id, sender_name, text) :=
      match content ev with
      | Some ((_ :: _) as c) =>
          match pystr.split_colon c with
          | Some (sender_id, text) =>
              (sender_id, get_sender_name d (pystr.strip sender_id) (fromUser ev),
               text)
          | None => (fromUser ev, py "系统消息", c)
          end
      | _ => (py "unknown", py "系统消息", py "[" ++ message_type ++ py "消息]")
      end in
    let chat_name := get_chat_name d (fromUser ev) in
    let message_id := default (pystr.of_Z (time_ms d)) (msgId ev) in
    match default (Returns (datetime_now d)) (createTime ev) with
    | Returns timestamp =>
        (s, Some (Message.init message_id (fromUser ev) chat_name sender_id
                    sender_name message_type (pystr.strip text) timestamp
                    (py "") false 0))
    | Raises => (s, None)
    end.

(** [extract_image_path]: the event's content when it ends like an image
    file name, the empty string otherwise. *)
Definition extract_image_path (ev : event) : str :=
  match content ev with
  | Some ((_ :: _) as c) =>
      if existsb (pystr.endswith c)
           [py ".jpg"; py ".png"; py ".jpeg"; py ".gif"; py ".bmp"]
      then c else []
  | _ => []
  end.

(** What [self.bot.ocr(image_path)] leads to. *)
Inductive ocr_outcome :=
| OcrText (ocr_text : str)   (* code 200 with data; the text may be empty *)
| OcrNoData                  (* code 200, no data *)
| OcrFailed                  (* another code, or no code *)
| OcrException.              (* the call raises *)

(** [process_image_ocr]; [path_exists] is [os.path.exists(image_path)]. *)
Definition process_image_ocr (path_exists : bool) (o : ocr_outcome)
    (message : Message.t) (ev : event) : Message.t :=
  Message.set_extracted_text message
    (if negb (bool_decide (extract_image_path ev = [])) && path_exists then
       match o with
       | OcrText [] => py "[图片无文字内容]"
       | OcrText ocr_text => ocr_text
       | OcrNoData => py "[OCR无结果]"
       | OcrFailed => py "[图片OCR失败]"
       | OcrException => py "[图片处理异常]"
       end
     else py "[图片路径获取失败]").

(** What creating the directory and [self.bot.get_voice_by_msg_id] lead
    to. *)
Inductive voice_outcome :=
| VoiceSaved (basename : str)  (* code 200, data, the file exists *)
| VoicePathInvalid
| VoiceNoData
| VoiceFailed
| VoiceException.

Definition process_voice_to_text (o : voice_outcome) (message : Message.t)
    (ev : event) : Message.t :=
  Message.set_extracted_text message
    match msgId ev with
    | None => py "[语音消息ID缺失]"
    | Some _ =>
        match o with
        | VoiceSaved basename => py "[语音文件已保存: " ++ basename ++ py "]"
        | VoicePathInvalid => py "[语音文件路径无效]"
        | VoiceNoData => py "[语音获取无数据]"
        | VoiceFailed => py "[语音获取失败]"
        | VoiceException => py "[语音处理异常]"
        end
    end.

(** The six handlers registered by [setup_message_handlers]; each one
    extracts the message, adjusts it and hands it to [process_message]. *)
Inductive handler :=
| handle_text
| handle_image (path_exists : bool) (o : ocr_outcome)
| handle_voice (o : voice_outcome)
| handle_emoji
| handle_video
| handle_card.

Definition event_type (h : handler) : str :=
  match h with
  | handle_text => py "text"
  | handle_image _ _ => py "image"
  | handle_voice _ => py "voice"
  | handle_emoji => py "emoji"
  | handle_video => py "video"
  | handle_card => py "card"
  end.

Definition adjust (h : handler) (message : Message.t) (ev : event)
  : Message.t :=
  match h with
  | handle_text => message
  | handle_image path_exists o => process_image_ocr path_exists o message ev
  | handle_voice o => process_voice_to_text o message ev
  | handle_emoji => Message.set_content message (py "[表情包]")
  | handle_video => Message.set_content message (py "[视频消息]")
  | handle_card => Message.set_content message (py "[卡片消息]")
  end.

Definition handle (h : handler) (d : directory) (e : env) (w : world)
    (self : t) (ev : event) : world * t :=
  let '(s, extracted) := extract_message_info d (statistics self) ev (event_type h) in
  let self := mk (dedup_engine self) (alert_engine self) s in
  match extracted with
  | Some message => process_message e w self (adjust h message ev)
  | None => (w, self)
  end.

End MessageCollector.

(** ** utils/helpers.py *)

Module helpers.

(** The civil date of a day number counted from 0001-01-01, in the
    proleptic Gregorian calendar of [datetime]. *)
Definition civil_from_days (days : Z) : Z * Z * Z :=
  let z := days + 306 in
  let era := z / 146097 in
  let doe := z mod 146097 in
  let yoe := (doe - doe / 1460 + doe / 36524 - doe / 146096) / 365 in
  let doy := doe - (365 * yoe + yoe / 4 - yoe / 100) in
  let mp := (5 * doy + 2) / 153 in
  let d := doy - (153 * mp + 2) / 5 + 1 in
  let m := if mp <? 10 then mp + 3 else mp - 9 in
  let y := yoe + era * 400 + (if m <=? 2 then 1 else 0) in
  (y, m, d).

(** [get_date_string(date)] with its default format ["%Y-%m-%d"]; the year
    is written with four digits, as it is for every year from 1000 on. *)
Definition get_date_string (date : Z) : str :=
  let '(y, m, d) := civil_from_days (date / 86400000000) in
  (if y <? 10 then py "000" else if y <? 100 then py "00"
   else if y <? 1000 then py "0" else [])
  ++ pystr.of_Z y ++ py "-" ++ pystr.two_digits m ++ py "-" ++ pystr.two_digits d.

End helpers.

(** ** core/daily_summary.py *)

Module DailySummaryGenerator.

(** [self.target_user] is copied from the configuration when the generator
    is built. *)
Record t := mk {
  target_user : str
}.

(** The database, the summary provider and the bot the generator works
    on. *)
Record state := mk_state {
  s_db : DatabaseManager.t;
  s_client : SummaryReply.t;
  s_bot : Bot.t
}.

(** Clock readings and SQLite outcomes met by one run; what is read or
    done once per chat is given by chat id. *)
Record env := mk_env {
  now : Z;                      (* datetime.now() for the default date *)
  chats_commit : bool;          (* get_active_chats *)
  query_commits : str → bool;   (* get_messages_by_date_range *)
  created_now : str → Z;        (* DailySummary's default_factory *)
  save_commits : str → bool;    (* save_daily_summary *)
  current_timestamp : str → Z;  (* CURRENT_TIMESTAMP of the insert *)
  report_now : Z                (* datetime.now() of the report *)
}.

(** [generate_chat_summary]. [generate_daily_summary] handles every
    exception of the provider itself, so the [except] branch with
    [generate_simple_summary] is not reached. *)
Definition generate_chat_summary (e : env) (database : DatabaseManager.t)
    (client : SummaryReply.t) (chat_id chat_name : str) (target_date : Z)
  : option DailySummary.t * SummaryReply.t :=
  let start_date := RealtimeAlertEngine.today_start target_date in
  let end_date := start_date + 86399999999 in
  let messages :=
    DatabaseManager.get_messages_by_date_range (query_commits e chat_id)
      database chat_id start_date end_date None in
  match messages with
  | [] => (None, client)
  | _ :: _ =>
      let date_str := helpers.get_date_string target_date in
      let '(summary, client) :=
        AIAnalysisService.generate_daily_summary (created_now e chat_id) client
          chat_name messages date_str in
      (Some summary, client)
  end.

(** The body of the loop of [generate_all_summaries] for one chat. *)
Definition summarize_chat (e : env) (target_date : Z)
    (acc : state * list DailySummary.t) (chat : DatabaseManager.active_chat)
  : state * list DailySummary.t :=
  let '(st, summaries) := acc in
  let '(summary, client) :=
    generate_chat_summary e (s_db st) (s_client st)
      (DatabaseManager.ac_chat_id chat) (DatabaseManager.ac_chat_name chat)
      target_date in
  match summary with
  | Some summary =>
      if 0 <? DailySummary.message_count summary then
        let '(database, _) :=
          DatabaseManager.save_daily_summary
            (save_commits e (DatabaseManager.ac_chat_id chat))
            (current_timestamp e (DatabaseManager.ac_chat_id chat)) (s_db st)
            summary in
        (mk_state database client (s_bot st), summaries ++ [summary])
      else (mk_state (s_db st) client (s_bot st), summaries)
  | None => (mk_state (s_db st) client (s_bot st), summaries)
  end.

Definition sum_of (f : DailySummary.t → Z) (summaries : list DailySummary.t) : Z :=
  foldl Z.add 0 (f <$> summaries).

(** One entry of the report, numbered [i]. *)
Definition report_entry (i : Z) (summary : DailySummary.t) : str :=
  let content := DailySummary.summary_content summary in
  let entry :=
    py "
🏷️ " ++ pystr.of_Z i ++ py ". " ++ DailySummary.chat_name summary ++ py "
💬 消息数：" ++ pystr.of_Z (DailySummary.message_count summary) ++ py "条
⭐ 重要消息：" ++ pystr.of_Z (DailySummary.high_value_count summary) ++ py "条

📝 今日总结：
" ++ take 200 content ++ (if (200 <? length content)%nat then py "..." else [])
    ++ py "
" in
  let entry :=
    match DailySummary.key_topics summary with
    | [] => entry
    | topics => entry ++ py "🔍 关键话题：" ++ pystr.join (py "、") (take 3 topics) ++ py "
"
    end in
  let entry :=
    match DailySummary.important_events summary with
    | [] => entry
    | events => entry ++ py "📌 重要事件：" ++ pystr.join (py "、") (take 2 events) ++ py "
"
    end in
  match DailySummary.action_items summary with
  | [] => entry
  | actions => entry ++ py "✅ 待办事项：" ++ pystr.join (py "、") (take 2 actions) ++ py "
"
  end.

Fixpoint report_entries (i : Z) (summaries : list DailySummary.t) : str :=
  match summaries with
  | [] => []
  | summary :: rest => report_entry i summary ++ report_entries (i + 1) rest
  end.

(** [build_summary_report]: the list is sorted in place, so the caller's
    list is the sorted one afterwards; the result is the list as sorted and
    the text. *)
Definition build_summary_report (now : Z) (summaries : list DailySummary.t)
    (date_str : str) : list DailySummary.t * str :=
  let summaries := sorted_desc DailySummary.message_count summaries in
  let total_messages := sum_of DailySummary.message_count summaries in
  let total_high_value := sum_of DailySummary.high_value_count summaries in
  let report :=
    py "📊 【每日群聊总结报告】

📅 日期：" ++ date_str ++ py "
📈 统计概览：
• 活跃群聊：" ++ pystr.of_Z (Z.of_nat (length summaries)) ++ py "个
• 总消息数：" ++ pystr.of_Z total_messages ++ py "条
• 重要消息：" ++ pystr.of_Z total_high_value ++ py "条

" in
  let report := report ++ report_entries 1 (take 10 summaries) in
  let report :=
    if (10 <? length summaries)%nat then
      report ++ py "
... 还有" ++ pystr.of_Z (Z.of_nat (length summaries) - 10)
      ++ py "个群聊的总结已保存到数据库"
    else report in
  (summaries,
   report ++ py "

⏰ 生成时间：" ++ RealtimeAlertEngine.strftime_HMS now).

(** [send_summary_report]: the answer of the bot only decides which line is
    logged. *)
Definition send_summary_report (e : env) (self : t) (bot : Bot.t)
    (summaries : list DailySummary.t) (date_str : str)
  : Bot.t * list DailySummary.t :=
  let '(summaries, report_content) :=
    build_summary_report (report_now e) summaries date_str in
  let '(_, bot) := Bot.send_text bot (target_user self) report_content in
  (bot, summaries).

(** [generate_all_summaries]; without a [target_date] the day before [now]
    is taken, and the subtraction raises [OverflowError] on the first day of
    the calendar. *)
Definition generate_all_summaries (e : env) (self : t) (st : state)
    (target_date : option Z) : outcome (state * list DailySummary.t) :=
  let target_date :=
    match target_date with
    | Some d => Returns d
    | None => if now e <? 86400000000 then Raises else Returns (now e - 86400000000)
    end in
  match target_date with
  | Raises => Raises
  | Returns target_date =>
      let date_str := helpers.get_date_string target_date in
      let active_chats := DatabaseManager.get_active_chats (chats_commit e) (s_db st) in
      let '(st, summaries) :=
        foldl (summarize_chat e target_date) (st, []) active_chats in
      match summaries with
      | _ :: _ =>
          if negb (bool_decide (target_user self = [])) then
            let '(bot, summaries) :=
              send_summary_report e self (s_bot st) summaries date_str in
            Returns (mk_state (s_db st) (s_client st) bot, summaries)
          else Returns (st, summaries)
      | [] => Returns (st, summaries)
      end
  end.

End DailySummaryGenerator.

(** * Notions used to state the properties *)

(** The digest of the primary content plus the extracted text, joined by a
    space and stripped; the extracted text is left out when it is empty or
    one of the failure sentinels. *)
Definition fingerprint (content extracted_text : str) : str :=
  let normalized :=
    if decide (extracted_text = [] ∨ extracted_text ∈ failure_sentinels)
    then pystr.strip content
    else pystr.strip (content ++ py " " ++ extracted_text) in
  hashlib.md5_hexdigest (pystr.encode normalized).

(** Whether the bot's answer to its next [send_text] call counts as a
    delivery for [execute_push]. *)
Definition next_send_succeeds (b : Bot.t) : bool :=
  match Bot.reply b (length (Bot.outbox b)) with
  | Returns r => bool_decide (Bot.code r = Some 200)
  | Raises => false
  end.

(** The row of [realtime_alerts] written for a pushed message. *)
Definition alert_row (env : RealtimeAlertEngine.alert_env) (trigger : Message.t)
    (keywords : list KeywordConfig.t) (analysis : UrgencyAnalysisResult.t)
  : RealtimeAlert.t :=
  RealtimeAlert.mk (Message.message_id trigger) (Message.chat_id trigger)
    (Message.chat_name trigger) (UrgencyAnalysisResult.summary analysis)
    (KeywordConfig.keyword <$> keywords)
    (UrgencyAnalysisResult.push_message_ids analysis)
    (UrgencyAnalysisResult.urgency_score analysis)
    (RealtimeAlertEngine.alert_current_timestamp env).

(** One call of [_get_keywords]: its clock reading, whether its query
    commits, and the database it would read. *)
Record keyword_call := mk_keyword_call {
  call_now : Z;
  call_commits : bool;
  call_db : DatabaseManager.t
}.

(** The clock readings of the calls that reload the cache, in a run of
    [_get_keywords] from the state [self]. *)
Fixpoint refresh_times (self : RealtimeAlertEngine.t) (calls : list keyword_call)
  : list Z :=
  match calls with
  | [] => []
  | c :: rest =>
      let self' :=
        (RealtimeAlertEngine._get_keywords (call_now c) (call_commits c)
           (call_db c) self).1 in
      if RealtimeAlertEngine.needs_refresh self (call_now c)
      then call_now c :: refresh_times self' rest
      else refresh_times self' rest
  end.

Definition five_minutes_apart (t1 t2 : Z) : Prop :=
  RealtimeAlertEngine.minutes 5 < t2 - t1.

Definition digest_key (r : DailySummary.t) : str * str :=
  (DailySummary.date r, DailySummary.chat_id r).

(** One call of [save_daily_summary]: whether it commits, the
    [CURRENT_TIMESTAMP] it reads, and the digest. *)
Record digest_save := mk_digest_save {
  save_commits : bool;
  save_timestamp : Z;
  save_summary : DailySummary.t
}.

Definition run_digest_saves (database : DatabaseManager.t)
    (saves : list digest_save) : DatabaseManager.t :=
  foldl (λ d s,
           (DatabaseManager.save_daily_summary (save_commits s)
              (save_timestamp s) d (save_summary s)).1)
    database saves.

(** The messages of a conversation in a closed time range, as the [WHERE]
    clause selects them. *)
Definition in_range (database : DatabaseManager.t) (cid : str)
    (start_date end_date : Z) : list Message.t :=
  filter (λ r, Message.chat_id r = cid
               ∧ start_date ≤ Message.timestamp r ≤ end_date)
    (DatabaseManager.messages database).

(** "Most recent" as the specification reads it: the last [n] of a list in
    timestamp order. *)
Definition most_recent (n : nat) (sorted : list Message.t) : list Message.t :=
  drop (length sorted - n) sorted.

(** One call into the deduplication engine, with the clock readings and the
    SQLite outcome it meets. *)
Inductive ledger_op :=
| CheckDuplicate (commits : bool) (now current_timestamp : Z) (m : Message.t)
| CleanupOldRecords (commits : bool) (now : Z)
| ForceAddDuplicate (commits : bool) (current_timestamp : Z) (m : Message.t).

Definition ledger_step (table : list DeduplicationEngine.dedup_row)
    (op : ledger_op) : list DeduplicationEngine.dedup_row :=
  match op with
  | CheckDuplicate commits now ts m =>
      (DeduplicationEngine.is_duplicate commits now ts table m).1
  | CleanupOldRecords commits now =>
      DeduplicationEngine.cleanup_old_records commits now table
  | ForceAddDuplicate commits ts m =>
      (DeduplicationEngine.force_add_duplicate commits ts table m).1
  end.

(** The ledger after a sequence of calls on a fresh [message_dedup] table. *)
Definition run_ledger (ops : list ledger_op) : list DeduplicationEngine.dedup_row :=
  foldl ledger_step [] ops.

(** One call of a writing method of [DatabaseManager], with the SQLite
    outcome and the clock readings it meets. *)
Inductive db_op :=
| SaveMessage (commits : bool) (m : Message.t)
| SaveRealtimeAlert (commits : bool) (current_timestamp : Z) (a : RealtimeAlert.t)
| SaveDailySummary (commits : bool) (current_timestamp : Z) (s : DailySummary.t)
| SetConfig (commits : bool) (key value description : str)
| CleanupOldData (commits : bool) (now retention_days : Z)
| InitDatabase.

Definition db_step (database : DatabaseManager.t) (op : db_op)
  : DatabaseManager.t :=
  match op with
  | SaveMessage commits m => (DatabaseManager.save_message commits database m).1
  | SaveRealtimeAlert commits ts a =>
      (DatabaseManager.save_realtime_alert commits ts database a).1
  | SaveDailySummary commits ts s =>
      (DatabaseManager.save_daily_summary commits ts database s).1
  | SetConfig commits key value description =>
      (DatabaseManager.set_config commits database key value description).1
  | CleanupOldData commits now retention_days =>
      DatabaseManager.cleanup_old_data commits now database retention_days
  | InitDatabase => DatabaseManager.init_database database
  end.

Definition run_db_from (database : DatabaseManager.t) (ops : list db_op)
  : DatabaseManager.t :=
  foldl db_step database ops.

(** The database after a sequence of calls on a fresh file. *)
Definition run_db (ops : list db_op) : DatabaseManager.t :=
  run_db_from DatabaseManager.new ops.

Definition saved_message (op : db_op) : option Message.t :=
  match op with
  | SaveMessage true m => Some m
  | _ => None
  end.

(** The messages of the [save_message] calls that committed, in call order,
    and those of one conversation among them. *)
Definition committed_saves (ops : list db_op) : list Message.t :=
  omap saved_message ops.

Definition committed_saves_of (cid : str) (ops : list db_op) : list Message.t :=
  filter (λ m, Message.chat_id m = cid) (committed_saves ops).

(** Whether a call writes the configuration key [key]. *)
Definition writes_config (key : str) (op : db_op) : Prop :=
  match op with
  | SetConfig true k _ _ => k = key
  | _ => False
  end.

#[global] Instance writes_config_dec (key : str) (op : db_op)
  : Decision (writes_config key op).
Proof. destruct op as [| | | [] k ? ? | |]; cbn; apply _. Defined.

Definition by_recency (a b : DatabaseManager.active_chat) : Prop :=
  DatabaseManager.ac_last_message_time b ≤ DatabaseManager.ac_last_message_time a.

(** What the [UPDATE] of [is_duplicate] does to a row, for the fingerprint
    [h] and the timestamp [ts]. *)
Definition bump_row (h : str) (ts : Z) (r : DeduplicationEngine.dedup_row)
  : DeduplicationEngine.dedup_row :=
  if bool_decide (DeduplicationEngine.content_hash r = h)
  then DeduplicationEngine.mk_row (DeduplicationEngine.content_hash r)
         (DeduplicationEngine.first_message_id r)
         (DeduplicationEngine.occurrence_count r + 1) ts
  else r.

(** The shape every run keeps in the ledger. *)
Definition ledger_ok (table : list DeduplicationEngine.dedup_row) : Prop :=
  NoDup (DeduplicationEngine.content_hash <$> table)
  ∧ Forall (λ r, 1 ≤ DeduplicationEngine.occurrence_count r) table.

(** The shape every run keeps in the database. *)
Definition database_ok (database : DatabaseManager.t) : Prop :=
  NoDup (Message.message_id <$> DatabaseManager.messages database)
  ∧ NoDup (DatabaseManager.chat_id <$> DatabaseManager.chats database)
  ∧ NoDup (digest_key <$> DatabaseManager.daily_summaries database)
  ∧ NoDup (DatabaseManager.keyword <$> DatabaseManager.alert_keywords database)
  ∧ (∀ m, m ∈ DatabaseManager.messages database →
          Message.chat_id m
            ∈ DatabaseManager.chat_id <$> DatabaseManager.chats database)
  ∧ Forall (λ r, DatabaseManager.is_active r = true)
      (DatabaseManager.chats database).

(** The row of a conversation after its committed saves [saves]. *)
Definition chat_row_after (cid : str) (saves : list Message.t)
  : list DatabaseManager.chat_row :=
  match last saves with
  | Some m =>
      [DatabaseManager.mk_chat cid (Message.chat_name m) true
         (Message.timestamp m) (Z.of_nat (length saves))]
  | None => []
  end.

(** One call of [update_target_user]: whether its [set_config] commits, and
    the new target. *)
Record target_update := mk_target_update {
  update_commits : bool;
  update_target : str
}.

Definition run_target_updates (database : DatabaseManager.t)
    (self : RealtimeAlertEngine.t) (updates : list target_update)
  : DatabaseManager.t * RealtimeAlertEngine.t :=
  foldl (λ state u,
           (RealtimeAlertEngine.update_target_user (update_commits u) state.1
              state.2 (update_target u)).1)
    (database, self) updates.

(** The engine's two copies of the target and the stored configuration
    value agree. *)
Definition target_in_sync (database : DatabaseManager.t)
    (self : RealtimeAlertEngine.t) : Prop :=
  AlertConfig.target_user (RealtimeAlertEngine.config self)
  = RealtimeAlertEngine.target_user self
  ∧ DatabaseManager.get_config true database (py "target_user") (py "")
    = RealtimeAlertEngine.target_user self.

(** One event delivered to the collector: the handler it reaches, the
    answers of the lookups, and the clocks and SQLite outcomes it meets. *)
Record delivery := mk_delivery {
  delivery_handler : MessageCollector.handler;
  delivery_directory : MessageCollector.directory;
  delivery_env : MessageCollector.env;
  delivery_event : MessageCollector.event
}.

Definition deliver (state : world * MessageCollector.t) (c : delivery)
  : world * MessageCollector.t :=
  MessageCollector.handle (delivery_handler c) (delivery_directory c)
    (delivery_env c) state.1 state.2 (delivery_event c).

Definition run_collector (w : world) (self : MessageCollector.t)
    (deliveries : list delivery) : world * MessageCollector.t :=
  foldl deliver (w, self) deliveries.

(** The number of messages sent under a name. *)
Definition messages_of (name : str) (messages : list Message.t) : Z :=
  Z.of_nat (length (filter (λ m, Message.sender_name m = name) messages)).

(** The sender statistics are right for [messages]: one entry per sender,
    holding the number of that sender's messages. *)
Definition counts_senders_of (senders : list (str * Z))
    (messages : list Message.t) : Prop :=
  NoDup senders.*1
  ∧ ∀ name c, (name, c) ∈ senders ↔ c = messages_of name messages ∧ 0 < c.

(** The messages of a chat on the day of [target_date], as
    [generate_chat_summary] reads them. *)
Definition day_messages (e : DailySummaryGenerator.env)
    (database : DatabaseManager.t) (target_date : Z) (cid : str)
  : list Message.t :=
  DatabaseManager.get_messages_by_date_range
    (DailySummaryGenerator.query_commits e cid) database cid
    (RealtimeAlertEngine.today_start target_date)
    (RealtimeAlertEngine.today_start target_date + 86399999999) None.

(** The chats among [chats] for which that day has messages. *)
Definition busy_among (e : DailySummaryGenerator.env)
    (database : DatabaseManager.t) (target_date : Z)
    (chats : list DatabaseManager.active_chat) : list DatabaseManager.active_chat :=
  filter (λ c, day_messages e database target_date (DatabaseManager.ac_chat_id c)
               ≠ [])
    chats.

Definition busy_chats (e : DailySummaryGenerator.env)
    (database : DatabaseManager.t) (target_date : Z)
  : list DatabaseManager.active_chat :=
  busy_among e database target_date
    (DatabaseManager.get_active_chats (DailySummaryGenerator.chats_commit e)
       database).

(** What identifies a digest and what it counts. *)
Definition digest_info (s : DailySummary.t) : str * Z * str :=
  (DailySummary.chat_id s, DailySummary.message_count s, DailySummary.date s).

Definition expected_info (e : DailySummaryGenerator.env)
    (database : DatabaseManager.t) (target_date : Z)
    (c : DatabaseManager.active_chat) : str * Z * str :=
  (DatabaseManager.ac_chat_id c,
   Z.of_nat
     (length (day_messages e database target_date (DatabaseManager.ac_chat_id c))),
   helpers.get_date_string target_date).

(** The call of [save_daily_summary] the generator makes for a digest. *)
Definition digest_save_of (e : DailySummaryGenerator.env) (s : DailySummary.t)
  : digest_save :=
  mk_digest_save
    (DailySummaryGenerator.save_commits e (DailySummary.chat_id s))
    (DailySummaryGenerator.current_timestamp e (DailySummary.chat_id s)) s.

(** The rows of the digest table for one date and chat. *)
Definition digests_of (database : DatabaseManager.t) (date cid : str)
  : list DailySummary.t :=
  filter (λ r, digest_key r = (date, cid))
    (DatabaseManager.daily_summaries database).

(** * Sample data: one chat room on the morning of 15 January 2024 *)

Definition room : str := py "room@chatroom".

Definition text_message (message_id content : str) (timestamp : Z) : Message.t :=
  Message.init message_id room (py "运维群") (py "wxid_a") (py "小王")
    (py "text") content timestamp (py "") false 0.

(** Monday 15 January 2024, 10:00:00, and later readings of the same day. *)
Definition ten_o_clock : Z := 63840909600000000.
Definition seconds (n : Z) : Z := n * 1000000.

Definition alarm_1 : Message.t :=
  text_message (py "msg_1") (py "服务器故障，紧急处理") ten_o_clock.

Definition alarm_2 : Message.t :=
  text_message (py "msg_2") (py "服务器故障，紧急处理") (ten_o_clock + seconds 60).


Definition blank_image_1 : Message.t :=
  Message.set_extracted_text
    (Message.init (py "msg_1") (py "room@chatroom") (py "room") (py "wxid_a")
       (py "A") (py "image") (py "") 63840909600000000 (py "") false 0)
    (py "明天会议取消").

Definition blank_image_2 : Message.t :=
  Message.set_extracted_text
    (Message.init (py "msg_2") (py "room@chatroom") (py "room") (py "wxid_b")
       (py "B") (py "image") (py " 　") 63840909660000000 (py "") false 0)
    (py "明天会议取消").

(** A ledger in which the fingerprint of [blank_image_1] is already
    recorded, as [force_add_duplicate] writes it. *)
Definition ledger_with_blank_image : list DeduplicationEngine.dedup_row :=
  (DeduplicationEngine.force_add_duplicate true ten_o_clock [] blank_image_1).1.

(** Four messages of one morning; the last one triggers the analysis. *)
Definition morning : list Message.t :=
  [ text_message (py "msg_1") (py "早上好") ten_o_clock;
    text_message (py "msg_2") (py "今天发版") (ten_o_clock + seconds 60);
    text_message (py "msg_3") (py "发版失败了") (ten_o_clock + seconds 120);
    text_message (py "msg_4") (py "服务器故障，紧急处理") (ten_o_clock + seconds 180) ].

Definition morning_db : DatabaseManager.t :=
  foldl (λ d m, (DatabaseManager.save_message true d m).1) DatabaseManager.new
    morning.

(** The example of the specification: 紧急 (2.0) and deadline (2.0). *)
Definition urgent_and_deadline : list KeywordConfig.t :=
  [ KeywordConfig.mk (py "紧急") (py "urgent") (20 # 10) true;
    KeywordConfig.mk (py "deadline") (py "urgent") (20 # 10) true ].

(** The scenario of the specification: the classifier answers urgent with
    score 8. *)
Definition urgent_eight : UrgencyAnalysisResult.t :=
  UrgencyAnalysisResult.mk true 8 (py "single") [py "msg_1"]
    (py "服务器故障需要立即处理") [py "故障"; py "紧急"].

(** A provider that cannot be reached and a bot that delivers. *)
Definition unreachable_provider : OpenAI.t := OpenAI.mk (λ _, Raises) 0.


Definition delivering_bot : Bot.t :=
  Bot.mk (λ _, Returns (Bot.mk_response (Some 200) None)) [].

Definition failing_bot : Bot.t :=
  Bot.mk (λ _, Returns (Bot.mk_response (Some 500) (Some (py "timeout")))) [].

Definition default_alert_config : AlertConfig.t :=
  AlertConfig.mk true 6 10 (py "wxid_owner").

Definition engine_0 : RealtimeAlertEngine.t :=
  RealtimeAlertEngine.init default_alert_config.

Definition engine_old : RealtimeAlertEngine.t :=
  RealtimeAlertEngine.init (AlertConfig.mk true 6 10 (py "wxid_old")).

Definition world_0 : world :=
  mk_world DatabaseManager.new unreachable_provider delivering_bot.

Definition collector_0 : MessageCollector.t :=
  MessageCollector.mk [] (Some engine_0) (MessageCollector.mk_stats 0 0 0 0).

(** Every clock reads [t] and every SQLite transaction commits. *)
Definition alert_env_at (t : Z) : RealtimeAlertEngine.alert_env :=
  RealtimeAlertEngine.mk_alert_env t true t t true.

Definition env_at (t : Z) : MessageCollector.env :=
  MessageCollector.mk_env t t true true t true (alert_env_at t).

(** The state after [alarm_1] went through the collector. *)
Definition after_alarm_1 : world * MessageCollector.t :=
  MessageCollector.process_message (env_at ten_o_clock) world_0 collector_0 alarm_1.

Definition digest_v1 : DailySummary.t :=
  DailySummary.mk (py "2024-01-15") room (py "运维群") (py "上午的总结")
    [py "故障"] [] [] 12 1 [py "msg_1"] ten_o_clock.

Definition digest_v2 : DailySummary.t :=
  DailySummary.mk (py "2024-01-15") room (py "运维群") (py "全天的总结")
    [py "故障"; py "复盘"] [py "服务恢复"] [py "写复盘报告"] 45 3
    [py "msg_1"; py "msg_2"] (ten_o_clock + seconds 3600).


(** A provider of summaries that cannot be reached, the generator of the
    owner, and an evening on which every clock reads [t] and every SQLite
    transaction commits. *)
Definition unreachable_summary_provider : SummaryReply.t :=
  SummaryReply.mk (λ _, Raises) 0.

Definition generator_0 : DailySummaryGenerator.t :=
  DailySummaryGenerator.mk (py "wxid_owner").

Definition summary_env_at (t : Z) : DailySummaryGenerator.env :=
  DailySummaryGenerator.mk_env t true (λ _, true) (λ _, t) (λ _, true) (λ _, t) t.

Definition evening_state : DailySummaryGenerator.state :=
  DailySummaryGenerator.mk_state morning_db unreachable_summary_provider
    delivering_bot.

Definition eight_pm : Z := ten_o_clock + seconds 36000.

(** * Properties *)

Arguments pystr.py : simpl never.
Arguments hashlib.md5_hexdigest : simpl never.
Arguments pystr.strip : simpl never.

(** Closed statements about sample data are settled by running the model. *)
Ltac by_computation := vm_compute; repeat split; try reflexivity.

(** ** The embedded library functions on known values *)

Example md5_empty :
  hashlib.md5_hexdigest (pystr.encode (py "")) = py "d41d8cd98f00b204e9800998ecf8427e".
Proof. by_computation. Qed.

Example md5_abc :
  hashlib.md5_hexdigest (pystr.encode (py "abc")) = py "900150983cd24fb0d6963f7d28e17f72".
Proof. by_computation. Qed.

Example md5_test_message :
  hashlib.md5_hexdigest (pystr.encode (py "这是一条测试消息"))
  = py "fa675d122af367c677f4fcb398dbbc2d".
Proof. by_computation. Qed.

Example md5_two_blocks :
  hashlib.md5_hexdigest (pystr.encode (replicate 70 97%N))
  = py "0f5c6c4e740bfcc08c3c26ccb2673d46".
Proof. by_computation. Qed.

Example strip_ideographic_space : pystr.strip (py " 　会议 取消　
") = py "会议 取消".
Proof. by_computation. Qed.

Example strftime_sample : RealtimeAlertEngine.strftime_HMS 63840911405000000 = py "10:30:05".
Proof. by_computation. Qed.

Example format_1f_sample : AIAnalysisService.format_1f (18 # 10) = py "1.8".
Proof. by_computation. Qed.

(** ** Fingerprints (data_models.py and deduplication.py) *)

Lemma join_space_pair (a b : str) : pystr.join (py " ") [a; b] = a ++ py " " ++ b.
Proof. reflexivity. Qed.

Lemma mem_sentinel (x : str) :
  pystr.mem x failure_sentinels = true ↔ x ∈ failure_sentinels.
Proof. unfold pystr.mem. apply bool_decide_eq_true. Qed.

Lemma post_init_hash_fingerprint (content extracted_text : str) :
  Message.post_init_hash content extracted_text = fingerprint content extracted_text.
Proof.
  unfold Message.post_init_hash, fingerprint.
  destruct (decide (extracted_text = [] ∨ extracted_text ∈ failure_sentinels))
    as [[Hempty | Hsentinel] | Hkept].
  - subst extracted_text. reflexivity.
  - apply mem_sentinel in Hsentinel. rewrite Hsentinel, andb_false_r. reflexivity.
  - assert (Hne : bool_decide (extracted_text = []) = false)
      by (apply bool_decide_eq_false; tauto).
    assert (Hns : pystr.mem extracted_text failure_sentinels = false).
    { apply not_true_is_false. rewrite mem_sentinel. tauto. }
    rewrite Hne, Hns. cbn [negb andb].
    change ([content] ++ [extracted_text]) with [content; extracted_text].
    rewrite join_space_pair. reflexivity.
Qed.

Lemma calculate_content_hash_post_init (m : Message.t) :
  DeduplicationEngine.calculate_content_hash m
  = Message.post_init_hash (Message.content m) (Message.extracted_text m).
Proof. reflexivity. Qed.

(** C8. The fingerprint stored by the [Message] constructor is the one the
    deduplication engine computes for that message, both are the
    specification's digest of the content and the extracted text (joined by
    a space, sentinels and empty text left out, stripped), and the engine
    gives the same value to any message with the same two fields. *)
Theorem fingerprints_agree
    (message_id chat_id chat_name sender_id sender_name message_type : str)
    (content : str) (timestamp : Z) (extracted_text : str)
    (is_important : bool) (value_score : Z) :
  let m :=
    Message.init message_id chat_id chat_name sender_id sender_name
      message_type content timestamp extracted_text is_important value_score in
  Message.content_hash m = DeduplicationEngine.calculate_content_hash m
  ∧ Message.content_hash m = fingerprint content extracted_text
  ∧ ∀ m' : Message.t,
      (Message.content m' = content ∧ Message.extracted_text m' = extracted_text) →
      DeduplicationEngine.calculate_content_hash m' = Message.content_hash m.
Proof.
  cbn zeta. split; [reflexivity |]. split.
  - apply post_init_hash_fingerprint.
  - intros m' [Hc He]. rewrite calculate_content_hash_post_init, Hc, He.
    reflexivity.
Qed.

(** The constructor's value is not refreshed when a handler later assigns
    [extracted_text]: after OCR the stored hash and the engine's differ. *)
Example stored_hash_is_stale_after_ocr :
  let m :=
    Message.set_extracted_text
      (Message.init (py "msg_9") (py "room@chatroom") (py "room") (py "wxid_a")
         (py "A") (py "image") (py "photo.jpg") 63840909600000000 (py "") false 0)
      (py "明天会议取消") in
  bool_decide (Message.content_hash m = DeduplicationEngine.calculate_content_hash m)
  = false.
Proof. by_computation. Qed.

(** ** The duplicate check on blank content (deduplication.py) *)

Lemma is_duplicate_blank (commits : bool) (now current_timestamp : Z)
    (table : list DeduplicationEngine.dedup_row) (m : Message.t) :
  pystr.strip (Message.content m) = [] →
  DeduplicationEngine.is_duplicate commits now current_timestamp table m
  = (table, false).
Proof.
  intros Hblank. unfold DeduplicationEngine.is_duplicate.
  rewrite bool_decide_eq_true_2 by exact Hblank. reflexivity.
Qed.

(** C9. A message whose primary content is empty or only whitespace is
    reported not-duplicate and leaves the ledger as it was, whatever its
    extracted text; so of two such messages, even with the same extracted
    text, both are reported not-duplicate and neither is recorded. *)
Theorem blank_content_is_never_deduplicated
    (commits1 commits2 : bool) (now1 ts1 now2 ts2 : Z)
    (table : list DeduplicationEngine.dedup_row) (m1 m2 : Message.t) :
  pystr.strip (Message.content m1) = [] →
  pystr.strip (Message.content m2) = [] →
  let first := DeduplicationEngine.is_duplicate commits1 now1 ts1 table m1 in
  let second := DeduplicationEngine.is_duplicate commits2 now2 ts2 first.1 m2 in
  first = (table, false) ∧ second = (table, false).
Proof.
  intros H1 H2. cbn zeta.
  rewrite (is_duplicate_blank _ _ _ _ m1 H1). cbn [fst].
  rewrite (is_duplicate_blank _ _ _ _ m2 H2). split; reflexivity.
Qed.

Lemma blank_content_is_never_deduplicated_witness :
  (pystr.strip (Message.content blank_image_1) = []
   ∧ pystr.strip (Message.content blank_image_2) = [])
  ∧ DeduplicationEngine.is_duplicate true (ten_o_clock + seconds 1)
      (ten_o_clock + seconds 1) ledger_with_blank_image blank_image_1
    = (ledger_with_blank_image, false)
  ∧ DeduplicationEngine.is_duplicate true (ten_o_clock + seconds 60)
      (ten_o_clock + seconds 60)
      (DeduplicationEngine.is_duplicate true (ten_o_clock + seconds 1)
         (ten_o_clock + seconds 1) ledger_with_blank_image blank_image_1).1
      blank_image_2
    = (ledger_with_blank_image, false).
Proof.
  split; [split; vm_compute; reflexivity |].
  apply (blank_content_is_never_deduplicated true true
           (ten_o_clock + seconds 1) (ten_o_clock + seconds 1)
           (ten_o_clock + seconds 60) (ten_o_clock + seconds 60)
           ledger_with_blank_image blank_image_1 blank_image_2);
    vm_compute; reflexivity.
Defined.

(** The ledger of that run does hold the fingerprint the two messages
    share: the check never looks it up. *)
Example blank_images_share_a_recorded_fingerprint :
  DeduplicationEngine.content_hash <$> ledger_with_blank_image
  = [DeduplicationEngine.calculate_content_hash blank_image_1]
  ∧ DeduplicationEngine.calculate_content_hash blank_image_2
    = DeduplicationEngine.calculate_content_hash blank_image_1.
Proof. by_computation. Qed.

(** The run of [test_summary_bot.py]: the same message checked twice. *)
Example first_sighting_then_duplicate :
  let m := text_message (py "test_123") (py "这是一条测试消息") ten_o_clock in
  let first := DeduplicationEngine.is_duplicate true ten_o_clock ten_o_clock [] m in
  let second :=
    DeduplicationEngine.is_duplicate true (ten_o_clock + seconds 1)
      (ten_o_clock + seconds 1) first.1 m in
  first.2 = false
  ∧ second.2 = true
  ∧ DeduplicationEngine.occurrence_count <$> second.1 = [2].
Proof. by_computation. Qed.

(** A row older than the 24-hour window is not refreshed: the plain
    [INSERT] hits the [UNIQUE] constraint, the check answers not-duplicate
    and the ledger stays as it was. *)
Example expired_row_is_not_refreshed :
  let m := text_message (py "test_123") (py "这是一条测试消息") ten_o_clock in
  let first := DeduplicationEngine.is_duplicate true ten_o_clock ten_o_clock [] m in
  let later := ten_o_clock + DeduplicationEngine.hours 25 in
  let second := DeduplicationEngine.is_duplicate true later later first.1 m in
  second.2 = false ∧ second.1 = first.1.
Proof. by_computation. Qed.

(** ** Duplicates in the collector (message_collector.py) *)

(** C1, as the code has it. A message the deduplication engine reports as a
    duplicate is dropped before storage: the shared world (message store,
    AI client, bot) is left as it was, so the message is neither persisted
    nor escalated; the collector only takes the updated ledger and counts
    one more filtered message. *)
Theorem duplicate_is_dropped_before_storage
    (e : MessageCollector.env) (w : world) (self : MessageCollector.t)
    (m : Message.t) (table' : list DeduplicationEngine.dedup_row) :
  DeduplicationEngine.is_duplicate (MessageCollector.dedup_commits e)
    (MessageCollector.dedup_now e) (MessageCollector.dedup_current_timestamp e)
    (MessageCollector.dedup_engine self) m = (table', true) →
  MessageCollector.process_message e w self m
  = (w, MessageCollector.mk table' (MessageCollector.alert_engine self)
          (MessageCollector.count_filtered (MessageCollector.statistics self))).
Proof.
  intros Hdup. unfold MessageCollector.process_message. rewrite Hdup.
  reflexivity.
Qed.

Lemma duplicate_is_dropped_before_storage_witness :
  (DeduplicationEngine.is_duplicate true (ten_o_clock + seconds 60)
     (ten_o_clock + seconds 60)
     (MessageCollector.dedup_engine after_alarm_1.2) alarm_2).2 = true
  ∧ (MessageCollector.process_message (env_at (ten_o_clock + seconds 60))
       after_alarm_1.1 after_alarm_1.2 alarm_2).1 = after_alarm_1.1.
Proof.
  split; [vm_compute; reflexivity |].
  rewrite (duplicate_is_dropped_before_storage
             (env_at (ten_o_clock + seconds 60)) after_alarm_1.1 after_alarm_1.2
             alarm_2
             (DeduplicationEngine.is_duplicate true (ten_o_clock + seconds 60)
                (ten_o_clock + seconds 60)
                (MessageCollector.dedup_engine after_alarm_1.2) alarm_2).1).
  - reflexivity.
  - vm_compute. reflexivity.
Defined.

(** C1 as stated fails: [alarm_2] repeats the text of [alarm_1] a minute
    later under a new message id. The engine reports it as a duplicate, and
    the message store, which holds [msg_1], never receives [msg_2]. *)
Lemma duplicate_is_not_persisted :
  let w1 := after_alarm_1.1 in
  let c1 := after_alarm_1.2 in
  let w2 :=
    (MessageCollector.process_message (env_at (ten_o_clock + seconds 60))
       w1 c1 alarm_2).1 in
  (DeduplicationEngine.is_duplicate true (ten_o_clock + seconds 60)
     (ten_o_clock + seconds 60) (MessageCollector.dedup_engine c1) alarm_2).2 = true
  ∧ Message.message_id <$> DatabaseManager.messages (db w1) = [py "msg_1"]
  ∧ Message.message_id <$> DatabaseManager.messages (db w2) = [py "msg_1"].
Proof. by_computation. Qed.

(** ** Classification (ai_service.py) *)

Lemma int_of_float_nonneg (x : Q) : (0 <= x)%Q → AIAnalysisService.int_of_float x = Qfloor x.
Proof.
  destruct x as [n d]. unfold Qle, AIAnalysisService.int_of_float, Qfloor.
  cbn [Qnum Qden]. intros Hn. apply Z.quot_div_nonneg; lia.
Qed.

(** [int(...)] rounds down, not to the nearest integer. *)
Lemma int_of_float_rounds_down (x : Q) :
  (0 <= x)%Q →
  (inject_Z (AIAnalysisService.int_of_float x) <= x)%Q
  ∧ (x < inject_Z (AIAnalysisService.int_of_float x + 1))%Q.
Proof.
  intros Hx. rewrite (int_of_float_nonneg x Hx). split.
  - apply Qfloor_le.
  - apply Qlt_floor.
Qed.

Lemma analyze_urgency_requests (client : OpenAI.t) (trigger : Message.t)
    (context : list Message.t) (keywords : list KeywordConfig.t) :
  (AIAnalysisService.analyze_urgency client trigger context keywords).2
  = OpenAI.mk (OpenAI.answer client) (S (OpenAI.requests client)).
Proof. reflexivity. Qed.




Example fallback_two_and_two :
  let r :=
    (AIAnalysisService.analyze_urgency unreachable_provider alarm_1 []
       urgent_and_deadline).1 in
  UrgencyAnalysisResult.is_urgent r = true
  ∧ UrgencyAnalysisResult.urgency_score r = 8
  ∧ UrgencyAnalysisResult.push_type r = py "single".
Proof. by_computation. Qed.


(** The weights are binary64 floats in Python and rationals here. On the
    two examples above the binary64 computation agrees with the rational
    one: 0 + 2.0 + 2.0 is at least 3.0 and doubles to exactly 8, and
    (0 + 1.8) * 2 lies between 3.5 and 4, so [int] gives 3 where rounding
    gives 4. *)
Module binary64.
Import PrimFloat.

Example two_and_two :
  (leb 3 (0 + 2 + 2) && eqb ((0 + 2 + 2) * 2) 8)%float = true.
Proof. vm_compute. reflexivity. Qed.

Example one_point_eight :
  (leb 3.5 ((0 + 0x1.ccccccccccccdp+0) * 2)
   && ltb ((0 + 0x1.ccccccccccccdp+0) * 2) 4)%float = true.
Proof. vm_compute. reflexivity. Qed.

End binary64.





(** For contrast: a reply that is valid JSON but not an object, or whose
    score [int] rejects, takes the keyword fallback, not the downgrade. *)
Example non_object_reply_takes_keyword_fallback :
  let provider := OpenAI.mk (λ _, Returns (OpenAI.NotObject (py "[]"))) 0 in
  let r :=
    (AIAnalysisService.analyze_urgency provider alarm_1 [] urgent_and_deadline).1 in
  UrgencyAnalysisResult.is_urgent r = true
  ∧ UrgencyAnalysisResult.urgency_score r = 8.
Proof. by_computation. Qed.

(** ** The dispatch gate (realtime_alerts.py) *)



Section dispatch_gate.

Context (env : RealtimeAlertEngine.alert_env) (w : world)
  (self : RealtimeAlertEngine.t) (trigger : Message.t)
  (keywords : list KeywordConfig.t) (context : list Message.t)
  (analysis : UrgencyAnalysisResult.t).

Lemma execute_push_outcome (b : Bot.t) :
  RealtimeAlertEngine.execute_push b self trigger context analysis
  = (Bot.mk (Bot.reply b)
       (Bot.outbox b ++
          [(RealtimeAlertEngine.target_user self,
            RealtimeAlertEngine.build_push_content trigger context analysis)]),
     next_send_succeeds b).
Proof.
  unfold RealtimeAlertEngine.execute_push, Bot.send_text, next_send_succeeds.
  destruct (Bot.reply b (length (Bot.outbox b))); reflexivity.
Qed.

(** The effects of the gate in full: what is appended to the alert table
    and to the bot's outbox. The AI client is not called again. *)
Lemma dispatch_effects :
  let w' :=
    RealtimeAlertEngine.dispatch env w self trigger keywords context analysis in
  let gate := RealtimeAlertEngine.passes_gate self analysis in
  DatabaseManager.realtime_alerts (db w')
  = DatabaseManager.realtime_alerts (db w)
    ++ (if gate && next_send_succeeds (bot w)
           && RealtimeAlertEngine.alert_commits env
        then [alert_row env trigger keywords analysis] else [])
  ∧ Bot.outbox (bot w')
    = Bot.outbox (bot w)
      ++ (if gate
          then [(RealtimeAlertEngine.target_user self,
                 RealtimeAlertEngine.build_push_content trigger context analysis)]
          else [])
  ∧ client w' = client w.
Proof.
  cbn zeta. unfold RealtimeAlertEngine.dispatch.
  destruct (RealtimeAlertEngine.passes_gate self analysis); cbn [andb].
  - rewrite execute_push_outcome.
    destruct (next_send_succeeds (bot w)); cbn [andb].
    + unfold DatabaseManager.save_realtime_alert.
      destruct (RealtimeAlertEngine.alert_commits env); cbn [db bot client].
      * repeat split; reflexivity.
      * rewrite app_nil_r. repeat split; reflexivity.
    + cbn [db bot client]. rewrite app_nil_r. repeat split; reflexivity.
  - rewrite !app_nil_r. repeat split; reflexivity.
Qed.


End dispatch_gate.


Example threshold_six_records_one_alert :
  let w' :=
    RealtimeAlertEngine.dispatch (alert_env_at ten_o_clock) world_0 engine_0
      alarm_1 urgent_and_deadline [] urgent_eight in
  length (DatabaseManager.realtime_alerts (db w')) = 1%nat
  ∧ length (Bot.outbox (bot w')) = 1%nat.
Proof. by_computation. Qed.

Example threshold_nine_records_nothing :
  let strict :=
    RealtimeAlertEngine.init (AlertConfig.mk true 9 10 (py "wxid_owner")) in
  let w' :=
    RealtimeAlertEngine.dispatch (alert_env_at ten_o_clock) world_0 strict
      alarm_1 urgent_and_deadline [] urgent_eight in
  length (DatabaseManager.realtime_alerts (db w')) = 0%nat
  ∧ length (Bot.outbox (bot w')) = 0%nat.
Proof. by_computation. Qed.

Example failed_send_records_nothing :
  let w := mk_world DatabaseManager.new unreachable_provider failing_bot in
  let w' :=
    RealtimeAlertEngine.dispatch (alert_env_at ten_o_clock) w engine_0
      alarm_1 urgent_and_deadline [] urgent_eight in
  length (DatabaseManager.realtime_alerts (db w')) = 0%nat
  ∧ length (Bot.outbox (bot w')) = 1%nat.
Proof. by_computation. Qed.

(** ** Changing the push target (realtime_alerts.py) *)

Lemma update_target_user_reported_failure (self : RealtimeAlertEngine.t)
    (new_target : str) :
  AlertConfig.target_user (RealtimeAlertEngine.config self)
  = RealtimeAlertEngine.target_user self →
  RealtimeAlertEngine.update_target_user_after (Returns false) self new_target
  = (self, false).
Proof.
  intros Hsame. destruct self as [[enabled threshold context target] user cache last].
  cbn in Hsame. subst target. reflexivity.
Qed.

Lemma update_target_user_success (self : RealtimeAlertEngine.t) (new_target : str) :
  RealtimeAlertEngine.update_target_user_after (Returns true) self new_target
  = (RealtimeAlertEngine.set_targets self new_target, true).
Proof. reflexivity. Qed.

(** With the repository's [DatabaseManager], whose [set_config] turns every
    SQLite error into [False], the update is all-or-nothing. *)
Lemma update_target_user_atomic_over_database (commits : bool)
    (database : DatabaseManager.t) (self : RealtimeAlertEngine.t)
    (new_target : str) :
  AlertConfig.target_user (RealtimeAlertEngine.config self)
  = RealtimeAlertEngine.target_user self →
  RealtimeAlertEngine.update_target_user commits database self new_target
  = if commits
    then ((DatabaseManager.set_config true database (py "target_user") new_target
             (py "接收推送的用户微信ID")).1,
          RealtimeAlertEngine.set_targets self new_target, true)
    else (database, self, false).
Proof.
  intros Hsame. unfold RealtimeAlertEngine.update_target_user.
  destruct commits; cbn [DatabaseManager.set_config].
  - reflexivity.
  - rewrite (update_target_user_reported_failure self new_target Hsame).
    reflexivity.
Qed.

Lemma update_target_user_exception (self : RealtimeAlertEngine.t)
    (new_target : str) :
  RealtimeAlertEngine.update_target_user_after Raises self new_target
  = (RealtimeAlertEngine.set_targets self new_target, false).
Proof. reflexivity. Qed.

(** A committed update is read back by [get_config]. *)
Lemma update_target_user_persists (database : DatabaseManager.t)
    (self : RealtimeAlertEngine.t) (new_target fallback : str) :
  DatabaseManager.get_config true
    (RealtimeAlertEngine.update_target_user true database self new_target).1.1
    (py "target_user") fallback
  = new_target.
Proof.
  unfold RealtimeAlertEngine.update_target_user.
  cbn [DatabaseManager.set_config RealtimeAlertEngine.update_target_user_after fst].
  unfold DatabaseManager.get_config. cbn [DatabaseManager.system_config].
  rewrite lookup_insert_eq. reflexivity.
Qed.


(** ** The keyword cache (realtime_alerts.py) *)

Lemma get_keywords_refreshed (now : Z) (commits : bool)
    (database : DatabaseManager.t) (self : RealtimeAlertEngine.t) :
  RealtimeAlertEngine.needs_refresh self now = true →
  RealtimeAlertEngine._get_keywords now commits database self
  = (RealtimeAlertEngine.mk (RealtimeAlertEngine.config self)
       (RealtimeAlertEngine.target_user self)
       (Some (DatabaseManager.get_active_keywords commits database)) (Some now),
     DatabaseManager.get_active_keywords commits database).
Proof.
  intros Hneeds. unfold RealtimeAlertEngine._get_keywords. rewrite Hneeds.
  reflexivity.
Qed.

Lemma get_keywords_cached (now : Z) (commits : bool)
    (database : DatabaseManager.t) (self : RealtimeAlertEngine.t) :
  RealtimeAlertEngine.needs_refresh self now = false →
  RealtimeAlertEngine._get_keywords now commits database self
  = (self, default [] (RealtimeAlertEngine._keywords_cache self)).
Proof.
  intros Hneeds. unfold RealtimeAlertEngine._get_keywords. rewrite Hneeds.
  reflexivity.
Qed.

Lemma needs_refresh_warm (self : RealtimeAlertEngine.t) (keywords : list KeywordConfig.t)
    (last now : Z) :
  RealtimeAlertEngine._keywords_cache self = Some keywords →
  RealtimeAlertEngine._last_keyword_update self = Some last →
  RealtimeAlertEngine.needs_refresh self now
  = (RealtimeAlertEngine.minutes 5 <? now - last).
Proof.
  intros Hcache Hlast. unfold RealtimeAlertEngine.needs_refresh.
  rewrite Hcache, Hlast. reflexivity.
Qed.

(** After a reload at [last], every later reload of the run comes more than
    five minutes after [last]. *)
Lemma refresh_times_after_last (calls : list keyword_call) :
  ∀ (self : RealtimeAlertEngine.t) (keywords : list KeywordConfig.t) (last : Z),
    RealtimeAlertEngine._keywords_cache self = Some keywords →
    RealtimeAlertEngine._last_keyword_update self = Some last →
    Forall (five_minutes_apart last) (refresh_times self calls).
Proof.
  induction calls as [| c rest IH]; intros self keywords last Hcache Hlast;
    cbn [refresh_times]; [constructor |].
  destruct (RealtimeAlertEngine.needs_refresh self (call_now c)) eqn:Hneeds.
  - rewrite (get_keywords_refreshed _ _ _ _ Hneeds). cbn [fst].
    rewrite (needs_refresh_warm self keywords last _ Hcache Hlast) in Hneeds.
    apply Z.ltb_lt in Hneeds. constructor; [exact Hneeds |].
    eapply Forall_impl; [eapply IH; reflexivity |].
    unfold five_minutes_apart. intros t Ht.
    unfold RealtimeAlertEngine.minutes in *. lia.
  - rewrite (get_keywords_cached _ _ _ _ Hneeds). cbn [fst].
    eapply IH; eassumption.
Qed.

Lemma refreshes_five_minutes_apart (calls : list keyword_call) :
  ∀ self : RealtimeAlertEngine.t,
    StronglySorted five_minutes_apart (refresh_times self calls).
Proof.
  induction calls as [| c rest IH]; intros self; cbn [refresh_times];
    [constructor |].
  destruct (RealtimeAlertEngine.needs_refresh self (call_now c)) eqn:Hneeds.
  - rewrite (get_keywords_refreshed _ _ _ _ Hneeds). cbn [fst].
    constructor; [apply IH |].
    eapply refresh_times_after_last; reflexivity.
  - apply IH.
Qed.

(** C6, as the code has it. In any run of keyword lookups, two reloads of
    the keyword set are more than five minutes apart. A reload whose query
    fails does not fail the lookup: it stores and returns the empty keyword
    set, which is then served, without asking the store again, to every
    lookup of the next five minutes; the keywords cached before are gone. *)
Theorem keyword_cache_refresh_policy
    (self : RealtimeAlertEngine.t) (calls : list keyword_call)
    (now later : Z) (commits : bool) (database database' : DatabaseManager.t) :
  StronglySorted five_minutes_apart (refresh_times self calls)
  ∧ (RealtimeAlertEngine.needs_refresh self now = true →
     let failed := RealtimeAlertEngine._get_keywords now false database self in
     failed.2 = []
     ∧ RealtimeAlertEngine._keywords_cache failed.1 = Some []
     ∧ RealtimeAlertEngine._last_keyword_update failed.1 = Some now
     ∧ (later - now ≤ RealtimeAlertEngine.minutes 5 →
        RealtimeAlertEngine._get_keywords later commits database' failed.1
        = (failed.1, []))).
Proof.
  split; [apply refreshes_five_minutes_apart |].
  intros Hneeds. cbn zeta.
  rewrite (get_keywords_refreshed _ _ _ _ Hneeds). cbn [fst snd].
  repeat (split; [reflexivity |]).
  intros Hsoon. apply get_keywords_cached.
  unfold RealtimeAlertEngine.needs_refresh.
  cbn [RealtimeAlertEngine._keywords_cache RealtimeAlertEngine._last_keyword_update].
  apply Z.ltb_ge. exact Hsoon.
Qed.

(** C6 as stated fails. The engine loads the default keywords at ten
    o'clock and matches three of them in [alarm_1]; the cache still serves
    them a minute later, store down or not. Six minutes after the load, with
    the store failing, the same message matches nothing: the cache now holds
    the empty set, and keeps serving it a minute later although the store
    has recovered. *)
Lemma failed_refresh_serves_empty_set :
  let store := DatabaseManager.new in
  let warm :=
    (RealtimeAlertEngine.check_urgent_keywords ten_o_clock true store
       engine_0 alarm_1) in
  let cached :=
    RealtimeAlertEngine.check_urgent_keywords (ten_o_clock + seconds 60) false
      store warm.1 alarm_1 in
  let failed :=
    RealtimeAlertEngine.check_urgent_keywords (ten_o_clock + seconds 360) false
      store warm.1 alarm_1 in
  let recovered :=
    RealtimeAlertEngine.check_urgent_keywords (ten_o_clock + seconds 420) true
      store failed.1 alarm_1 in
  length warm.2 = 3%nat
  ∧ length cached.2 = 3%nat
  ∧ failed.2 = []
  ∧ RealtimeAlertEngine._keywords_cache failed.1 = Some []
  ∧ recovered.2 = [].
Proof. by_computation. Qed.

Lemma keyword_cache_refresh_policy_witness :
  RealtimeAlertEngine.needs_refresh engine_0 ten_o_clock = true
  ∧ StronglySorted five_minutes_apart
      (refresh_times engine_0
         [mk_keyword_call ten_o_clock true DatabaseManager.new;
          mk_keyword_call (ten_o_clock + seconds 60) true DatabaseManager.new;
          mk_keyword_call (ten_o_clock + seconds 360) false DatabaseManager.new])
  ∧ (RealtimeAlertEngine._get_keywords ten_o_clock false DatabaseManager.new
       engine_0).2 = [].
Proof.
  split; [reflexivity |].
  destruct (keyword_cache_refresh_policy engine_0
              [mk_keyword_call ten_o_clock true DatabaseManager.new;
               mk_keyword_call (ten_o_clock + seconds 60) true DatabaseManager.new;
               mk_keyword_call (ten_o_clock + seconds 360) false DatabaseManager.new]
              ten_o_clock (ten_o_clock + seconds 60) true
              DatabaseManager.new DatabaseManager.new) as [Hspaced Hfailed].
  split; [exact Hspaced |].
  destruct (Hfailed eq_refl) as (Hempty & _). exact Hempty.
Defined.

Example refresh_times_sample :
  refresh_times engine_0
    [mk_keyword_call ten_o_clock true DatabaseManager.new;
     mk_keyword_call (ten_o_clock + seconds 60) true DatabaseManager.new;
     mk_keyword_call (ten_o_clock + seconds 300) true DatabaseManager.new;
     mk_keyword_call (ten_o_clock + seconds 301) false DatabaseManager.new]
  = [ten_o_clock; ten_o_clock + seconds 301].
Proof. by_computation. Qed.

(** ** The digest table (database.py) *)

Lemma same_digest_key_iff (r s : DailySummary.t) :
  DatabaseManager.same_digest_key r s ↔ digest_key r = digest_key s.
Proof.
  unfold DatabaseManager.same_digest_key, digest_key. split.
  - intros [-> ->]. reflexivity.
  - intros [= -> ->]. split; reflexivity.
Qed.

Lemma digest_row_key (ts : Z) (s : DailySummary.t) :
  digest_key (DatabaseManager.digest_row ts s) = digest_key s.
Proof. reflexivity. Qed.

(** [INSERT OR REPLACE] keeps the keys of the table distinct. *)
Lemma replace_keeps_keys_distinct (rows : list DailySummary.t) (ts : Z)
    (s : DailySummary.t) :
  NoDup (digest_key <$> rows) →
  NoDup (digest_key <$>
           filter (λ r, ¬ DatabaseManager.same_digest_key r s) rows
             ++ [DatabaseManager.digest_row ts s]).
Proof.
  intros Hdistinct. rewrite fmap_app. apply NoDup_app. split; [| split].
  - eapply sublist_NoDup; [exact Hdistinct |].
    apply fmap_sublist, sublist_filter.
  - intros k Hk Hnew. cbn in Hnew. apply list_elem_of_singleton in Hnew.
    apply list_elem_of_fmap in Hk as (r & -> & Hr).
    apply list_elem_of_filter in Hr as [Hother _].
    apply Hother, same_digest_key_iff. rewrite Hnew. apply digest_row_key.
  - cbn. apply NoDup_singleton.
Qed.

Lemma save_daily_summary_keeps_keys_distinct (commits : bool) (ts : Z)
    (database : DatabaseManager.t) (s : DailySummary.t) :
  NoDup (digest_key <$> DatabaseManager.daily_summaries database) →
  NoDup (digest_key <$>
           DatabaseManager.daily_summaries
             (DatabaseManager.save_daily_summary commits ts database s).1).
Proof.
  intros Hdistinct. unfold DatabaseManager.save_daily_summary.
  destruct commits; cbn [fst DatabaseManager.daily_summaries];
    [apply replace_keeps_keys_distinct |]; exact Hdistinct.
Qed.

Lemma run_digest_saves_keeps_keys_distinct (saves : list digest_save) :
  ∀ database : DatabaseManager.t,
    NoDup (digest_key <$> DatabaseManager.daily_summaries database) →
    NoDup (digest_key <$>
             DatabaseManager.daily_summaries (run_digest_saves database saves)).
Proof.
  induction saves as [| s rest IH]; intros database Hdistinct; [exact Hdistinct |].
  cbn [run_digest_saves foldl]. apply IH.
  apply save_daily_summary_keeps_keys_distinct. exact Hdistinct.
Qed.

(** The rows of the new digest's key after a committed save: the new row
    alone. *)
Lemma replace_leaves_one_row (rows : list DailySummary.t) (ts : Z)
    (s : DailySummary.t) :
  filter (λ r, DatabaseManager.same_digest_key r s)
    (filter (λ r, ¬ DatabaseManager.same_digest_key r s) rows
       ++ [DatabaseManager.digest_row ts s])
  = [DatabaseManager.digest_row ts s].
Proof.
  rewrite filter_app.
  assert (Hnone :
    filter (λ r, DatabaseManager.same_digest_key r s)
      (filter (λ r, ¬ DatabaseManager.same_digest_key r s) rows) = []).
  { induction rows as [| r rows IH]; [reflexivity |].
    destruct (decide (DatabaseManager.same_digest_key r s)) as [Hsame | Hother].
    - rewrite (filter_cons_False (λ r, ¬ DatabaseManager.same_digest_key r s))
        by tauto.
      exact IH.
    - rewrite (filter_cons_True (λ r, ¬ DatabaseManager.same_digest_key r s))
        by exact Hother.
      rewrite filter_cons_False by exact Hother. exact IH. }
  rewrite Hnone. cbn [app].
  rewrite filter_cons_True; [reflexivity |].
  apply same_digest_key_iff, digest_row_key.
Qed.

(** C7. After any sequence of digest saves on a fresh database, committed or
    not, no two rows of the digest table share their (date, conversation)
    pair; and a further save that commits leaves, for the saved pair,
    exactly one row, carrying the content just saved, whatever row the pair
    had before, while the rows of other pairs stay. *)
Theorem digest_table_upsert (saves : list digest_save) (ts : Z)
    (s : DailySummary.t) :
  let database := run_digest_saves DatabaseManager.new saves in
  let saved := DatabaseManager.save_daily_summary true ts database s in
  NoDup (digest_key <$> DatabaseManager.daily_summaries database)
  ∧ saved.2 = true
  ∧ filter (λ r, DatabaseManager.same_digest_key r s)
      (DatabaseManager.daily_summaries saved.1)
    = [DatabaseManager.digest_row ts s]
  ∧ NoDup (digest_key <$> DatabaseManager.daily_summaries saved.1)
  ∧ ∀ r : DailySummary.t,
      ¬ DatabaseManager.same_digest_key r s →
      (r ∈ DatabaseManager.daily_summaries saved.1
       ↔ r ∈ DatabaseManager.daily_summaries database).
Proof.
  cbn zeta.
  assert (Hdistinct :
    NoDup (digest_key <$>
             DatabaseManager.daily_summaries
               (run_digest_saves DatabaseManager.new saves))).
  { apply run_digest_saves_keeps_keys_distinct. cbn. apply NoDup_nil_2. }
  split; [exact Hdistinct |]. split; [reflexivity |].
  cbn [DatabaseManager.save_daily_summary fst DatabaseManager.daily_summaries].
  split; [apply replace_leaves_one_row |].
  split; [apply replace_keeps_keys_distinct; exact Hdistinct |].
  intros r Hother. rewrite elem_of_app, list_elem_of_filter, list_elem_of_singleton.
  split.
  - intros [[_ Hr] | ->]; [exact Hr |].
    exfalso. apply Hother, same_digest_key_iff, digest_row_key.
  - intros Hr. left. split; assumption.
Qed.

(** Generating the digest of one day twice leaves one row, the second. *)
Example digest_saved_twice :
  let once :=
    (DatabaseManager.save_daily_summary true ten_o_clock DatabaseManager.new
       digest_v1).1 in
  let twice :=
    (DatabaseManager.save_daily_summary true (ten_o_clock + seconds 3600) once
       digest_v2).1 in
  DailySummary.summary_content <$> DatabaseManager.daily_summaries once
  = [py "上午的总结"]
  ∧ DailySummary.summary_content <$> DatabaseManager.daily_summaries twice
    = [py "全天的总结"].
Proof. by_computation. Qed.

(** ** The context query (database.py, realtime_alerts.py) *)

#[local] Instance by_timestamp_transitive : Transitive DatabaseManager.by_timestamp.
Proof. unfold DatabaseManager.by_timestamp. intros a b c Hab Hbc. lia. Qed.

#[local] Instance by_timestamp_total : Total DatabaseManager.by_timestamp.
Proof. unfold DatabaseManager.by_timestamp. intros a b. lia. Qed.

Lemma message_of_row_id (row : Message.t) : DatabaseManager.message_of_row row = row.
Proof. destruct row. reflexivity. Qed.

Lemma message_of_row_fmap (rows : list Message.t) :
  DatabaseManager.message_of_row <$> rows = rows.
Proof.
  induction rows as [| r rows IH]; [reflexivity |].
  cbn [fmap list_fmap]. rewrite message_of_row_id. f_equal. exact IH.
Qed.

Lemma get_messages_by_date_range_limited (database : DatabaseManager.t)
    (cid : str) (start_date end_date limit : Z) :
  0 < limit →
  DatabaseManager.get_messages_by_date_range true database cid start_date
    end_date (Some limit)
  = take (Z.to_nat limit)
      (merge_sort DatabaseManager.by_timestamp
         (in_range database cid start_date end_date)).
Proof.
  intros Hlimit. unfold DatabaseManager.get_messages_by_date_range.
  rewrite message_of_row_fmap. unfold DatabaseManager.sql_limit.
  destruct (limit =? 0) eqn:Hzero; [apply Z.eqb_eq in Hzero; lia |].
  destruct (limit <? 0) eqn:Hneg; [apply Z.ltb_lt in Hneg; lia |].
  reflexivity.
Qed.

Lemma today_start_is_midnight (now : Z) :
  RealtimeAlertEngine.today_start now mod RealtimeAlertEngine.microseconds_per_day = 0
  ∧ RealtimeAlertEngine.today_start now ≤ now
    < RealtimeAlertEngine.today_start now + RealtimeAlertEngine.microseconds_per_day.
Proof.
  unfold RealtimeAlertEngine.today_start, RealtimeAlertEngine.microseconds_per_day.
  pose proof (Z.mod_pos_bound now 86400000000 ltac:(lia)) as Hbound.
  split; [| lia].
  rewrite Zminus_mod, Zmod_mod, Z.sub_diag. reflexivity.
Qed.

(** C2, as the code has it. For a positive limit and a query that succeeds,
    the context is a prefix of the day's messages in timestamp order: it has
    [min limit n] entries for [n] messages in range, it is ordered
    oldest-first, and every message of the range left out is at least as
    late as every message returned. So with more than [limit] messages the
    earliest [limit] are returned, not the latest. *)
Theorem context_is_oldest_prefix (database : DatabaseManager.t) (cid : str)
    (start_date end_date limit : Z) :
  0 < limit →
  let result :=
    DatabaseManager.get_messages_by_date_range true database cid start_date
      end_date (Some limit) in
  let day := in_range database cid start_date end_date in
  length result = (Z.to_nat limit `min` length day)%nat
  ∧ StronglySorted DatabaseManager.by_timestamp result
  ∧ ∃ rest : list Message.t,
      result ++ rest ≡ₚ day
      ∧ ∀ m m' : Message.t,
          m ∈ result → m' ∈ rest → Message.timestamp m ≤ Message.timestamp m'.
Proof.
  intros Hlimit. cbn zeta.
  rewrite (get_messages_by_date_range_limited _ _ _ _ _ Hlimit).
  set (day := in_range database cid start_date end_date).
  set (sorted := merge_sort DatabaseManager.by_timestamp day).
  assert (Hperm : sorted ≡ₚ day) by apply merge_sort_Permutation.
  assert (Hsorted : StronglySorted DatabaseManager.by_timestamp sorted)
    by apply (StronglySorted_merge_sort _).
  assert (Hlength : length sorted = length day)
    by (apply Permutation_length; exact Hperm).
  rewrite <- (firstn_skipn (Z.to_nat limit) sorted) in Hsorted, Hperm.
  split; [| split].
  - rewrite length_take, Hlength. reflexivity.
  - eapply StronglySorted_app_1_l. exact Hsorted.
  - exists (drop (Z.to_nat limit) sorted). split; [exact Hperm |].
    intros m m' Hm Hm'.
    exact (StronglySorted_app_1_elem_of _ _ _ m m' Hsorted Hm Hm').
Qed.

Lemma context_is_oldest_prefix_witness :
  0 < 2
  ∧ let result :=
      DatabaseManager.get_messages_by_date_range true morning_db room
        (RealtimeAlertEngine.today_start (ten_o_clock + seconds 180))
        (ten_o_clock + seconds 180) (Some 2) in
    let day :=
      in_range morning_db room
        (RealtimeAlertEngine.today_start (ten_o_clock + seconds 180))
        (ten_o_clock + seconds 180) in
    length result = (Z.to_nat 2 `min` length day)%nat
    ∧ StronglySorted DatabaseManager.by_timestamp result
    ∧ ∃ rest : list Message.t,
        result ++ rest ≡ₚ day
        ∧ ∀ m m' : Message.t,
            m ∈ result → m' ∈ rest → Message.timestamp m ≤ Message.timestamp m'.
Proof.
  split; [lia |].
  apply (context_is_oldest_prefix morning_db room
           (RealtimeAlertEngine.today_start (ten_o_clock + seconds 180))
           (ten_o_clock + seconds 180) 2).
  lia.
Defined.

(** C2 as stated fails. With a context size of two, the engine asked at
    10:03 about [msg_4] gets the first two messages of the day, while the
    two most recent ones are [msg_3] and [msg_4]. *)
Lemma context_is_not_the_most_recent :
  let engine :=
    RealtimeAlertEngine.init (AlertConfig.mk true 6 2 (py "wxid_owner")) in
  let w := mk_world morning_db unreachable_provider delivering_bot in
  let trigger :=
    text_message (py "msg_4") (py "服务器故障，紧急处理") (ten_o_clock + seconds 180) in
  let context :=
    RealtimeAlertEngine.context_of (alert_env_at (ten_o_clock + seconds 181)) w
      engine trigger in
  let day :=
    merge_sort DatabaseManager.by_timestamp
      (in_range morning_db room
         (RealtimeAlertEngine.today_start (ten_o_clock + seconds 181))
         (Message.timestamp trigger)) in
  Message.message_id <$> day = [py "msg_1"; py "msg_2"; py "msg_3"; py "msg_4"]
  ∧ Message.message_id <$> context = [py "msg_1"; py "msg_2"]
  ∧ Message.message_id <$> most_recent 2 day = [py "msg_3"; py "msg_4"].
Proof. by_computation. Qed.

(** A limit of zero is read as no limit at all. *)
Example limit_zero_returns_everything :
  length (DatabaseManager.get_messages_by_date_range true morning_db room
            (RealtimeAlertEngine.today_start ten_o_clock)
            (ten_o_clock + seconds 180) (Some 0)) = 4%nat.
Proof. by_computation. Qed.

(** ** A new message through the whole pipeline *)

Lemma dispatch_keeps_messages (env : RealtimeAlertEngine.alert_env) (w : world)
    (self : RealtimeAlertEngine.t) (trigger : Message.t)
    (keywords : list KeywordConfig.t) (context : list Message.t)
    (analysis : UrgencyAnalysisResult.t) :
  DatabaseManager.messages
    (db (RealtimeAlertEngine.dispatch env w self trigger keywords context analysis))
  = DatabaseManager.messages (db w).
Proof.
  unfold RealtimeAlertEngine.dispatch.
  destruct (RealtimeAlertEngine.passes_gate self analysis); [| reflexivity].
  rewrite execute_push_outcome.
  destruct (next_send_succeeds (bot w)); [| reflexivity].
  unfold DatabaseManager.save_realtime_alert.
  destruct (RealtimeAlertEngine.alert_commits env); reflexivity.
Qed.

Lemma check_and_process_keeps_messages (keywords_now : Z) (keywords_commits : bool)
    (env : RealtimeAlertEngine.alert_env) (w : world)
    (self : RealtimeAlertEngine.t) (m : Message.t) :
  DatabaseManager.messages
    (db (RealtimeAlertEngine.check_and_process keywords_now keywords_commits
           env w self m).1)
  = DatabaseManager.messages (db w).
Proof.
  unfold RealtimeAlertEngine.check_and_process.
  destruct (negb _ || _); [reflexivity |].
  destruct (RealtimeAlertEngine.check_urgent_keywords _ _ _ _ _)
    as [self' [| k triggered]]; [reflexivity |].
  cbn [fst]. unfold RealtimeAlertEngine.process_potential_alert.
  destruct (AIAnalysisService.analyze_urgency _ _ _ _) as [analysis provider].
  rewrite dispatch_keeps_messages. reflexivity.
Qed.

(** The other branch of the duplicate gate: a message reported new, whose
    insert commits, is in the message store when [process_message] returns,
    whatever the alert engine did with it. *)
Lemma new_message_is_persisted (e : MessageCollector.env) (w : world)
    (self : MessageCollector.t) (m : Message.t)
    (table' : list DeduplicationEngine.dedup_row) :
  DeduplicationEngine.is_duplicate (MessageCollector.dedup_commits e)
    (MessageCollector.dedup_now e) (MessageCollector.dedup_current_timestamp e)
    (MessageCollector.dedup_engine self) m = (table', false) →
  MessageCollector.save_commits e = true →
  m ∈ DatabaseManager.messages (db (MessageCollector.process_message e w self m).1).
Proof.
  intros Hnew Hcommits. unfold MessageCollector.process_message.
  rewrite Hnew, Hcommits. cbn [DatabaseManager.save_message negb].
  destruct (MessageCollector.alert_engine self) as [engine |].
  - destruct (RealtimeAlertEngine.check_and_process _ _ _ _ _ _)
      as [w' engine'] eqn:Hchecked.
    cbn [fst].
    pose proof (check_and_process_keeps_messages
                  (MessageCollector.keywords_now e)
                  (MessageCollector.keywords_commits e)
                  (MessageCollector.alert e)
                  (mk_world
                     (DatabaseManager.mk
                        (filter (λ r, Message.message_id r ≠ Message.message_id m)
                           (DatabaseManager.messages (db w)) ++ [m])
                        (DatabaseManager._update_chat_info
                           (DatabaseManager.chats (db w)) (Message.chat_id m)
                           (Message.chat_name m) (Message.timestamp m))
                        (DatabaseManager.daily_summaries (db w))
                        (DatabaseManager.realtime_alerts (db w))
                        (DatabaseManager.alert_keywords (db w))
                        (DatabaseManager.system_config (db w)))
                     (client w) (bot w))
                  engine m) as Hkept.
    rewrite Hchecked in Hkept. cbn [fst db DatabaseManager.messages] in Hkept.
    rewrite Hkept. apply elem_of_app. right. apply list_elem_of_singleton.
    reflexivity.
  - cbn [fst db DatabaseManager.messages]. apply elem_of_app. right.
    apply list_elem_of_singleton. reflexivity.
Qed.

(** * Further properties of the modelled code *)

(** ** The deduplication ledger (deduplication.py) *)

Lemma is_duplicate_cases (commits : bool) (now ts : Z)
    (table : list DeduplicationEngine.dedup_row) (m : Message.t) :
  let h := DeduplicationEngine.calculate_content_hash m in
  let out := DeduplicationEngine.is_duplicate commits now ts table m in
  out = (table, false)
  ∨ (out = ((λ r, if bool_decide (DeduplicationEngine.content_hash r = h)
                  then DeduplicationEngine.mk_row
                         (DeduplicationEngine.content_hash r)
                         (DeduplicationEngine.first_message_id r)
                         (DeduplicationEngine.occurrence_count r + 1) ts
                  else r) <$> table, true)
     ∧ ∃ r, r ∈ table ∧ DeduplicationEngine.content_hash r = h
            ∧ now - DeduplicationEngine.hours 24 < DeduplicationEngine.last_seen r)
  ∨ (out = (table ++ [DeduplicationEngine.mk_row h (Message.message_id m) 1 ts],
            false)
     ∧ h ∉ DeduplicationEngine.content_hash <$> table).
Proof.
  cbn zeta. unfold DeduplicationEngine.is_duplicate.
  destruct (bool_decide (pystr.strip (Message.content m) = [])); [left; reflexivity |].
  destruct commits; [| left; reflexivity].
  destruct (filter _ table) as [| r fresh] eqn:Hfresh.
  - destruct (bool_decide _) eqn:Hpresent; [left; reflexivity |].
    right. right. split; [reflexivity |]. apply bool_decide_eq_false in Hpresent.
    exact Hpresent.
  - right. left. split; [reflexivity |]. exists r.
    assert (Hr : r ∈ filter
      (λ r, DeduplicationEngine.content_hash r
            = DeduplicationEngine.calculate_content_hash m
            ∧ now - DeduplicationEngine.hours 24 < DeduplicationEngine.last_seen r)
      table) by (rewrite Hfresh; apply list_elem_of_here).
    apply list_elem_of_filter in Hr as [[Hh Hseen] Hin]. auto.
Qed.

Lemma bump_row_hash (h : str) (ts : Z) (r : DeduplicationEngine.dedup_row) :
  DeduplicationEngine.content_hash (bump_row h ts r)
  = DeduplicationEngine.content_hash r.
Proof. unfold bump_row. destruct (bool_decide _); reflexivity. Qed.

Lemma bump_rows_hashes (h : str) (ts : Z) (table : list DeduplicationEngine.dedup_row) :
  DeduplicationEngine.content_hash <$> (bump_row h ts <$> table)
  = DeduplicationEngine.content_hash <$> table.
Proof.
  induction table as [| r table IH]; [reflexivity |].
  cbn [fmap list_fmap]. rewrite bump_row_hash. f_equal. exact IH.
Qed.






Lemma ledger_step_ok (table : list DeduplicationEngine.dedup_row) (op : ledger_op) :
  ledger_ok table → ledger_ok (ledger_step table op).
Proof.
  intros [Hdistinct Hcounts]. destruct op as [commits now ts m | commits now | commits ts m];
    cbn [ledger_step].
  - destruct (is_duplicate_cases commits now ts table m)
      as [-> | [[-> _] | [-> Habsent]]]; cbn [fst].
    + split; assumption.
    + split.
      * change (λ r, if bool_decide (DeduplicationEngine.content_hash r
                                      = DeduplicationEngine.calculate_content_hash m)
                     then _ else r)
          with (bump_row (DeduplicationEngine.calculate_content_hash m) ts).
        rewrite bump_rows_hashes. exact Hdistinct.
      * apply Forall_fmap. eapply Forall_impl; [exact Hcounts |].
        intros r Hr. cbn beta in Hr. unfold compose. destruct (bool_decide _);
          cbn [DeduplicationEngine.occurrence_count]; lia.
    + split.
      * rewrite fmap_app. apply NoDup_app. split; [exact Hdistinct |].
        split; [| apply NoDup_singleton].
        intros h Hh Hnew. apply list_elem_of_singleton in Hnew. subst h.
        exact (Habsent Hh).
      * apply Forall_app. split; [exact Hcounts |].
        apply Forall_singleton. cbn. lia.
  - unfold DeduplicationEngine.cleanup_old_records. destruct commits.
    + split.
      * eapply sublist_NoDup; [exact Hdistinct |]. apply fmap_sublist, sublist_filter.
      * apply Forall_forall. intros r Hr. apply list_elem_of_filter in Hr as [_ Hr].
        rewrite Forall_forall in Hcounts. apply Hcounts. exact Hr.
    + split; assumption.
  - unfold DeduplicationEngine.force_add_duplicate. destruct commits; cbn [fst].
    + split.
      * rewrite fmap_app. apply NoDup_app. split; [| split].
        -- eapply sublist_NoDup; [exact Hdistinct |].
           apply fmap_sublist, sublist_filter.
        -- intros h Hh Hnew. apply list_elem_of_singleton in Hnew.
           apply list_elem_of_fmap in Hh as (r & -> & Hr).
           apply list_elem_of_filter in Hr as [Hother _]. apply Hother. exact Hnew.
        -- apply NoDup_singleton.
      * apply Forall_app. split.
        -- apply Forall_forall. intros r Hr. apply list_elem_of_filter in Hr as [_ Hr].
           rewrite Forall_forall in Hcounts. apply Hcounts. exact Hr.
        -- apply Forall_singleton. cbn. lia.
    + split; assumption.
Qed.

Lemma foldl_ledger_ok (ops : list ledger_op) :
  ∀ table, ledger_ok table → ledger_ok (foldl ledger_step table ops).
Proof.
  induction ops as [| op ops IH]; intros table Hok; [exact Hok |].
  cbn [foldl]. apply IH, ledger_step_ok, Hok.
Qed.

(** X1. Whatever sequence of duplicate checks, retention sweeps and forced
    additions runs on a fresh ledger, with SQLite succeeding or failing at
    each call, the ledger holds at most one row per fingerprint and every
    occurrence count is at least 1. *)
Theorem ledger_has_one_row_per_fingerprint (ops : list ledger_op) :
  NoDup (DeduplicationEngine.content_hash <$> run_ledger ops)
  ∧ Forall (λ r, 1 ≤ DeduplicationEngine.occurrence_count r) (run_ledger ops).
Proof.
  apply (foldl_ledger_ok ops []). split; [apply NoDup_nil_2 | apply Forall_nil_2].
Qed.







(** ** Keys and counters of the database (database.py) *)

Lemma run_db_from_snoc (database : DatabaseManager.t) (ops : list db_op)
    (op : db_op) :
  run_db_from database (ops ++ [op]) = db_step (run_db_from database ops) op.
Proof. unfold run_db_from. apply foldl_snoc. Qed.

Lemma run_db_snoc (ops : list db_op) (op : db_op) :
  run_db (ops ++ [op]) = db_step (run_db ops) op.
Proof. apply run_db_from_snoc. Qed.

(** [INSERT OR REPLACE] under a [UNIQUE] column [key]. *)
Lemma replace_keeps_column_distinct {A K : Type} `{EqDecision K} (key : A → K)
    (rows : list A) (new : A) :
  NoDup (key <$> rows) →
  NoDup (key <$> filter (λ r, key r ≠ key new) rows ++ [new]).
Proof.
  intros Hdistinct. rewrite fmap_app. apply NoDup_app. split; [| split].
  - eapply sublist_NoDup; [exact Hdistinct |].
    apply fmap_sublist, sublist_filter.
  - intros k Hk Hnew. cbn in Hnew. apply list_elem_of_singleton in Hnew.
    apply list_elem_of_fmap in Hk as (r & -> & Hr).
    apply list_elem_of_filter in Hr as [Hother _]. exact (Hother Hnew).
  - cbn. apply NoDup_singleton.
Qed.

Lemma insert_keyword_or_ignore_distinct (rows : list DatabaseManager.keyword_row)
    (r : DatabaseManager.keyword_row) :
  NoDup (DatabaseManager.keyword <$> rows) →
  NoDup (DatabaseManager.keyword
           <$> DatabaseManager.insert_keyword_or_ignore rows r).
Proof.
  intros Hdistinct. unfold DatabaseManager.insert_keyword_or_ignore.
  destruct (bool_decide _) eqn:Hpresent; [exact Hdistinct |].
  apply bool_decide_eq_false in Hpresent.
  rewrite fmap_app. apply NoDup_app. split; [exact Hdistinct | split].
  - intros k Hk Hnew. cbn in Hnew. apply list_elem_of_singleton in Hnew.
    subst k. exact (Hpresent Hk).
  - cbn. apply NoDup_singleton.
Qed.

Lemma insert_keywords_or_ignore_distinct (defaults rows : list DatabaseManager.keyword_row) :
  NoDup (DatabaseManager.keyword <$> rows) →
  NoDup (DatabaseManager.keyword
           <$> foldl DatabaseManager.insert_keyword_or_ignore rows defaults).
Proof.
  revert rows. induction defaults as [| d rest IH]; intros rows Hdistinct;
    [exact Hdistinct |].
  cbn [foldl]. apply IH, insert_keyword_or_ignore_distinct, Hdistinct.
Qed.

Lemma database_ok_new : database_ok DatabaseManager.new.
Proof.
  unfold database_ok. cbn [DatabaseManager.new DatabaseManager.init_database
    DatabaseManager.messages DatabaseManager.chats DatabaseManager.daily_summaries
    DatabaseManager.alert_keywords DatabaseManager.empty].
  split; [apply NoDup_nil_2 |]. split; [apply NoDup_nil_2 |].
  split; [apply NoDup_nil_2 |].
  split; [apply insert_keywords_or_ignore_distinct, NoDup_nil_2 |].
  split; [| constructor].
  intros m Hm. apply elem_of_nil in Hm. contradiction.
Qed.

Lemma db_step_ok (database : DatabaseManager.t) (op : db_op) :
  database_ok database → database_ok (db_step database op).
Proof.
  intros (Hmessages & Hchats & Hdigests & Hkeywords & Hrooms & Hactive).
  destruct op as [commits m | commits ts a | commits ts s | commits k v d
                  | commits now retention |]; cbn [db_step].
  - destruct commits; [| repeat split; assumption].
    cbn [DatabaseManager.save_message fst]. unfold database_ok.
    cbn [DatabaseManager.messages DatabaseManager.chats
         DatabaseManager.daily_summaries DatabaseManager.alert_keywords].
    unfold DatabaseManager._update_chat_info.
    split; [apply (replace_keeps_column_distinct Message.message_id); exact Hmessages |].
    split.
    { apply (replace_keeps_column_distinct DatabaseManager.chat_id _
               (DatabaseManager.mk_chat (Message.chat_id m) _ true _ _)).
      exact Hchats. }
    split; [exact Hdigests |]. split; [exact Hkeywords |]. split.
    + intros r Hr. rewrite fmap_app, elem_of_app.
      apply elem_of_app in Hr as [Hold | Hnew].
      * apply list_elem_of_filter in Hold as [_ Hold].
        destruct (decide (Message.chat_id r = Message.chat_id m)) as [Hsame | Hother].
        -- right. cbn. rewrite Hsame. apply list_elem_of_here.
        -- left. pose proof (Hrooms r Hold) as Hroom.
           apply list_elem_of_fmap in Hroom as (c & Hc & Hin).
           apply list_elem_of_fmap. exists c. split; [exact Hc |].
           apply list_elem_of_filter. split; [| exact Hin].
           rewrite <- Hc. exact Hother.
      * apply list_elem_of_singleton in Hnew. subst r. right. cbn.
        apply list_elem_of_here.
    + apply Forall_app. split.
      * apply Forall_forall. intros c Hc.
        apply list_elem_of_filter in Hc as [_ Hc].
        rewrite Forall_forall in Hactive. exact (Hactive c Hc).
      * repeat constructor.
  - destruct commits; repeat split; assumption.
  - pose proof (save_daily_summary_keeps_keys_distinct commits ts database s Hdigests)
      as Hdigests'.
    destruct commits; repeat split; assumption.
  - destruct commits; repeat split; assumption.
  - unfold DatabaseManager.cleanup_old_data.
    destruct (DatabaseManager.minus_days now retention) as [cutoff |];
      [| repeat split; assumption].
    destruct (DatabaseManager.minus_days now (retention * 2)) as [summary_cutoff |];
      [| repeat split; assumption].
    destruct commits; [| repeat split; assumption].
    unfold database_ok.
    cbn [DatabaseManager.messages DatabaseManager.chats
         DatabaseManager.daily_summaries DatabaseManager.alert_keywords].
    split.
    { eapply sublist_NoDup; [exact Hmessages |].
      apply fmap_sublist, sublist_filter. }
    split; [exact Hchats |]. split.
    { eapply sublist_NoDup; [exact Hdigests |].
      apply fmap_sublist, sublist_filter. }
    split; [exact Hkeywords |]. split; [| exact Hactive].
    intros r Hr. apply list_elem_of_filter in Hr as [_ Hr]. exact (Hrooms r Hr).
  - unfold database_ok. cbn [DatabaseManager.init_database
      DatabaseManager.messages DatabaseManager.chats
      DatabaseManager.daily_summaries DatabaseManager.alert_keywords].
    repeat split; try assumption.
    apply insert_keywords_or_ignore_distinct. exact Hkeywords.
Qed.

Lemma run_db_from_ok (ops : list db_op) (database : DatabaseManager.t) :
  database_ok database → database_ok (run_db_from database ops).
Proof.
  revert database. induction ops as [| op rest IH]; intros database Hok;
    [exact Hok |].
  cbn [run_db_from foldl]. apply IH, db_step_ok, Hok.
Qed.

(** X5. Whatever sequence of saves, configuration writes, retention sweeps
    and re-initialisations runs on a fresh database, committed or not, each
    table keeps its key unique: one row per message id, one per conversation,
    one per (date, conversation) digest and one per keyword; and every stored
    message belongs to a conversation that has its row in the chat table. *)
Theorem database_keys_stay_unique (ops : list db_op) :
  let database := run_db ops in
  NoDup (Message.message_id <$> DatabaseManager.messages database)
  ∧ NoDup (DatabaseManager.chat_id <$> DatabaseManager.chats database)
  ∧ NoDup (digest_key <$> DatabaseManager.daily_summaries database)
  ∧ NoDup (DatabaseManager.keyword <$> DatabaseManager.alert_keywords database)
  ∧ ∀ m, m ∈ DatabaseManager.messages database →
         Message.chat_id m
           ∈ DatabaseManager.chat_id <$> DatabaseManager.chats database.
Proof.
  cbn zeta.
  destruct (run_db_from_ok ops DatabaseManager.new database_ok_new)
    as (Hmessages & Hchats & Hdigests & Hkeywords & Hrooms & _).
  repeat split; assumption.
Qed.
Lemma committed_saves_snoc (ops : list db_op) (op : db_op) :
  committed_saves (ops ++ [op])
  = committed_saves ops ++ match saved_message op with
                           | Some m => [m]
                           | None => []
                           end.
Proof.
  unfold committed_saves. rewrite omap_app. cbn [omap list_omap].
  destruct (saved_message op); reflexivity.
Qed.

Lemma chats_unchanged (database : DatabaseManager.t) (op : db_op) :
  saved_message op = None →
  DatabaseManager.chats (db_step database op) = DatabaseManager.chats database.
Proof.
  intros Hnone.
  destruct op as [[] m | [] ts a | [] ts s | [] k v d | commits now retention |];
    try discriminate; try reflexivity.
  cbn [db_step]. unfold DatabaseManager.cleanup_old_data.
  destruct (DatabaseManager.minus_days now retention); [| reflexivity].
  destruct (DatabaseManager.minus_days now (retention * 2)); [| reflexivity].
  destruct commits; reflexivity.
Qed.

Lemma chat_row_of_run (ops : list db_op) (cid : str) :
  filter (λ r, DatabaseManager.chat_id r = cid) (DatabaseManager.chats (run_db ops))
  = chat_row_after cid (committed_saves_of cid ops).
Proof.
  induction ops as [| op ops IH] using rev_ind; [reflexivity |].
  rewrite run_db_snoc. unfold committed_saves_of in *.
  rewrite committed_saves_snoc, filter_app.
  destruct (saved_message op) as [m |] eqn:Hsaved.
  - destruct op as [[] m' | | | | |]; try discriminate.
    injection Hsaved as ->.
    cbn [db_step DatabaseManager.save_message fst DatabaseManager.chats].
    unfold DatabaseManager._update_chat_info. rewrite filter_app.
    destruct (decide (Message.chat_id m = cid)) as [Hsame | Hother].
    + rewrite (filter_cons_True (λ m, Message.chat_id m = cid)) by exact Hsame.
      rewrite filter_nil, Hsame, IH.
      rewrite list_filter_filter.
      rewrite (list_filter_iff _ (λ _, False)) by tauto.
      assert (Hnone : ∀ l : list DatabaseManager.chat_row,
                 filter (λ _, False) l = []).
      { induction l as [| x l IHl]; [reflexivity |].
        rewrite filter_cons_False by tauto. exact IHl. }
      rewrite Hnone. cbn [app].
      rewrite filter_cons_True by reflexivity.
      unfold chat_row_after. rewrite last_snoc, length_app. cbn [length filter].
      destruct (last _) as [m0 |] eqn:Hlast.
      * cbn. do 2 f_equal. lia.
      * apply last_None in Hlast. rewrite Hlast. reflexivity.
    + rewrite (filter_cons_False (λ m, Message.chat_id m = cid)) by exact Hother.
      rewrite filter_nil, app_nil_r.
      rewrite filter_cons_False by (cbn; exact Hother).
      rewrite app_nil_r, list_filter_filter_l; [exact IH |].
      intros r Hr. rewrite Hr. intros Heq. apply Hother. symmetry. exact Heq.
  - rewrite (chats_unchanged _ _ Hsaved), app_nil_r. exact IH.
Qed.

(** X6. After any run of database calls on a fresh file, the chat table
    holds, for each conversation, a row exactly when some [save_message] for
    it committed; that row carries the name and timestamp of the last such
    save, and its counter is the number of those saves: re-saving a message
    id counts again, and rows deleted by the retention sweep still count. *)
Theorem chat_counter_counts_committed_saves (ops : list db_op) (cid : str) :
  let saves := committed_saves_of cid ops in
  filter (λ r, DatabaseManager.chat_id r = cid) (DatabaseManager.chats (run_db ops))
  = match last saves with
    | Some m =>
        [DatabaseManager.mk_chat cid (Message.chat_name m) true
           (Message.timestamp m) (Z.of_nat (length saves))]
    | None => []
    end.
Proof. apply chat_row_of_run. Qed.

(** The same message saved twice: one stored row, counted twice. *)
Example resaved_message_counts_twice :
  let database := run_db [SaveMessage true alarm_1; SaveMessage true alarm_1] in
  length (DatabaseManager.messages database) = 1%nat
  ∧ DatabaseManager.total_messages <$> DatabaseManager.chats database = [2].
Proof. by_computation. Qed.
#[local] Instance by_last_message_time_desc_transitive :
  Transitive DatabaseManager.by_last_message_time_desc.
Proof. unfold DatabaseManager.by_last_message_time_desc. intros a b c Hab Hbc. lia. Qed.

#[local] Instance by_last_message_time_desc_total :
  Total DatabaseManager.by_last_message_time_desc.
Proof. unfold DatabaseManager.by_last_message_time_desc. intros a b. lia. Qed.

Lemma chat_listed_iff_saved (ops : list db_op) (cid : str) :
  cid ∈ DatabaseManager.chat_id <$> DatabaseManager.chats (run_db ops)
  ↔ cid ∈ Message.chat_id <$> committed_saves ops.
Proof.
  pose proof (chat_row_of_run ops cid) as Hrow. unfold chat_row_after in Hrow.
  split.
  - intros Hlisted. apply list_elem_of_fmap in Hlisted as (r & Hr & Hin).
    assert (Hfiltered :
      r ∈ filter (λ r, DatabaseManager.chat_id r = cid)
            (DatabaseManager.chats (run_db ops))).
    { apply list_elem_of_filter. split; [symmetry; exact Hr | exact Hin]. }
    rewrite Hrow in Hfiltered.
    destruct (last (committed_saves_of cid ops)) as [m |] eqn:Hlast;
      [| apply elem_of_nil in Hfiltered; contradiction].
    apply last_Some_elem_of in Hlast. unfold committed_saves_of in Hlast.
    apply list_elem_of_filter in Hlast as [Hchat Hsaved].
    apply list_elem_of_fmap. exists m. split; [symmetry; exact Hchat | exact Hsaved].
  - intros Hsaved. apply list_elem_of_fmap in Hsaved as (m & Hm & Hin).
    assert (Hof : m ∈ committed_saves_of cid ops).
    { apply list_elem_of_filter. split; [symmetry; exact Hm | exact Hin]. }
    destruct (last (committed_saves_of cid ops)) as [m' |] eqn:Hlast.
    + assert (Hfiltered :
        DatabaseManager.mk_chat cid (Message.chat_name m') true
          (Message.timestamp m') (Z.of_nat (length (committed_saves_of cid ops)))
        ∈ filter (λ r, DatabaseManager.chat_id r = cid)
            (DatabaseManager.chats (run_db ops))).
      { rewrite Hrow. apply list_elem_of_here. }
      apply list_elem_of_filter in Hfiltered as [_ Hfiltered].
      apply list_elem_of_fmap. eexists. split; [| exact Hfiltered]. reflexivity.
    + apply last_None in Hlast. rewrite Hlast in Hof.
      apply elem_of_nil in Hof. contradiction.
Qed.

Lemma get_active_chats_ids (database : DatabaseManager.t) :
  Forall (λ r, DatabaseManager.is_active r = true) (DatabaseManager.chats database) →
  DatabaseManager.ac_chat_id <$> DatabaseManager.get_active_chats true database
  ≡ₚ DatabaseManager.chat_id <$> DatabaseManager.chats database.
Proof.
  intros Hactive. unfold DatabaseManager.get_active_chats.
  rewrite <- list_fmap_compose.
  rewrite merge_sort_Permutation.
  replace (filter (λ r, DatabaseManager.is_active r = true)
             (DatabaseManager.chats database))
    with (DatabaseManager.chats database); [reflexivity |].
  induction Hactive as [| r rows Hr _ IH]; [reflexivity |].
  rewrite filter_cons_True by exact Hr. f_equal. exact IH.
Qed.

Lemma get_active_chats_sorted (commits : bool) (database : DatabaseManager.t) :
  StronglySorted by_recency (DatabaseManager.get_active_chats commits database).
Proof.
  unfold DatabaseManager.get_active_chats. destruct commits; [| constructor].
  eapply StronglySorted_fmap; [| apply StronglySorted_merge_sort; apply _].
  intros a b Hab. exact Hab.
Qed.

(** X7. After any run of database calls on a fresh file, [get_active_chats]
    lists exactly the conversations for which a [save_message] committed,
    each once, most recently active first, and always with an empty
    [last_summary_date]; a conversation stays listed when the retention sweep
    has removed all its messages. *)
Theorem get_active_chats_lists_saved_chats (ops : list db_op) :
  let listed := DatabaseManager.get_active_chats true (run_db ops) in
  (∀ cid, cid ∈ DatabaseManager.ac_chat_id <$> listed
          ↔ cid ∈ Message.chat_id <$> committed_saves ops)
  ∧ NoDup (DatabaseManager.ac_chat_id <$> listed)
  ∧ StronglySorted by_recency listed
  ∧ Forall (λ c, DatabaseManager.ac_last_summary_date c = None) listed.
Proof.
  cbn zeta.
  destruct (run_db_from_ok ops DatabaseManager.new database_ok_new)
    as (_ & Hchats & _ & _ & _ & Hactive).
  fold (run_db ops) in Hchats, Hactive.
  pose proof (get_active_chats_ids (run_db ops) Hactive) as Hids.
  split; [| split; [| split]].
  - intros cid. rewrite Hids. apply chat_listed_iff_saved.
  - rewrite Hids. exact Hchats.
  - apply get_active_chats_sorted.
  - unfold DatabaseManager.get_active_chats. apply Forall_fmap, Forall_forall.
    intros r _. reflexivity.
Qed.

(** A conversation whose only message was swept is still listed, with its
    counter. *)
Example swept_chat_is_still_listed :
  let database :=
    run_db [SaveMessage true alarm_1;
            CleanupOldData true (ten_o_clock + DeduplicationEngine.days 200) 180] in
  DatabaseManager.messages database = []
  ∧ (λ c, (DatabaseManager.ac_chat_id c, DatabaseManager.ac_total_messages c))
      <$> DatabaseManager.get_active_chats true database
    = [(room, 1)].
Proof. by_computation. Qed.
(** ** Reading messages back (database.py) *)

Lemma sql_limit_prefix {A : Type} (limit : option Z) (rows : list A) :
  DatabaseManager.sql_limit limit rows `prefix_of` rows.
Proof.
  unfold DatabaseManager.sql_limit. destruct limit as [n |]; [| reflexivity].
  destruct (n =? 0); [reflexivity |]. destruct (n <? 0); [reflexivity |].
  apply prefix_take.
Qed.

(** X8. For every limit and on every outcome of the query,
    [get_messages_by_date_range] returns stored rows of the asked
    conversation inside the closed range, oldest first, and they are the
    first rows of the unlimited result; without a limit, and also with a
    limit of 0 or below, every stored row of the range is returned. *)
Theorem date_range_query_is_confined (commits : bool) (database : DatabaseManager.t)
    (cid : str) (start_date end_date : Z) (limit : option Z) :
  let query := DatabaseManager.get_messages_by_date_range in
  let result := query commits database cid start_date end_date limit in
  let everything := query true database cid start_date end_date None in
  Forall (λ m, m ∈ DatabaseManager.messages database
               ∧ Message.chat_id m = cid
               ∧ start_date ≤ Message.timestamp m ≤ end_date) result
  ∧ StronglySorted DatabaseManager.by_timestamp result
  ∧ result `prefix_of` everything
  ∧ everything ≡ₚ in_range database cid start_date end_date
  ∧ ∀ n, n ≤ 0 →
         query true database cid start_date end_date (Some n) = everything.
Proof.
  cbn zeta. unfold DatabaseManager.get_messages_by_date_range.
  rewrite !message_of_row_fmap. fold (in_range database cid start_date end_date).
  set (day := in_range database cid start_date end_date).
  set (sorted := merge_sort DatabaseManager.by_timestamp day).
  assert (Hperm : sorted ≡ₚ day) by apply merge_sort_Permutation.
  assert (Hsorted : StronglySorted DatabaseManager.by_timestamp sorted)
    by apply (StronglySorted_merge_sort _).
  assert (Hprefix : (if commits then DatabaseManager.sql_limit limit sorted
                     else []) `prefix_of` sorted).
  { destruct commits; [apply sql_limit_prefix | apply prefix_nil]. }
  cbn [DatabaseManager.sql_limit].
  split; [| split; [| split; [| split]]].
  - apply Forall_forall. intros m Hm.
    destruct Hprefix as [rest Hrest].
    assert (Hin : m ∈ day).
    { rewrite <- Hperm, Hrest. apply elem_of_app. left. exact Hm. }
    apply list_elem_of_filter in Hin as [[Hchat Hrange] Hstored].
    repeat split; try assumption; lia.
  - destruct Hprefix as [rest Hrest]. rewrite Hrest in Hsorted.
    eapply StronglySorted_app_1_l. exact Hsorted.
  - exact Hprefix.
  - exact Hperm.
  - intros n Hn. rewrite message_of_row_fmap. unfold DatabaseManager.sql_limit.
    destruct (n =? 0) eqn:Hzero; [reflexivity |].
    destruct (n <? 0) eqn:Hneg; [reflexivity |].
    apply Z.eqb_neq in Hzero. apply Z.ltb_ge in Hneg. lia.
Qed.

(** X9. A message whose save committed is read back by the unlimited query
    of its conversation over any range that contains its timestamp, with
    every field as it was saved, the stored [content_hash] included; and it
    is the only returned row with its message id, whatever the table held
    under that id before. *)
Theorem saved_message_is_read_back (database : DatabaseManager.t) (m : Message.t)
    (start_date end_date : Z) :
  start_date ≤ Message.timestamp m ≤ end_date →
  let saved := DatabaseManager.save_message true database m in
  let result :=
    DatabaseManager.get_messages_by_date_range true saved.1 (Message.chat_id m)
      start_date end_date None in
  saved.2 = true
  ∧ m ∈ result
  ∧ ∀ r, r ∈ result → Message.message_id r = Message.message_id m → r = m.
Proof.
  intros Hrange. cbn zeta. split; [reflexivity |].
  unfold DatabaseManager.get_messages_by_date_range.
  rewrite message_of_row_fmap. cbn [DatabaseManager.sql_limit].
  cbn [DatabaseManager.save_message fst DatabaseManager.messages].
  split.
  - rewrite merge_sort_Permutation. apply list_elem_of_filter.
    split; [split; [reflexivity | exact Hrange] |].
    apply elem_of_app. right. apply list_elem_of_here.
  - intros r Hr Hid. rewrite merge_sort_Permutation in Hr.
    apply list_elem_of_filter in Hr as [_ Hr].
    apply elem_of_app in Hr as [Hold | Hnew].
    + apply list_elem_of_filter in Hold as [Hother _]. contradiction.
    + apply list_elem_of_singleton in Hnew. exact Hnew.
Qed.

Lemma saved_message_is_read_back_witness :
  let stale := Message.set_extracted_text alarm_1 (py "机房断电") in
  let database := (DatabaseManager.save_message true morning_db stale).1 in
  let result :=
    DatabaseManager.get_messages_by_date_range true database room ten_o_clock
      (ten_o_clock + seconds 60) None in
  stale ∈ result
  ∧ Message.message_id <$> result = [py "msg_1"; py "msg_2"].
Proof.
  cbn zeta. split.
  - apply (saved_message_is_read_back morning_db
             (Message.set_extracted_text alarm_1 (py "机房断电"))
             ten_o_clock (ten_o_clock + seconds 60)).
    vm_compute. split; discriminate.
  - vm_compute. reflexivity.
Defined.
(** ** Keywords and configuration (database.py) *)

#[local] Instance by_weight_desc_transitive : Transitive DatabaseManager.by_weight_desc.
Proof.
  unfold DatabaseManager.by_weight_desc. intros a b c Hab Hbc.
  eapply Qle_trans; eassumption.
Qed.

#[local] Instance by_weight_desc_total : Total DatabaseManager.by_weight_desc.
Proof.
  unfold DatabaseManager.by_weight_desc. intros a b.
  destruct (Qlt_le_dec (DatabaseManager.weight a) (DatabaseManager.weight b))
    as [Hlt | Hle]; [right; apply Qlt_le_weak; exact Hlt | left; exact Hle].
Qed.

(** X10. [get_active_keywords] serves each active row of the keyword table
    once and no inactive one, heaviest first, every served keyword marked
    active; when the query fails it serves nothing. *)
Theorem active_keywords_are_served_heaviest_first (database : DatabaseManager.t) :
  let served := DatabaseManager.get_active_keywords true database in
  StronglySorted (λ a b, (KeywordConfig.weight b <= KeywordConfig.weight a)%Q) served
  ∧ Forall (λ k, KeywordConfig.is_active k = true) served
  ∧ (λ k, (KeywordConfig.keyword k, KeywordConfig.category k, KeywordConfig.weight k))
      <$> served
    ≡ₚ (λ r, (DatabaseManager.keyword r, DatabaseManager.category r,
              DatabaseManager.weight r))
         <$> filter (λ r, DatabaseManager.kw_is_active r = true)
               (DatabaseManager.alert_keywords database)
  ∧ DatabaseManager.get_active_keywords false database = [].
Proof.
  cbn zeta. unfold DatabaseManager.get_active_keywords.
  split; [| split; [| split]].
  - eapply StronglySorted_fmap; [| apply StronglySorted_merge_sort; apply _].
    intros a b Hab. exact Hab.
  - apply Forall_fmap, Forall_forall. intros r _. reflexivity.
  - rewrite <- list_fmap_compose, merge_sort_Permutation. reflexivity.
  - reflexivity.
Qed.

Lemma insert_keywords_present (defaults rows : list DatabaseManager.keyword_row) :
  (∀ d, d ∈ defaults →
        DatabaseManager.keyword d ∈ DatabaseManager.keyword <$> rows) →
  foldl DatabaseManager.insert_keyword_or_ignore rows defaults = rows.
Proof.
  induction defaults as [| d rest IH]; intros Hpresent; [reflexivity |].
  cbn [foldl]. unfold DatabaseManager.insert_keyword_or_ignore at 2.
  rewrite bool_decide_eq_true_2 by (apply Hpresent, list_elem_of_here).
  apply IH. intros d' Hd'. apply Hpresent, list_elem_of_further, Hd'.
Qed.

Lemma insert_keywords_extend (defaults rows : list DatabaseManager.keyword_row) :
  rows `prefix_of` foldl DatabaseManager.insert_keyword_or_ignore rows defaults
  ∧ ∀ d, d ∈ defaults →
         DatabaseManager.keyword d
           ∈ DatabaseManager.keyword
               <$> foldl DatabaseManager.insert_keyword_or_ignore rows defaults.
Proof.
  revert rows. induction defaults as [| d rest IH]; intros rows.
  - split; [reflexivity |]. intros d Hd. apply elem_of_nil in Hd. contradiction.
  - cbn [foldl].
    destruct (IH (DatabaseManager.insert_keyword_or_ignore rows d))
      as [Hprefix Hpresent].
    assert (Hstep : rows `prefix_of` DatabaseManager.insert_keyword_or_ignore rows d).
    { unfold DatabaseManager.insert_keyword_or_ignore.
      destruct (bool_decide _); [reflexivity | apply prefix_app_r; reflexivity]. }
    assert (Hd : DatabaseManager.keyword d
                 ∈ DatabaseManager.keyword
                     <$> DatabaseManager.insert_keyword_or_ignore rows d).
    { unfold DatabaseManager.insert_keyword_or_ignore.
      destruct (bool_decide _) eqn:Hin; [apply bool_decide_eq_true in Hin; exact Hin |].
      rewrite fmap_app. apply elem_of_app. right. apply list_elem_of_here. }
    split; [etransitivity; eassumption |].
    intros d' Hd'. apply elem_of_cons in Hd' as [-> | Hrest];
      [| apply Hpresent, Hrest].
    destruct Hprefix as [more ->]. rewrite fmap_app. apply elem_of_app. left.
    exact Hd.
Qed.

Lemma insert_configs_present (defaults : list (str * (str * str)))
    (cfg : gmap str (str * str)) :
  (∀ kv, kv ∈ defaults → is_Some (cfg !! kv.1)) →
  foldl DatabaseManager.insert_config_or_ignore cfg defaults = cfg.
Proof.
  induction defaults as [| d rest IH]; intros Hpresent; [reflexivity |].
  cbn [foldl]. unfold DatabaseManager.insert_config_or_ignore at 2.
  destruct (Hpresent d (list_elem_of_here _ _)) as [v ->].
  apply IH. intros d' Hd'. apply Hpresent, list_elem_of_further, Hd'.
Qed.

Lemma insert_configs_extend (defaults : list (str * (str * str)))
    (cfg : gmap str (str * str)) :
  cfg ⊆ foldl DatabaseManager.insert_config_or_ignore cfg defaults
  ∧ ∀ kv, kv ∈ defaults →
          is_Some (foldl DatabaseManager.insert_config_or_ignore cfg defaults !! kv.1).
Proof.
  revert cfg. induction defaults as [| d rest IH]; intros cfg.
  - split; [reflexivity |]. intros d Hd. apply elem_of_nil in Hd. contradiction.
  - cbn [foldl].
    destruct (IH (DatabaseManager.insert_config_or_ignore cfg d))
      as [Hsub Hpresent].
    assert (Hstep : cfg ⊆ DatabaseManager.insert_config_or_ignore cfg d).
    { unfold DatabaseManager.insert_config_or_ignore.
      destruct (cfg !! d.1) eqn:Hd; [reflexivity |].
      apply insert_subseteq. exact Hd. }
    assert (Hd : is_Some (DatabaseManager.insert_config_or_ignore cfg d !! d.1)).
    { unfold DatabaseManager.insert_config_or_ignore.
      destruct (cfg !! d.1) eqn:Hd; [rewrite Hd; eexists; reflexivity |].
      rewrite lookup_insert_eq. eexists. reflexivity. }
    split; [etransitivity; eassumption |].
    intros d' Hd'. apply elem_of_cons in Hd' as [-> | Hrest];
      [| apply Hpresent, Hrest].
    destruct Hd as [v Hv]. exists v.
    eapply lookup_weaken; eassumption.
Qed.

Lemma init_database_twice (database : DatabaseManager.t) :
  DatabaseManager.init_database (DatabaseManager.init_database database)
  = DatabaseManager.init_database database.
Proof.
  unfold DatabaseManager.init_database.
  cbn [DatabaseManager.messages DatabaseManager.chats
       DatabaseManager.daily_summaries DatabaseManager.realtime_alerts
       DatabaseManager.alert_keywords DatabaseManager.system_config].
  f_equal.
  - apply insert_keywords_present. apply insert_keywords_extend.
  - apply insert_configs_present. apply insert_configs_extend.
Qed.

Lemma init_database_keeps_config (database : DatabaseManager.t) (key : str)
    (v : str * str) :
  DatabaseManager.system_config database !! key = Some v →
  DatabaseManager.system_config (DatabaseManager.init_database database) !! key
  = Some v.
Proof.
  intros Hv. eapply lookup_weaken; [exact Hv |].
  apply insert_configs_extend.
Qed.

(** X11. Opening an existing database again changes nothing that is already
    there: [init_database] is idempotent, keeps every row of the keyword
    table as it is (a changed weight or a deactivated keyword is not reset)
    and every configuration value already set, and leaves each default
    keyword and configuration key present. *)
Theorem init_database_is_idempotent (database : DatabaseManager.t) :
  let reopened := DatabaseManager.init_database database in
  DatabaseManager.init_database reopened = reopened
  ∧ DatabaseManager.alert_keywords database
      `prefix_of` DatabaseManager.alert_keywords reopened
  ∧ DatabaseManager.system_config database
      ⊆ DatabaseManager.system_config reopened
  ∧ (∀ d, d ∈ DatabaseManager.default_keywords →
          DatabaseManager.keyword d
            ∈ DatabaseManager.keyword <$> DatabaseManager.alert_keywords reopened)
  ∧ ∀ kv, kv ∈ DatabaseManager.default_configs →
          is_Some (DatabaseManager.system_config reopened !! kv.1).
Proof.
  cbn zeta. split; [apply init_database_twice |].
  unfold DatabaseManager.init_database.
  cbn [DatabaseManager.alert_keywords DatabaseManager.system_config].
  split; [apply insert_keywords_extend |].
  split; [apply insert_configs_extend |].
  split; [apply insert_keywords_extend | apply insert_configs_extend].
Qed.

Lemma db_step_keeps_config (database : DatabaseManager.t) (op : db_op)
    (key : str) (v : str * str) :
  ¬ writes_config key op →
  DatabaseManager.system_config database !! key = Some v →
  DatabaseManager.system_config (db_step database op) !! key = Some v.
Proof.
  intros Hother Hv.
  destruct op as [[] m | [] ts a | [] ts s | [] k value d
                  | commits now retention |]; cbn [db_step]; try exact Hv.
  - cbn [DatabaseManager.set_config fst DatabaseManager.system_config].
    rewrite lookup_insert_ne; [exact Hv |]. exact Hother.
  - unfold DatabaseManager.cleanup_old_data.
    destruct (DatabaseManager.minus_days now retention); [| exact Hv].
    destruct (DatabaseManager.minus_days now (retention * 2)); [| exact Hv].
    destruct commits; exact Hv.
  - apply init_database_keeps_config. exact Hv.
Qed.

Lemma run_db_from_keeps_config (ops : list db_op) (key : str) (v : str * str) :
  ∀ database : DatabaseManager.t,
    Forall (λ op, ¬ writes_config key op) ops →
    DatabaseManager.system_config database !! key = Some v →
    DatabaseManager.system_config (run_db_from database ops) !! key = Some v.
Proof.
  induction ops as [| op rest IH]; intros database Hother Hv; [exact Hv |].
  apply Forall_cons in Hother as [Hop Hrest].
  cbn [run_db_from foldl]. apply IH; [exact Hrest |].
  apply db_step_keeps_config; assumption.
Qed.

(** X12. A configuration value whose [set_config] committed is what
    [get_config] returns, whatever default is passed, after any further
    database calls that do not commit a write of the same key: failed
    writes of the key, writes of other keys, saves, retention sweeps, and
    re-opening the database, which re-inserts the defaults, leave it. *)
Theorem config_value_persists (database : DatabaseManager.t)
    (key value description : str) (ops : list db_op) :
  Forall (λ op, ¬ writes_config key op) ops →
  ∀ default : str,
    DatabaseManager.get_config true
      (run_db_from
         (DatabaseManager.set_config true database key value description).1 ops)
      key default
    = value.
Proof.
  intros Hother default.
  assert (Hv : DatabaseManager.system_config
                 (run_db_from
                    (DatabaseManager.set_config true database key value
                       description).1 ops) !! key
               = Some (value, description)).
  { apply run_db_from_keeps_config; [exact Hother |].
    cbn. apply lookup_insert_eq. }
  unfold DatabaseManager.get_config. rewrite Hv. reflexivity.
Qed.

Lemma config_value_persists_witness :
  DatabaseManager.get_config true
    (run_db_from
       (DatabaseManager.set_config true DatabaseManager.new (py "target_user")
          (py "wxid_owner") (py "推送目标用户")).1
       [SetConfig false (py "target_user") (py "wxid_x") (py "");
        SetConfig true (py "urgency_threshold") (py "8") (py "");
        InitDatabase])
    (py "target_user") (py "")
  = py "wxid_owner".
Proof.
  apply (config_value_persists DatabaseManager.new (py "target_user")
           (py "wxid_owner") (py "推送目标用户")).
  repeat constructor; vm_compute; [tauto | discriminate | tauto].
Defined.
(** ** The retention sweep (database.py) *)




(** A window that would start before year 1 overflows in
    [datetime.now() - timedelta(...)]: nothing at all is deleted. *)
Example cleanup_old_data_overflow :
  Message.message_id
    <$> DatabaseManager.messages
          (DatabaseManager.cleanup_old_data true
             (ten_o_clock + DeduplicationEngine.days 200) morning_db 400000)
  = [py "msg_1"; py "msg_2"; py "msg_3"; py "msg_4"].
Proof. by_computation. Qed.

(** ** Keyword matching and the engine's footprint (realtime_alerts.py) *)

Lemma startswith_iff (prefix s : str) :
  pystr.startswith s prefix = true ↔ ∃ rest, s = prefix ++ rest.
Proof.
  revert s. induction prefix as [| p prefix IH]; intros s.
  - destruct s; cbn; split; eauto.
  - destruct s as [| c s]; cbn [pystr.startswith].
    + split; [discriminate | intros [rest Hrest]; discriminate].
    + rewrite andb_true_iff, N.eqb_eq, IH. split.
      * intros [-> [rest ->]]. exists rest. reflexivity.
      * intros [rest [= -> ->]]. split; [reflexivity | exists rest; reflexivity].
Qed.

(** [needle in hay] holds exactly when [needle] is a contiguous part of
    [hay]. *)
Lemma contains_iff (needle hay : str) :
  pystr.contains needle hay = true ↔ ∃ pre post, hay = pre ++ needle ++ post.
Proof.
  induction hay as [| c hay IH].
  - cbn [pystr.contains]. rewrite orb_false_r, startswith_iff. split.
    + intros [rest Hrest]. exists [], rest. exact Hrest.
    + intros (pre & post & Hhay). symmetry in Hhay.
      apply app_eq_nil in Hhay as [-> Hhay]. exists post. symmetry. exact Hhay.
  - cbn [pystr.contains]. rewrite orb_true_iff, startswith_iff, IH. split.
    + intros [[rest Hrest] | (pre & post & ->)].
      * exists [], rest. exact Hrest.
      * exists (c :: pre), post. reflexivity.
    + intros (pre & post & Hhay). destruct pre as [| c' pre].
      * left. exists post. exact Hhay.
      * right. injection Hhay as -> ->. exists pre, post. reflexivity.
Qed.

(** X14. The keywords [check_urgent_keywords] reports are, in serving order,
    exactly the served keywords that occur as a contiguous part of the
    message's content followed directly by its extracted text: the two are
    concatenated without a separator, so a keyword that straddles the join
    matches too. *)
Theorem matched_keywords_are_substrings (now : Z) (commits : bool)
    (database : DatabaseManager.t) (self : RealtimeAlertEngine.t)
    (message : Message.t) :
  let served := (RealtimeAlertEngine._get_keywords now commits database self).2 in
  let matched :=
    (RealtimeAlertEngine.check_urgent_keywords now commits database self message).2 in
  matched `sublist_of` served
  ∧ ∀ k, k ∈ matched
         ↔ k ∈ served
           ∧ ∃ pre post,
               Message.content message ++ Message.extracted_text message
               = pre ++ KeywordConfig.keyword k ++ post.
Proof.
  cbn zeta. unfold RealtimeAlertEngine.check_urgent_keywords.
  destruct (RealtimeAlertEngine._get_keywords now commits database self)
    as [self' served]. cbn [snd].
  split; [apply sublist_filter |].
  intros k. rewrite list_elem_of_filter, contains_iff. tauto.
Qed.

(** A keyword split between the text of an image message and its OCR text
    matches. *)
Example keyword_across_the_join :
  let message :=
    Message.set_extracted_text
      (Message.init (py "msg_9") room (py "运维群") (py "wxid_a") (py "小王")
         (py "image") (py "现场照片：紧") ten_o_clock (py "") false 0)
      (py "急集合") in
  KeywordConfig.keyword
    <$> (RealtimeAlertEngine.check_urgent_keywords ten_o_clock true
           DatabaseManager.new engine_0 message).2
  = [py "紧急"; py "急"].
Proof. by_computation. Qed.

(** X15. [check_and_process] costs nothing when alerts are disabled, when no
    push target is set, or when no served keyword matches: no request to the
    AI provider, no message sent, nothing written; in the first two cases
    the keyword cache is not even consulted. *)
Theorem check_and_process_is_idle_without_a_match (keywords_now : Z)
    (keywords_commits : bool) (env : RealtimeAlertEngine.alert_env) (w : world)
    (self : RealtimeAlertEngine.t) (message : Message.t) :
  AlertConfig.enable_realtime_alerts (RealtimeAlertEngine.config self) = false
  ∨ RealtimeAlertEngine.target_user self = []
  ∨ (RealtimeAlertEngine.check_urgent_keywords keywords_now keywords_commits
       (db w) self message).2 = [] →
  let result :=
    RealtimeAlertEngine.check_and_process keywords_now keywords_commits env w
      self message in
  result.1 = w
  ∧ (result.2 = self
     ∨ result.2
       = (RealtimeAlertEngine._get_keywords keywords_now keywords_commits (db w)
            self).1
         ∧ AlertConfig.enable_realtime_alerts (RealtimeAlertEngine.config self) = true
         ∧ RealtimeAlertEngine.target_user self ≠ []).
Proof.
  intros Hidle. cbn zeta. unfold RealtimeAlertEngine.check_and_process.
  destruct (AlertConfig.enable_realtime_alerts (RealtimeAlertEngine.config self))
    eqn:Henabled; cbn [negb orb]; [| split; [reflexivity | left; reflexivity]].
  destruct (bool_decide (RealtimeAlertEngine.target_user self = [])) eqn:Htarget;
    [split; [reflexivity | left; reflexivity] |].
  apply bool_decide_eq_false in Htarget.
  destruct Hidle as [Hoff | [Hempty | Hnone]]; [discriminate | contradiction |].
  unfold RealtimeAlertEngine.check_urgent_keywords in *.
  destruct (RealtimeAlertEngine._get_keywords keywords_now keywords_commits
              (db w) self) as [self' served].
  cbn [snd fst] in *. rewrite Hnone. cbn [fst snd].
  split; [reflexivity |]. right. repeat split; assumption.
Qed.

Lemma check_and_process_is_idle_without_a_match_witness :
  let calm := text_message (py "msg_6") (py "中午吃什么") (ten_o_clock + seconds 300) in
  (RealtimeAlertEngine.check_and_process ten_o_clock true (alert_env_at ten_o_clock)
     world_0 engine_0 calm).1
  = world_0.
Proof.
  apply (check_and_process_is_idle_without_a_match ten_o_clock true
           (alert_env_at ten_o_clock) world_0 engine_0).
  right. right. vm_compute. reflexivity.
Defined.

Lemma process_potential_alert_unfold (env : RealtimeAlertEngine.alert_env)
    (w : world) (self : RealtimeAlertEngine.t) (trigger : Message.t)
    (keywords : list KeywordConfig.t) :
  RealtimeAlertEngine.process_potential_alert env w self trigger keywords
  = RealtimeAlertEngine.dispatch env
      (mk_world (db w)
         (OpenAI.mk (OpenAI.answer (client w)) (S (OpenAI.requests (client w))))
         (bot w))
      self trigger keywords
      (RealtimeAlertEngine.context_of env w self trigger)
      (AIAnalysisService.analyze_urgency (client w) trigger
         (RealtimeAlertEngine.context_of env w self trigger) keywords).1.
Proof.
  unfold RealtimeAlertEngine.process_potential_alert.
  pose proof (analyze_urgency_requests (client w) trigger
                (RealtimeAlertEngine.context_of env w self trigger) keywords)
    as Hrequests.
  destruct (AIAnalysisService.analyze_urgency (client w) trigger
              (RealtimeAlertEngine.context_of env w self trigger) keywords)
    as [analysis client']. cbn [fst snd] in *. rewrite Hrequests. reflexivity.
Qed.

Lemma dispatch_frame (env : RealtimeAlertEngine.alert_env) (w : world)
    (self : RealtimeAlertEngine.t) (trigger : Message.t)
    (keywords : list KeywordConfig.t) (context : list Message.t)
    (analysis : UrgencyAnalysisResult.t) :
  let database :=
    db (RealtimeAlertEngine.dispatch env w self trigger keywords context analysis) in
  DatabaseManager.messages database = DatabaseManager.messages (db w)
  ∧ DatabaseManager.chats database = DatabaseManager.chats (db w)
  ∧ DatabaseManager.daily_summaries database = DatabaseManager.daily_summaries (db w)
  ∧ DatabaseManager.alert_keywords database = DatabaseManager.alert_keywords (db w)
  ∧ DatabaseManager.system_config database = DatabaseManager.system_config (db w).
Proof.
  cbn zeta. unfold RealtimeAlertEngine.dispatch.
  destruct (RealtimeAlertEngine.passes_gate self analysis); [| repeat split].
  rewrite execute_push_outcome.
  destruct (next_send_succeeds (bot w)); [| repeat split].
  unfold DatabaseManager.save_realtime_alert.
  destruct (RealtimeAlertEngine.alert_commits env); repeat split.
Qed.

(** X16. One call of [process_potential_alert], whatever the provider and the
    bot answer: exactly one request goes to the AI provider; at most one
    message is sent, and it is addressed to the engine's target user; at most
    one alert row is added, only when a message was sent, and it names the
    trigger message; the messages, chats, digests, keywords and
    configuration in the database are not touched. *)
Theorem process_potential_alert_footprint (env : RealtimeAlertEngine.alert_env)
    (w : world) (self : RealtimeAlertEngine.t) (trigger : Message.t)
    (keywords : list KeywordConfig.t) :
  let w' := RealtimeAlertEngine.process_potential_alert env w self trigger keywords in
  OpenAI.requests (client w') = S (OpenAI.requests (client w))
  ∧ (∃ sent, Bot.outbox (bot w') = Bot.outbox (bot w) ++ sent
             ∧ (length sent ≤ 1)%nat
             ∧ Forall (λ s, s.1 = RealtimeAlertEngine.target_user self) sent
             ∧ ∃ rows,
                 DatabaseManager.realtime_alerts (db w')
                 = DatabaseManager.realtime_alerts (db w) ++ rows
                 ∧ (length rows ≤ length sent)%nat
                 ∧ Forall (λ r, RealtimeAlert.trigger_message_id r
                                = Message.message_id trigger
                                ∧ RealtimeAlert.chat_id r = Message.chat_id trigger)
                     rows)
  ∧ DatabaseManager.messages (db w') = DatabaseManager.messages (db w)
  ∧ DatabaseManager.chats (db w') = DatabaseManager.chats (db w)
  ∧ DatabaseManager.daily_summaries (db w') = DatabaseManager.daily_summaries (db w)
  ∧ DatabaseManager.alert_keywords (db w') = DatabaseManager.alert_keywords (db w)
  ∧ DatabaseManager.system_config (db w') = DatabaseManager.system_config (db w).
Proof.
  cbn zeta. rewrite process_potential_alert_unfold.
  set (context := RealtimeAlertEngine.context_of env w self trigger).
  set (analysis := (AIAnalysisService.analyze_urgency (client w) trigger context
                      keywords).1).
  set (w1 := mk_world (db w) _ (bot w)).
  destruct (dispatch_effects env w1 self trigger keywords context analysis)
    as (Halerts & Houtbox & Hclient).
  cbn zeta in Halerts, Houtbox.
  split; [rewrite Hclient; reflexivity |].
  split; [| exact (dispatch_frame env w1 self trigger keywords context analysis)].
  eexists. split; [exact Houtbox |].
  destruct (RealtimeAlertEngine.passes_gate self analysis); cbn [andb] in *.
  - split; [cbn; lia |]. split; [repeat constructor |].
    eexists. split; [exact Halerts |].
    destruct (next_send_succeeds (bot w1) && RealtimeAlertEngine.alert_commits env).
    + split; [cbn; lia |]. repeat constructor.
    + split; [cbn; lia |]. constructor.
  - split; [cbn; lia |]. split; [constructor |].
    eexists. split; [exact Halerts |]. split; [cbn; lia | constructor].
Qed.


Lemma update_target_user_keeps_sync (commits : bool) (database : DatabaseManager.t)
    (self : RealtimeAlertEngine.t) (new_target : str) :
  target_in_sync database self →
  let result :=
    RealtimeAlertEngine.update_target_user commits database self new_target in
  target_in_sync result.1.1 result.1.2
  ∧ RealtimeAlertEngine.target_user result.1.2
    = (if commits then new_target else RealtimeAlertEngine.target_user self)
  ∧ result.2 = commits.
Proof.
  intros [Hconfig Hstored]. cbn zeta.
  rewrite (update_target_user_atomic_over_database commits database self
             new_target Hconfig).
  destruct commits; cbn [fst snd].
  - split; [| split; reflexivity]. split; [reflexivity |].
    unfold DatabaseManager.get_config.
    cbn [DatabaseManager.set_config fst DatabaseManager.system_config].
    rewrite lookup_insert_eq. reflexivity.
  - split; [| split; reflexivity]. split; assumption.
Qed.

(** X18. Over the repository's own database, whose [set_config] reports a
    failure instead of raising, any sequence of [update_target_user] calls
    keeps the engine's target, the target in its configuration object and
    the stored configuration value equal, provided they were equal at the
    start; their common value is the target of the last call whose write
    committed, or the initial target when none did. *)
Theorem target_user_stays_in_sync (database : DatabaseManager.t)
    (self : RealtimeAlertEngine.t) (updates : list target_update) :
  target_in_sync database self →
  let final := run_target_updates database self updates in
  target_in_sync final.1 final.2
  ∧ RealtimeAlertEngine.target_user final.2
    = default (RealtimeAlertEngine.target_user self)
        (update_target <$> last (filter (λ u, update_commits u = true) updates)).
Proof.
  intros Hsync. cbn zeta.
  induction updates as [| u updates IH] using rev_ind.
  - split; [exact Hsync | reflexivity].
  - destruct IH as [Hsync' Htarget]. unfold run_target_updates in *.
    rewrite foldl_snoc. cbn beta.
    destruct (update_target_user_keeps_sync (update_commits u)
                (foldl _ (database, self) updates).1
                (foldl _ (database, self) updates).2 (update_target u) Hsync')
      as (Hsync'' & Hnew & _).
    cbn zeta in Hsync'', Hnew. split; [exact Hsync'' |].
    rewrite Hnew, filter_app.
    destruct (update_commits u) eqn:Hcommits.
    + rewrite filter_cons_True by exact Hcommits. rewrite filter_nil, last_snoc.
      reflexivity.
    + rewrite filter_cons_False by (rewrite Hcommits; discriminate).
      rewrite filter_nil, app_nil_r. exact Htarget.
Qed.

Lemma target_user_stays_in_sync_witness :
  let start :=
    RealtimeAlertEngine.update_target_user true DatabaseManager.new engine_old
      (py "wxid_old") in
  let final :=
    run_target_updates start.1.1 start.1.2
      [mk_target_update true (py "wxid_new");
       mk_target_update false (py "wxid_lost")] in
  RealtimeAlertEngine.target_user final.2 = py "wxid_new"
  ∧ DatabaseManager.get_config true final.1 (py "target_user") (py "")
    = py "wxid_new".
Proof.
  cbn zeta.
  destruct (target_user_stays_in_sync
              (RealtimeAlertEngine.update_target_user true DatabaseManager.new
                 engine_old (py "wxid_old")).1.1
              (RealtimeAlertEngine.update_target_user true DatabaseManager.new
                 engine_old (py "wxid_old")).1.2
              [mk_target_update true (py "wxid_new");
               mk_target_update false (py "wxid_lost")])
    as [[_ Hstored] Htarget].
  - split; vm_compute; reflexivity.
  - cbn zeta in *. rewrite Hstored, Htarget. vm_compute. split; reflexivity.
Defined.

(** ** The collector (message_collector.py) *)






Lemma lstrip_idempotent (s : str) : pystr.lstrip (pystr.lstrip s) = pystr.lstrip s.
Proof.
  induction s as [| c s IH]; [reflexivity |].
  cbn [pystr.lstrip]. destruct (pystr.isspace c) eqn:Hc; [exact IH |].
  cbn [pystr.lstrip]. rewrite Hc. reflexivity.
Qed.

Lemma lstrip_snoc (s : str) (c : N) :
  pystr.isspace c = false → pystr.lstrip (s ++ [c]) = pystr.lstrip s ++ [c].
Proof.
  intros Hc. induction s as [| x s IH]; cbn [app pystr.lstrip].
  - rewrite Hc. reflexivity.
  - destruct (pystr.isspace x); [exact IH | reflexivity].
Qed.

Lemma rstrip_cons (c : N) (s : str) :
  pystr.isspace c = false → pystr.rstrip (c :: s) = c :: pystr.rstrip s.
Proof.
  intros Hc. unfold pystr.rstrip. rewrite reverse_cons, (lstrip_snoc _ _ Hc).
  rewrite reverse_app. reflexivity.
Qed.

Lemma rstrip_idempotent (s : str) : pystr.rstrip (pystr.rstrip s) = pystr.rstrip s.
Proof.
  unfold pystr.rstrip. rewrite reverse_involutive, lstrip_idempotent. reflexivity.
Qed.

(** After [lstrip], trimming the right end leaves the left end trimmed. *)
Lemma lstrip_rstrip_lstrip (s : str) :
  pystr.lstrip (pystr.rstrip (pystr.lstrip s)) = pystr.rstrip (pystr.lstrip s).
Proof.
  induction s as [| c s IH]; [reflexivity |].
  cbn [pystr.lstrip]. destruct (pystr.isspace c) eqn:Hc; [exact IH |].
  rewrite (rstrip_cons _ _ Hc). cbn [pystr.lstrip]. rewrite Hc. reflexivity.
Qed.

Lemma strip_idempotent (s : str) : pystr.strip (pystr.strip s) = pystr.strip s.
Proof.
  unfold pystr.strip. rewrite lstrip_rstrip_lstrip. apply rstrip_idempotent.
Qed.

Lemma split_colon_app (sender body : str) :
  58%N ∉ sender →
  pystr.split_colon (sender ++ 58%N :: body) = Some (sender, body).
Proof.
  intros Hsender. induction sender as [| c sender IH]; [reflexivity |].
  cbn [app pystr.split_colon].
  destruct (c =? 58)%N eqn:Hc.
  - apply N.eqb_eq in Hc. subst c. exfalso. apply Hsender, list_elem_of_here.
  - rewrite IH; [reflexivity |]. intros Hin. apply Hsender.
    apply list_elem_of_further. exact Hin.
Qed.

Lemma extract_message_info_some (d : MessageCollector.directory)
    (s : MessageCollector.stats) (ev : MessageCollector.event)
    (message_type : str) (m : Message.t) :
  (MessageCollector.extract_message_info d s ev message_type).2 = Some m →
  pystr.endswith (Message.chat_id m) (py "@chatroom") = true
  ∧ Message.chat_id m = MessageCollector.fromUser ev
  ∧ Message.chat_name m = MessageCollector.get_chat_name d (MessageCollector.fromUser ev)
  ∧ Message.message_type m = message_type
  ∧ Message.extracted_text m = []
  ∧ pystr.strip (Message.content m) = Message.content m
  ∧ Message.content_hash m = fingerprint (Message.content m) [].
Proof.
  unfold MessageCollector.extract_message_info.
  destruct (bool_decide (MessageCollector.fromUser ev = [])); cbn [negb andb];
    [discriminate |].
  destruct (pystr.endswith (MessageCollector.fromUser ev) (py "@chatroom"))
    eqn:Hgroup; cbn [negb]; [| discriminate].
  destruct (match MessageCollector.content ev with
            | Some ((_ :: _) as c) => _
            | _ => _
            end) as [[sender_id sender_name] text].
  destruct (default _ (MessageCollector.createTime ev)) as [timestamp |];
    [| discriminate].
  cbn [snd]. intros [= <-].
  cbn [Message.init Message.chat_id Message.chat_name Message.message_type
       Message.extracted_text Message.content Message.content_hash].
  split; [exact Hgroup |]. do 4 (split; [reflexivity |]).
  split; [apply strip_idempotent | apply post_init_hash_fingerprint].
Qed.

Lemma extract_message_info_counts (d : MessageCollector.directory)
    (s : MessageCollector.stats) (ev : MessageCollector.event)
    (message_type : str) :
  (MessageCollector.extract_message_info d s ev message_type).1
  = MessageCollector.count_total s.
Proof.
  unfold MessageCollector.extract_message_info.
  destruct (negb _); [reflexivity |].
  destruct (match MessageCollector.content ev with
            | Some ((_ :: _) as c) => _
            | _ => _
            end) as [[sender_id sender_name] text].
  destruct (default _ (MessageCollector.createTime ev)); reflexivity.
Qed.


(** X20. [extract_message_info] counts every event once in
    [total_messages], touching no other counter, and whenever it returns a
    message, the event came from a group chat, the message carries that
    chat's id and looked-up name and the asked type, its extracted text is
    empty, its content has no white space left at either end, and its stored
    hash is the fingerprint of that content alone. *)
Theorem extracted_message_is_a_trimmed_group_message
    (d : MessageCollector.directory) (s : MessageCollector.stats)
    (ev : MessageCollector.event) (message_type : str) :
  let result := MessageCollector.extract_message_info d s ev message_type in
  result.1 = MessageCollector.count_total s
  ∧ ∀ m, result.2 = Some m →
         pystr.endswith (Message.chat_id m) (py "@chatroom") = true
         ∧ Message.chat_id m = MessageCollector.fromUser ev
         ∧ Message.chat_name m
           = MessageCollector.get_chat_name d (MessageCollector.fromUser ev)
         ∧ Message.message_type m = message_type
         ∧ Message.extracted_text m = []
         ∧ pystr.strip (Message.content m) = Message.content m
         ∧ Message.content_hash m = fingerprint (Message.content m) [].
Proof.
  cbn zeta. split; [apply extract_message_info_counts |].
  apply extract_message_info_some.
Qed.

(** A private chat is counted and skipped. *)
Example private_chat_is_skipped :
  MessageCollector.extract_message_info
    (MessageCollector.mk_directory (λ wxid _, wxid) (λ cid, cid) 0 ten_o_clock)
    (MessageCollector.mk_stats 0 0 0 0)
    (MessageCollector.mk_event (py "wxid_friend") (Some (py "在吗")) (Some (py "78"))
       (Some (Returns ten_o_clock)))
    (py "text")
  = (MessageCollector.mk_stats 1 0 0 0, None).
Proof. by_computation. Qed.

(** X21. In a group event whose content is a sender id without a colon, a
    colon and a body, the sender id is what precedes the first colon, kept
    as it is (it is trimmed only for the name lookup), and the content is
    the body after that colon, trimmed: colons inside the body stay. *)
Theorem sender_is_split_at_the_first_colon (d : MessageCollector.directory)
    (s : MessageCollector.stats) (room_id sender body : str)
    (message_id : option str) (timestamp : Z) (message_type : str) :
  room_id ≠ [] ∧ pystr.endswith room_id (py "@chatroom") = true →
  58%N ∉ sender →
  let ev :=
    MessageCollector.mk_event room_id (Some (sender ++ py ":" ++ body)) message_id
      (Some (Returns timestamp)) in
  ∃ m, (MessageCollector.extract_message_info d s ev message_type).2 = Some m
       ∧ Message.sender_id m = sender
       ∧ Message.sender_name m
         = MessageCollector.get_sender_name d (pystr.strip sender) room_id
       ∧ Message.content m = pystr.strip body
       ∧ Message.timestamp m = timestamp
       ∧ Message.message_id m
         = default (pystr.of_Z (MessageCollector.time_ms d)) message_id.
Proof.
  intros [Hroom Hgroup] Hsender. cbn zeta.
  unfold MessageCollector.extract_message_info.
  cbn [MessageCollector.fromUser MessageCollector.content MessageCollector.msgId
       MessageCollector.createTime].
  rewrite bool_decide_eq_false_2 by exact Hroom. rewrite Hgroup. cbn [negb andb].
  change (py ":" ++ body) with (58%N :: body).
  destruct (sender ++ 58%N :: body) as [| c rest] eqn:Hcontent.
  { destruct sender; discriminate. }
  rewrite <- Hcontent, (split_colon_app sender body Hsender).
  cbn [default snd]. eexists. split; [reflexivity |].
  repeat split.
Qed.

Lemma sender_is_split_at_the_first_colon_witness :
  let d := MessageCollector.mk_directory (λ wxid _, wxid) (λ cid, cid) 0 ten_o_clock in
  let ev :=
    MessageCollector.mk_event room (Some (py "wxid_a :
 10:30 开会 ")) (Some (py "77"))
      (Some (Returns ten_o_clock)) in
  (λ m, (Message.sender_id m, Message.sender_name m, Message.content m))
    <$> (MessageCollector.extract_message_info d
           (MessageCollector.mk_stats 0 0 0 0) ev (py "text")).2
  = Some (py "wxid_a ", py "wxid_a", py "10:30 开会").
Proof.
  cbn zeta.
  destruct (sender_is_split_at_the_first_colon
              (MessageCollector.mk_directory (λ wxid _, wxid) (λ cid, cid) 0
                 ten_o_clock)
              (MessageCollector.mk_stats 0 0 0 0) room (py "wxid_a ")
              (py "
 10:30 开会 ") (Some (py "77")) ten_o_clock (py "text"))
    as (m & Hm & _).
  - split; [vm_compute; discriminate | vm_compute; reflexivity].
  - vm_compute. intros Hin. repeat (apply elem_of_cons in Hin as [Hin | Hin];
      [discriminate |]). apply elem_of_nil in Hin. exact Hin.
  - vm_compute. reflexivity.
Defined.
Lemma handle_extracted (h : MessageCollector.handler)
    (d : MessageCollector.directory) (e : MessageCollector.env) (w : world)
    (self : MessageCollector.t) (ev : MessageCollector.event) :
  MessageCollector.handle h d e w self ev
  = match (MessageCollector.extract_message_info d
             (MessageCollector.statistics self) ev
             (MessageCollector.event_type h)).2 with
    | Some m =>
        MessageCollector.process_message e w
          (MessageCollector.mk (MessageCollector.dedup_engine self)
             (MessageCollector.alert_engine self)
             (MessageCollector.count_total (MessageCollector.statistics self)))
          (MessageCollector.adjust h m ev)
    | None =>
        (w, MessageCollector.mk (MessageCollector.dedup_engine self)
              (MessageCollector.alert_engine self)
              (MessageCollector.count_total (MessageCollector.statistics self)))
    end.
Proof.
  unfold MessageCollector.handle.
  pose proof (extract_message_info_counts d (MessageCollector.statistics self) ev
                (MessageCollector.event_type h)) as Hcount.
  destruct (MessageCollector.extract_message_info d
              (MessageCollector.statistics self) ev
              (MessageCollector.event_type h)) as [s extracted].
  cbn [fst snd] in *. rewrite Hcount. reflexivity.
Qed.



Lemma save_message_length (commits : bool) (database : DatabaseManager.t)
    (m : Message.t) :
  (length (DatabaseManager.messages
             (DatabaseManager.save_message commits database m).1)
   ≤ S (length (DatabaseManager.messages database)))%nat.
Proof.
  destruct commits; cbn [DatabaseManager.save_message fst DatabaseManager.messages];
    [| lia].
  rewrite length_app. cbn [length].
  pose proof (length_filter
                (λ r, Message.message_id r ≠ Message.message_id m)
                (DatabaseManager.messages database)).
  lia.
Qed.

(** What one call of [process_message] does to the counters and to the size
    of the message table. *)
Lemma process_message_step (e : MessageCollector.env) (w : world)
    (self : MessageCollector.t) (m : Message.t) :
  let result := MessageCollector.process_message e w self m in
  let s := MessageCollector.statistics self in
  let s' := MessageCollector.statistics result.2 in
  let stored w := length (DatabaseManager.messages (db w)) in
  (s' = MessageCollector.count_filtered s ∧ stored result.1 = stored w)
  ∨ (s' = s ∧ stored result.1 = stored w)
  ∨ (s' = MessageCollector.count_processed s
     ∧ (stored result.1 ≤ S (stored w))%nat).
Proof.
  cbn zeta. unfold MessageCollector.process_message.
  destruct (DeduplicationEngine.is_duplicate _ _ _ _ m) as [table duplicate].
  destruct duplicate; [left; split; reflexivity |].
  pose proof (save_message_length (MessageCollector.save_commits e) (db w) m)
    as Hlength.
  destruct (DatabaseManager.save_message _ (db w) m) as [database success].
  cbn [fst] in Hlength.
  destruct success; cbn [negb]; [| right; left; split; reflexivity].
  right. right.
  destruct (MessageCollector.alert_engine self) as [engine |];
    [| split; [reflexivity | exact Hlength]].
  pose proof (check_and_process_keeps_messages (MessageCollector.keywords_now e)
                (MessageCollector.keywords_commits e) (MessageCollector.alert e)
                (mk_world database (client w) (bot w)) engine m) as Hkept.
  destruct (RealtimeAlertEngine.check_and_process _ _ _ _ engine m)
    as [w' engine'].
  cbn [fst snd MessageCollector.statistics db] in *.
  split; [reflexivity |]. rewrite Hkept. exact Hlength.
Qed.

Lemma deliver_step (state : world * MessageCollector.t) (c : delivery) :
  let s := MessageCollector.statistics state.2 in
  let s' := MessageCollector.statistics (deliver state c).2 in
  let stored (st : world * MessageCollector.t) :=
    Z.of_nat (length (DatabaseManager.messages (db st.1))) in
  MessageCollector.total_messages s' = MessageCollector.total_messages s + 1
  ∧ MessageCollector.error_messages s' = MessageCollector.error_messages s
  ∧ MessageCollector.filtered_messages s ≤ MessageCollector.filtered_messages s'
  ∧ MessageCollector.processed_messages s ≤ MessageCollector.processed_messages s'
  ∧ (MessageCollector.filtered_messages s' - MessageCollector.filtered_messages s)
    + (MessageCollector.processed_messages s' - MessageCollector.processed_messages s)
    ≤ 1
  ∧ stored (deliver state c) - stored state
    ≤ MessageCollector.processed_messages s' - MessageCollector.processed_messages s.
Proof.
  cbn zeta. unfold deliver. rewrite handle_extracted.
  destruct (MessageCollector.extract_message_info _ _ _ _).2 as [m |].
  - match goal with
    | |- context [MessageCollector.process_message ?e ?w ?self ?m] =>
        destruct (process_message_step e w self m)
          as [[Hs Hstored] | [[Hs Hstored] | [Hs Hstored]]]
    end;
      cbn zeta in Hs, Hstored; rewrite Hs;
      cbn [MessageCollector.statistics MessageCollector.count_filtered
           MessageCollector.count_processed MessageCollector.count_total
           MessageCollector.total_messages MessageCollector.filtered_messages
           MessageCollector.processed_messages MessageCollector.error_messages];
      repeat split; lia.
  - cbn [fst snd MessageCollector.statistics MessageCollector.count_total
         MessageCollector.total_messages MessageCollector.filtered_messages
         MessageCollector.processed_messages MessageCollector.error_messages].
    repeat split; lia.
Qed.

(** X23. Over any sequence of events delivered to the six handlers,
    whatever the lookups, clocks and databases answer: [total_messages]
    counts every event; the filtered and the processed counters never
    decrease and together grow by at most one per event, so neither can
    outrun the number of events; and the message table grows by at most the
    number of messages counted as processed. *)
Theorem collector_counters_add_up (w : world) (self : MessageCollector.t)
    (deliveries : list delivery) :
  let final := run_collector w self deliveries in
  let s := MessageCollector.statistics self in
  let s' := MessageCollector.statistics final.2 in
  let grown :=
    Z.of_nat (length (DatabaseManager.messages (db final.1)))
    - Z.of_nat (length (DatabaseManager.messages (db w))) in
  MessageCollector.total_messages s'
  = MessageCollector.total_messages s + Z.of_nat (length deliveries)
  ∧ MessageCollector.filtered_messages s ≤ MessageCollector.filtered_messages s'
  ∧ MessageCollector.processed_messages s ≤ MessageCollector.processed_messages s'
  ∧ (MessageCollector.filtered_messages s' - MessageCollector.filtered_messages s)
    + (MessageCollector.processed_messages s' - MessageCollector.processed_messages s)
    ≤ Z.of_nat (length deliveries)
  ∧ grown
    ≤ MessageCollector.processed_messages s' - MessageCollector.processed_messages s.
Proof.
  cbn zeta. unfold run_collector.
  induction deliveries as [| c deliveries IH] using rev_ind.
  - cbn. repeat split; lia.
  - rewrite foldl_snoc, length_app. cbn [length].
    destruct (deliver_step (foldl deliver (w, self) deliveries) c)
      as (Htotal & _ & Hfiltered & Hprocessed & Hone & Hstored).
    cbn zeta in Htotal, Hfiltered, Hprocessed, Hone, Hstored.
    destruct IH as (IHtotal & IHfiltered & IHprocessed & IHsum & IHstored).
    repeat split; lia.
Qed.

(** A morning at the collector: a text, its repetition, a private message
    and an emoji. *)
Example four_events_counted :
  let d := MessageCollector.mk_directory (λ wxid _, wxid) (λ cid, cid) 0 ten_o_clock in
  let event content id :=
    MessageCollector.mk_event room (Some content) (Some id)
      (Some (Returns ten_o_clock)) in
  let final :=
    run_collector world_0 collector_0
      [ mk_delivery MessageCollector.handle_text d (env_at ten_o_clock)
          (event (py "wxid_a:服务器故障，紧急处理") (py "1"));
        mk_delivery MessageCollector.handle_text d (env_at ten_o_clock)
          (event (py "wxid_b: 服务器故障，紧急处理 ") (py "2"));
        mk_delivery MessageCollector.handle_text d (env_at ten_o_clock)
          (MessageCollector.mk_event (py "wxid_friend") (Some (py "在吗"))
             (Some (py "3")) (Some (Returns ten_o_clock)));
        mk_delivery MessageCollector.handle_emoji d (env_at ten_o_clock)
          (event (py "wxid_a:<emoji/>") (py "4")) ] in
  MessageCollector.statistics final.2 = MessageCollector.mk_stats 4 1 2 0
  ∧ (λ m, (Message.message_id m, Message.content m))
      <$> DatabaseManager.messages (db final.1)
    = [(py "1", py "服务器故障，紧急处理"); (py "4", py "[表情包]")].
Proof. by_computation. Qed.

(** ** Daily summaries (ai_service.py, daily_summary.py, helpers.py) *)

Example get_date_string_samples :
  helpers.get_date_string ten_o_clock = py "2024-01-15"
  ∧ helpers.get_date_string 0 = py "0001-01-01"
  ∧ helpers.get_date_string (738944 * 86400000000 + 86399999999) = py "2024-02-29"
  ∧ helpers.get_date_string (730118 * 86400000000) = py "1999-12-31"
  ∧ helpers.get_date_string DatabaseManager.datetime_max = py "9999-12-31".
Proof. by_computation. Qed.

Section sorted_desc.

Context {A : Type} (key : A → Z).

Lemma insert_desc_Permutation (x : A) (l : list A) :
  insert_desc key x l ≡ₚ x :: l.
Proof.
  induction l as [| y l IH]; [reflexivity |].
  cbn [insert_desc]. destruct (key x <=? key y); [| reflexivity].
  rewrite IH. apply Permutation_swap.
Qed.

Lemma sorted_desc_snoc (l : list A) (x : A) :
  sorted_desc key (l ++ [x]) = insert_desc key x (sorted_desc key l).
Proof. unfold sorted_desc. rewrite foldl_snoc. reflexivity. Qed.

Lemma sorted_desc_Permutation (l : list A) : sorted_desc key l ≡ₚ l.
Proof.
  induction l as [| x l IH] using rev_ind; [reflexivity |].
  rewrite sorted_desc_snoc, insert_desc_Permutation, IH.
  apply Permutation_cons_append.
Qed.

Lemma insert_desc_sorted (x : A) (l : list A) :
  StronglySorted (λ a b, key b ≤ key a) l →
  StronglySorted (λ a b, key b ≤ key a) (insert_desc key x l).
Proof.
  induction 1 as [| y l Hsorted IH Hall]; cbn [insert_desc].
  - repeat constructor.
  - destruct (key x <=? key y) eqn:Hle.
    + apply Z.leb_le in Hle. constructor; [exact IH |].
      rewrite insert_desc_Permutation. constructor; assumption.
    + apply Z.leb_gt in Hle. constructor; [constructor; assumption |].
      constructor; [lia |].
      eapply Forall_impl; [exact Hall |]. cbn. intros z Hz. lia.
Qed.

Lemma sorted_desc_sorted (l : list A) :
  StronglySorted (λ a b, key b ≤ key a) (sorted_desc key l).
Proof.
  induction l as [| x l IH] using rev_ind; [constructor |].
  rewrite sorted_desc_snoc. apply insert_desc_sorted, IH.
Qed.

End sorted_desc.

(** X24. Whatever the provider does, [generate_daily_summary] returns a
    digest with the date and chat name it was given, the chat id of the
    first message, [message_count] equal to the number of messages and
    source ids that are a prefix of the messages' ids; it sends one request
    for a non-empty list and none for an empty one; and [high_value_count]
    is the number of reported ids, repetitions included, that are ids of
    the given messages, so it can exceed the number of messages. *)
Theorem daily_summary_accounts_for_the_messages (now : Z)
    (client : SummaryReply.t) (chat_name : str) (messages : list Message.t)
    (date : str) :
  let result :=
    AIAnalysisService.generate_daily_summary now client chat_name messages date in
  DailySummary.date result.1 = date
  ∧ DailySummary.chat_name result.1 = chat_name
  ∧ DailySummary.chat_id result.1 = default [] (Message.chat_id <$> head messages)
  ∧ DailySummary.message_count result.1 = Z.of_nat (length messages)
  ∧ DailySummary.source_message_ids result.1
      `prefix_of` Message.message_id <$> messages
  ∧ SummaryReply.requests result.2
    = (SummaryReply.requests client + (if messages is [] then 0 else 1))%nat
  ∧ ∃ reported : list str,
      DailySummary.high_value_count result.1
      = Z.of_nat
          (length (filter (λ mid, mid ∈ Message.message_id <$> messages) reported))
      ∧ (reported = []
         ∨ ∃ fields,
             SummaryReply.answer client (SummaryReply.requests client)
             = Returns (SummaryReply.Object fields)
             ∧ SummaryReply.r_high_value_message_ids fields
               = Some (SummaryReply.Ids reported)).
Proof.
  cbn zeta. unfold AIAnalysisService.generate_daily_summary.
  destruct messages as [| first rest].
  { cbn. repeat split; try reflexivity; try lia.
    exists []. split; [reflexivity | left; reflexivity]. }
  cbn [SummaryReply.create fst snd SummaryReply.requests].
  assert (Hfallback :
    let r := AIAnalysisService._generate_fallback_summary now chat_name
               (first :: rest) date in
    DailySummary.date r = date
    ∧ DailySummary.chat_name r = chat_name
    ∧ DailySummary.chat_id r = Message.chat_id first
    ∧ DailySummary.message_count r = Z.of_nat (length (first :: rest))
    ∧ DailySummary.source_message_ids r
        `prefix_of` Message.message_id <$> first :: rest
    ∧ DailySummary.high_value_count r = 0).
  { cbn zeta. unfold AIAnalysisService._generate_fallback_summary.
    cbn [DailySummary.date DailySummary.chat_name DailySummary.chat_id
         DailySummary.message_count DailySummary.source_message_ids
         DailySummary.high_value_count head fmap option_fmap option_map default].
    repeat split. rewrite fmap_take. apply prefix_take. }
  cbn zeta in Hfallback.
  destruct Hfallback as (Hdate & Hname & Hchat & Hcount & Hsource & Hvalue).
  assert (Hrequests : S (SummaryReply.requests client)
                      = (SummaryReply.requests client + 1)%nat) by lia.
  destruct (SummaryReply.answer client (SummaryReply.requests client))
    as [[text | text | fields] |].
  1, 2, 4: cbn [fst snd head fmap option_fmap option_map default];
    repeat (split; [assumption |]);
    exists []; split; [exact Hvalue | left; reflexivity].
  destruct (SummaryReply.r_high_value_message_ids fields) as [[ids |] |] eqn:Hids;
    cbn [default fst snd].
  - cbn [DailySummary.date DailySummary.chat_name DailySummary.chat_id
         DailySummary.message_count DailySummary.source_message_ids
         DailySummary.high_value_count head fmap option_fmap option_map default].
    repeat (split; [first [reflexivity | exact Hrequests] |]).
    exists ids. split; [reflexivity |]. right. exists fields.
    split; [reflexivity | exact Hids].
  - cbn [head fmap option_fmap option_map default].
    repeat (split; [assumption |]).
    exists []. split; [exact Hvalue | left; reflexivity].
  - cbn [DailySummary.date DailySummary.chat_name DailySummary.chat_id
         DailySummary.message_count DailySummary.source_message_ids
         DailySummary.high_value_count head fmap option_fmap option_map default].
    repeat (split; [first [reflexivity | exact Hrequests] |]).
    exists []. split; [reflexivity | left; reflexivity].
Qed.

(** A reply that names one message three times reports three high-value
    messages in a day of two. *)
Example repeated_ids_are_counted_again :
  let provider :=
    SummaryReply.mk
      (λ _, Returns
              (SummaryReply.Object
                 (SummaryReply.mk_reply (Some (py "故障已处理")) None None None
                    (Some (SummaryReply.Ids
                             [py "msg_1"; py "msg_1"; py "msg_1"; py "msg_7"])))))
      0 in
  let summary :=
    (AIAnalysisService.generate_daily_summary ten_o_clock provider (py "运维群")
       [alarm_1; alarm_2] (py "2024-01-15")).1 in
  DailySummary.message_count summary = 2
  ∧ DailySummary.high_value_count summary = 3.
Proof. by_computation. Qed.
Lemma count_sender_names (name : str) (senders : list (str * Z)) :
  ∀ n, n ∈ (AIAnalysisService.count_sender name senders).*1
       ↔ n = name ∨ n ∈ senders.*1.
Proof.
  induction senders as [| [n0 c0] rest IH]; intros n.
  - cbn. rewrite list_elem_of_singleton, elem_of_nil. tauto.
  - cbn [AIAnalysisService.count_sender].
    destruct (bool_decide (n0 = name)) eqn:Hsame.
    + apply bool_decide_eq_true in Hsame. subst n0. cbn.
      rewrite !elem_of_cons. tauto.
    + cbn [fmap list_fmap fst]. rewrite !elem_of_cons, IH. tauto.
Qed.

Lemma count_sender_NoDup (name : str) (senders : list (str * Z)) :
  NoDup senders.*1 → NoDup (AIAnalysisService.count_sender name senders).*1.
Proof.
  induction senders as [| [n0 c0] rest IH]; intros Hdistinct.
  - cbn. apply NoDup_singleton.
  - cbn [AIAnalysisService.count_sender].
    destruct (bool_decide (n0 = name)) eqn:Hsame; [exact Hdistinct |].
    apply bool_decide_eq_false in Hsame.
    cbn [fmap list_fmap fst] in *. apply NoDup_cons in Hdistinct as [Hfresh Hrest].
    apply NoDup_cons. split; [| apply IH, Hrest].
    rewrite count_sender_names. intros [-> | Hin]; [exact (Hsame eq_refl) |].
    exact (Hfresh Hin).
Qed.

Lemma count_sender_entries (name : str) (senders : list (str * Z)) :
  NoDup senders.*1 →
  ∀ n c, (n, c) ∈ AIAnalysisService.count_sender name senders
         ↔ (n ≠ name ∧ (n, c) ∈ senders)
           ∨ (n = name ∧ ((c - 1 = 0 ∧ name ∉ senders.*1) ∨ (name, c - 1) ∈ senders)).
Proof.
  induction senders as [| [n0 c0] rest IH]; intros Hdistinct n c.
  - cbn. rewrite list_elem_of_singleton. split.
    + intros [= -> ->]. right. split; [reflexivity |]. left.
      split; [reflexivity | apply not_elem_of_nil].
    + intros [[_ Hin] | [-> [[Hc _] | Hin]]];
        try (apply elem_of_nil in Hin; contradiction).
      f_equal. lia.
  - cbn [fmap list_fmap fst] in Hdistinct.
    apply NoDup_cons in Hdistinct as [Hfresh Hrest].
    cbn [AIAnalysisService.count_sender].
    destruct (bool_decide (n0 = name)) eqn:Hsame.
    + apply bool_decide_eq_true in Hsame. subst n0.
      rewrite !elem_of_cons. split.
      * intros [[= -> ->] | Hin].
        -- right. split; [reflexivity |]. right. left. f_equal. lia.
        -- left. split; [| right; exact Hin]. intros ->. apply Hfresh.
           apply list_elem_of_fmap. exists (name, c). split; [reflexivity | exact Hin].
      * intros [[Hother [[= -> ->] | Hin]] | [-> [[_ Habsent] | [[= Hc] | Hin]]]].
        -- contradiction.
        -- right. exact Hin.
        -- exfalso. apply Habsent. cbn. apply list_elem_of_here.
        -- left. f_equal. lia.
        -- exfalso. apply Hfresh. apply list_elem_of_fmap.
           exists (name, c - 1). split; [reflexivity | exact Hin].
    + apply bool_decide_eq_false in Hsame.
      rewrite !elem_of_cons, (IH Hrest). cbn [fmap list_fmap fst].
      rewrite not_elem_of_cons. split.
      * intros [[= -> ->] | [[Hother Hin] | [-> [[Hc Habsent] | Hin]]]].
        -- left. split; [exact Hsame | left; reflexivity].
        -- left. split; [exact Hother | right; exact Hin].
        -- right. split; [reflexivity |]. left. split; [exact Hc |].
           split; [intros Heq; apply Hsame; symmetry; exact Heq | exact Habsent].
        -- right. split; [reflexivity |]. right. right. exact Hin.
      * intros [[Hother [[= -> ->] | Hin]] | [-> [[Hc [_ Habsent]] | [[= Heq _] | Hin]]]].
        -- left. reflexivity.
        -- right. left. split; assumption.
        -- right. right. split; [reflexivity |]. left. split; assumption.
        -- exfalso. apply Hsame. symmetry. exact Heq.
        -- right. right. split; [reflexivity |]. right. exact Hin.
Qed.

Lemma messages_of_snoc (name : str) (messages : list Message.t) (m : Message.t) :
  messages_of name (messages ++ [m])
  = messages_of name messages
    + (if bool_decide (Message.sender_name m = name) then 1 else 0).
Proof.
  unfold messages_of. rewrite filter_app, length_app.
  destruct (bool_decide (Message.sender_name m = name)) eqn:Hsame.
  - apply bool_decide_eq_true in Hsame.
    rewrite (filter_cons_True (λ m, Message.sender_name m = name)) by exact Hsame.
    rewrite filter_nil. cbn [length]. lia.
  - apply bool_decide_eq_false in Hsame.
    rewrite (filter_cons_False (λ m, Message.sender_name m = name)) by exact Hsame.
    rewrite filter_nil. cbn [length]. lia.
Qed.

Lemma messages_of_nonneg (name : str) (messages : list Message.t) :
  0 ≤ messages_of name messages.
Proof. unfold messages_of. lia. Qed.

Lemma count_senders_correct (messages : list Message.t) :
  counts_senders_of (AIAnalysisService.count_senders messages) messages.
Proof.
  unfold AIAnalysisService.count_senders.
  induction messages as [| m messages [Hdistinct Hentries]] using rev_ind.
  - split; [apply NoDup_nil_2 |]. intros name c. cbn. rewrite elem_of_nil.
    unfold messages_of. cbn. split; [contradiction | lia].
  - rewrite foldl_snoc. split; [apply count_sender_NoDup, Hdistinct |].
    intros name c. rewrite (count_sender_entries _ _ Hdistinct), messages_of_snoc.
    pose proof (messages_of_nonneg name messages) as Hnonneg.
    assert (Habsent : Message.sender_name m
                        ∉ (foldl (λ senders msg,
                                    AIAnalysisService.count_sender
                                      (Message.sender_name msg) senders)
                             [] messages).*1
                      ↔ messages_of (Message.sender_name m) messages = 0).
    { pose proof (messages_of_nonneg (Message.sender_name m) messages) as Hm.
      split.
      - intros Hnot.
        destruct (decide (messages_of (Message.sender_name m) messages = 0))
          as [Hzero | Hpositive]; [exact Hzero |].
        exfalso. apply Hnot. apply list_elem_of_fmap.
        exists (Message.sender_name m, messages_of (Message.sender_name m) messages).
        split; [reflexivity |]. apply Hentries. split; [reflexivity | lia].
      - intros Hzero Hin. apply list_elem_of_fmap in Hin as ([n c'] & Hn & Hin).
        cbn in Hn. subst n. apply Hentries in Hin as [Hc Hpositive]. lia. }
    destruct (bool_decide (Message.sender_name m = name)) eqn:Hsame.
    + apply bool_decide_eq_true in Hsame. subst name.
      rewrite Habsent, (Hentries (Message.sender_name m) (c - 1)). split.
      * intros [[Hother _] | [_ [[Hc Hzero] | [Hc Hpositive]]]];
          [contradiction | lia | lia].
      * intros [Hc Hpositive]. right. split; [reflexivity |].
        destruct (decide (messages_of (Message.sender_name m) messages = 0));
          [left | right]; lia.
    + apply bool_decide_eq_false in Hsame.
      rewrite (Hentries name c), Z.add_0_r. split.
      * intros [[_ Hc] | [Heq _]]; [exact Hc |]. exfalso. apply Hsame.
        symmetry. exact Heq.
      * intros Hc. left. split; [| exact Hc]. intros Heq. apply Hsame.
        symmetry. exact Heq.
Qed.

(** X25. The sender statistics of the fallback summary are exact: there
    is one entry per sender name, holding the number of that sender's
    messages; and the senders named in the summary are at most three
    entries of these statistics, in non-increasing order of their counts,
    none of the entries left out having more messages than one that is
    named. *)
Theorem top_senders_are_the_busiest (messages : list Message.t) :
  let senders := AIAnalysisService.count_senders messages in
  let top := AIAnalysisService.top_senders messages in
  NoDup senders.*1
  ∧ (∀ name c, (name, c) ∈ senders ↔ c = messages_of name messages ∧ 0 < c)
  ∧ (length top ≤ 3)%nat
  ∧ StronglySorted (λ a b, b.2 ≤ a.2) top
  ∧ ∃ rest, top ++ rest ≡ₚ senders
            ∧ ∀ a b, a ∈ top → b ∈ rest → b.2 ≤ a.2.
Proof.
  cbn zeta. destruct (count_senders_correct messages) as [Hdistinct Hentries].
  split; [exact Hdistinct |]. split; [exact Hentries |].
  unfold AIAnalysisService.top_senders.
  set (sorted := sorted_desc snd (AIAnalysisService.count_senders messages)).
  assert (Hperm : sorted ≡ₚ AIAnalysisService.count_senders messages)
    by apply sorted_desc_Permutation.
  assert (Hsorted : StronglySorted (λ a b : str * Z, b.2 ≤ a.2) sorted)
    by apply (sorted_desc_sorted snd).
  rewrite <- (take_drop 3 sorted) in Hsorted, Hperm.
  split; [rewrite length_take; lia |].
  split; [eapply StronglySorted_app_1_l; exact Hsorted |].
  exists (drop 3 sorted). split; [exact Hperm |].
  intros a b Ha Hb.
  exact (StronglySorted_app_1_elem_of _ _ _ a b Hsorted Ha Hb).
Qed.

(** Three senders with 2, 1 and 2 messages: equal counts keep the order of
    first appearance. *)
Example fallback_summary_sample :
  let message id name :=
    Message.init id room (py "运维群") name name (py "text") (py "收到") ten_o_clock
      (py "") false 0 in
  DailySummary.summary_content
    (AIAnalysisService._generate_fallback_summary ten_o_clock (py "运维群")
       [message (py "1") (py "小王"); message (py "2") (py "小李");
        message (py "3") (py "小张"); message (py "4") (py "小张");
        message (py "5") (py "小王")]
       (py "2024-01-15"))
  = py "今日运维群共有5条消息。主要发言人：小王(2条), 小张(2条), 小李(1条)。".
Proof. by_computation. Qed.
Lemma generate_daily_summary_frame (now : Z) (client : SummaryReply.t)
    (chat_name : str) (first : Message.t) (rest : list Message.t) (date : str) :
  let result :=
    AIAnalysisService.generate_daily_summary now client chat_name (first :: rest)
      date in
  digest_info result.1
  = (Message.chat_id first, Z.of_nat (length (first :: rest)), date)
  ∧ result.2
    = SummaryReply.mk (SummaryReply.answer client) (S (SummaryReply.requests client)).
Proof.
  cbn zeta. unfold AIAnalysisService.generate_daily_summary, digest_info.
  cbn [SummaryReply.create fst snd].
  destruct (SummaryReply.answer client (SummaryReply.requests client))
    as [[text | text | fields] |]; try (split; reflexivity).
  destruct (default _ (SummaryReply.r_high_value_message_ids fields));
    split; reflexivity.
Qed.

Lemma day_messages_chat (e : DailySummaryGenerator.env)
    (database : DatabaseManager.t) (target_date : Z) (cid : str) (m : Message.t) :
  m ∈ day_messages e database target_date cid → Message.chat_id m = cid.
Proof.
  unfold day_messages, DatabaseManager.get_messages_by_date_range.
  destruct (DailySummaryGenerator.query_commits e cid);
    [| intros Hin; apply elem_of_nil in Hin; contradiction].
  rewrite message_of_row_fmap. cbn [DatabaseManager.sql_limit].
  rewrite merge_sort_Permutation. intros Hin.
  apply list_elem_of_filter in Hin as [[Hchat _] _]. exact Hchat.
Qed.

Lemma day_messages_ext (e : DailySummaryGenerator.env)
    (d1 d2 : DatabaseManager.t) (target_date : Z) (cid : str) :
  DatabaseManager.messages d1 = DatabaseManager.messages d2 →
  day_messages e d1 target_date cid = day_messages e d2 target_date cid.
Proof.
  intros Hsame. unfold day_messages, DatabaseManager.get_messages_by_date_range.
  rewrite Hsame. reflexivity.
Qed.

Lemma save_daily_summary_frame (commits : bool) (ts : Z)
    (database : DatabaseManager.t) (s : DailySummary.t) :
  let saved := (DatabaseManager.save_daily_summary commits ts database s).1 in
  DatabaseManager.messages saved = DatabaseManager.messages database
  ∧ DatabaseManager.chats saved = DatabaseManager.chats database
  ∧ DatabaseManager.realtime_alerts saved = DatabaseManager.realtime_alerts database
  ∧ DatabaseManager.alert_keywords saved = DatabaseManager.alert_keywords database
  ∧ DatabaseManager.system_config saved = DatabaseManager.system_config database.
Proof. destruct commits; repeat split. Qed.

(** One chat through the loop of [generate_all_summaries]. *)
Lemma summarize_chat_step (e : DailySummaryGenerator.env) (target_date : Z)
    (st : DailySummaryGenerator.state) (acc : list DailySummary.t)
    (c : DatabaseManager.active_chat) :
  let cid := DatabaseManager.ac_chat_id c in
  let result := DailySummaryGenerator.summarize_chat e target_date (st, acc) c in
  DailySummaryGenerator.s_bot result.1 = DailySummaryGenerator.s_bot st
  ∧ SummaryReply.answer (DailySummaryGenerator.s_client result.1)
    = SummaryReply.answer (DailySummaryGenerator.s_client st)
  ∧ match day_messages e (DailySummaryGenerator.s_db st) target_date cid with
    | [] =>
        result = (st, acc)
    | _ :: _ =>
        ∃ s, result.2 = acc ++ [s]
             ∧ digest_info s
               = expected_info e (DailySummaryGenerator.s_db st) target_date c
             ∧ DailySummaryGenerator.s_db result.1
               = run_digest_saves (DailySummaryGenerator.s_db st)
                   [digest_save_of e s]
             ∧ SummaryReply.requests (DailySummaryGenerator.s_client result.1)
               = S (SummaryReply.requests (DailySummaryGenerator.s_client st))
    end.
Proof.
  cbn zeta. unfold DailySummaryGenerator.summarize_chat,
    DailySummaryGenerator.generate_chat_summary, expected_info.
  fold (day_messages e (DailySummaryGenerator.s_db st) target_date
          (DatabaseManager.ac_chat_id c)).
  pose proof (day_messages_chat e (DailySummaryGenerator.s_db st) target_date
                (DatabaseManager.ac_chat_id c)) as Hchat.
  destruct (day_messages e (DailySummaryGenerator.s_db st) target_date
              (DatabaseManager.ac_chat_id c)) as [| first rest].
  - cbn [fst snd DailySummaryGenerator.s_bot DailySummaryGenerator.s_client].
    split; [reflexivity |]. split; [reflexivity |]. destruct st. reflexivity.
  - pose proof (generate_daily_summary_frame
                  (DailySummaryGenerator.created_now e (DatabaseManager.ac_chat_id c))
                  (DailySummaryGenerator.s_client st)
                  (DatabaseManager.ac_chat_name c) first rest
                  (helpers.get_date_string target_date)) as [Hinfo Hclient].
    cbn zeta in Hinfo, Hclient.
    destruct (AIAnalysisService.generate_daily_summary _ _ _ (first :: rest) _)
      as [s client']. cbn [fst snd] in Hinfo, Hclient. subst client'.
    assert (Hcount : (0 <? DailySummary.message_count s) = true).
    { injection Hinfo as _ Hcount _. rewrite Hcount. apply Z.ltb_lt.
      cbn [length]. lia. }
    rewrite Hcount.
    assert (Hcid : DailySummary.chat_id s = DatabaseManager.ac_chat_id c).
    { injection Hinfo as Hcid _ _. rewrite Hcid. apply Hchat, list_elem_of_here. }
    destruct (DatabaseManager.save_daily_summary _ _ _ s) as [database success]
      eqn:Hsave.
    cbn [fst snd DailySummaryGenerator.s_bot DailySummaryGenerator.s_client
         DailySummaryGenerator.s_db SummaryReply.answer SummaryReply.requests].
    split; [reflexivity |]. split; [reflexivity |].
    exists s. split; [reflexivity |]. split.
    + rewrite Hinfo. f_equal. f_equal. symmetry. rewrite <- Hcid.
      injection Hinfo as -> _ _. reflexivity.
    + split; [| reflexivity].
      unfold run_digest_saves, digest_save_of. cbn [foldl save_commits
        save_timestamp save_summary]. rewrite Hcid, Hsave. reflexivity.
Qed.
Lemma run_digest_saves_app (database : DatabaseManager.t)
    (saves more : list digest_save) :
  run_digest_saves database (saves ++ more)
  = run_digest_saves (run_digest_saves database saves) more.
Proof. unfold run_digest_saves. apply foldl_app. Qed.

Lemma run_digest_saves_frame (saves : list digest_save) :
  ∀ database,
    let saved := run_digest_saves database saves in
    DatabaseManager.messages saved = DatabaseManager.messages database
    ∧ DatabaseManager.chats saved = DatabaseManager.chats database
    ∧ DatabaseManager.realtime_alerts saved
      = DatabaseManager.realtime_alerts database
    ∧ DatabaseManager.alert_keywords saved = DatabaseManager.alert_keywords database
    ∧ DatabaseManager.system_config saved = DatabaseManager.system_config database.
Proof.
  induction saves as [| s saves IH]; intros database; [repeat split |].
  cbn zeta. cbn [run_digest_saves foldl].
  destruct (IH (DatabaseManager.save_daily_summary (save_commits s)
                  (save_timestamp s) database (save_summary s)).1)
    as (H1 & H2 & H3 & H4 & H5).
  destruct (save_daily_summary_frame (save_commits s) (save_timestamp s)
              database (save_summary s)) as (F1 & F2 & F3 & F4 & F5).
  cbn zeta in *. unfold run_digest_saves in *.
  rewrite H1, H2, H3, H4, H5. repeat split; assumption.
Qed.

(** The loop of [generate_all_summaries] over [chats]. *)
Lemma summarize_chats (e : DailySummaryGenerator.env) (target_date : Z)
    (chats : list DatabaseManager.active_chat) :
  ∀ (st : DailySummaryGenerator.state) (acc : list DailySummary.t),
    let result :=
      foldl (DailySummaryGenerator.summarize_chat e target_date) (st, acc) chats in
    let busy := busy_among e (DailySummaryGenerator.s_db st) target_date chats in
    DailySummaryGenerator.s_bot result.1 = DailySummaryGenerator.s_bot st
    ∧ SummaryReply.answer (DailySummaryGenerator.s_client result.1)
      = SummaryReply.answer (DailySummaryGenerator.s_client st)
    ∧ SummaryReply.requests (DailySummaryGenerator.s_client result.1)
      = (SummaryReply.requests (DailySummaryGenerator.s_client st) + length busy)%nat
    ∧ ∃ new,
        result.2 = acc ++ new
        ∧ digest_info <$> new
          = expected_info e (DailySummaryGenerator.s_db st) target_date <$> busy
        ∧ DailySummaryGenerator.s_db result.1
          = run_digest_saves (DailySummaryGenerator.s_db st)
              (digest_save_of e <$> new).
Proof.
  induction chats as [| c chats IH]; intros st acc.
  - cbn. split; [reflexivity |]. split; [reflexivity |]. split; [lia |].
    exists []. rewrite app_nil_r. repeat split.
  - cbn zeta. cbn [foldl].
    destruct (summarize_chat_step e target_date st acc c)
      as (Hbot & Hanswer & Hstep). cbn zeta in Hbot, Hanswer, Hstep.
    unfold busy_among. rewrite filter_cons.
    destruct (day_messages e (DailySummaryGenerator.s_db st) target_date
                (DatabaseManager.ac_chat_id c)) as [| first rest] eqn:Hday.
    + rewrite Hstep. rewrite decide_False by (intros Hne; exact (Hne eq_refl)).
      apply IH.
    + rewrite decide_True by discriminate.
      destruct Hstep as (s & Hacc & Hinfo & Hdb & Hrequests).
      destruct (DailySummaryGenerator.summarize_chat e target_date (st, acc) c)
        as [st1 acc1]. cbn [fst snd] in *. subst acc1.
      destruct (IH st1 (acc ++ [s])) as (IHbot & IHanswer & IHrequests & new
                                         & IHnew & IHinfo & IHdb).
      cbn zeta in IHbot, IHanswer, IHrequests, IHnew, IHinfo, IHdb.
      assert (Hmessages : DatabaseManager.messages (DailySummaryGenerator.s_db st1)
                          = DatabaseManager.messages (DailySummaryGenerator.s_db st)).
      { rewrite Hdb. apply (run_digest_saves_frame [digest_save_of e s]). }
      assert (Hbusy :
        busy_among e (DailySummaryGenerator.s_db st1) target_date chats
        = busy_among e (DailySummaryGenerator.s_db st) target_date chats).
      { unfold busy_among. apply list_filter_iff. intros c'.
        rewrite (day_messages_ext e _ _ target_date _ Hmessages). reflexivity. }
      rewrite Hbusy in IHrequests, IHinfo.
      split; [rewrite IHbot; exact Hbot |].
      split; [rewrite IHanswer; exact Hanswer |].
      split; [rewrite IHrequests, Hrequests; cbn [length]; unfold busy_among; lia |].
      exists (s :: new). split; [rewrite IHnew, <- app_assoc; reflexivity |].
      split.
      * cbn [fmap list_fmap]. f_equal; [exact Hinfo |].
        rewrite IHinfo. apply list_fmap_ext. intros i c' _.
        unfold expected_info.
        rewrite (day_messages_ext e _ _ target_date _ Hmessages). reflexivity.
      * rewrite IHdb, Hdb. cbn [fmap list_fmap].
        change (digest_save_of e s :: (digest_save_of e <$> new))
          with ([digest_save_of e s] ++ (digest_save_of e <$> new)).
        rewrite run_digest_saves_app. reflexivity.
Qed.
Lemma generate_all_summaries_run (e : DailySummaryGenerator.env)
    (self : DailySummaryGenerator.t) (st : DailySummaryGenerator.state)
    (target_date : Z) :
  ∃ new : list DailySummary.t,
    digest_info <$> new
    = expected_info e (DailySummaryGenerator.s_db st) target_date
        <$> busy_chats e (DailySummaryGenerator.s_db st) target_date
    ∧ DailySummaryGenerator.generate_all_summaries e self st (Some target_date)
      = let reported :=
          negb (bool_decide (new = []))
          && negb (bool_decide (DailySummaryGenerator.target_user self = [])) in
        Returns
          (DailySummaryGenerator.mk_state
             (run_digest_saves (DailySummaryGenerator.s_db st)
                (digest_save_of e <$> new))
             (SummaryReply.mk
                (SummaryReply.answer (DailySummaryGenerator.s_client st))
                (SummaryReply.requests (DailySummaryGenerator.s_client st)
                 + length new))
             (if reported then
                Bot.mk (Bot.reply (DailySummaryGenerator.s_bot st))
                  (Bot.outbox (DailySummaryGenerator.s_bot st)
                   ++ [(DailySummaryGenerator.target_user self,
                        (DailySummaryGenerator.build_summary_report
                           (DailySummaryGenerator.report_now e) new
                           (helpers.get_date_string target_date)).2)])
              else DailySummaryGenerator.s_bot st),
           if reported then sorted_desc DailySummary.message_count new else new).
Proof.
  unfold DailySummaryGenerator.generate_all_summaries, busy_chats.
  destruct (summarize_chats e target_date
              (DatabaseManager.get_active_chats
                 (DailySummaryGenerator.chats_commit e)
                 (DailySummaryGenerator.s_db st)) st [])
    as (Hbot & Hanswer & Hrequests & new & Hnew & Hinfo & Hdb).
  cbn zeta in Hbot, Hanswer, Hrequests, Hnew, Hinfo, Hdb.
  exists new. split; [exact Hinfo |].
  assert (Hlength : length new
                    = length (busy_among e (DailySummaryGenerator.s_db st)
                                target_date
                                (DatabaseManager.get_active_chats
                                   (DailySummaryGenerator.chats_commit e)
                                   (DailySummaryGenerator.s_db st)))).
  { rewrite <- (length_fmap digest_info new), Hinfo. apply length_fmap. }
  destruct (foldl _ (st, []) _) as [st1 summaries].
  cbn [fst snd app] in *. subst summaries.
  assert (Hstate : st1
                   = DailySummaryGenerator.mk_state
                       (run_digest_saves (DailySummaryGenerator.s_db st)
                          (digest_save_of e <$> new))
                       (SummaryReply.mk
                          (SummaryReply.answer (DailySummaryGenerator.s_client st))
                          (SummaryReply.requests (DailySummaryGenerator.s_client st)
                           + length new))
                       (DailySummaryGenerator.s_bot st)).
  { destruct st1 as [d1 [answer1 requests1] b1]. cbn in Hbot, Hanswer, Hrequests, Hdb.
    rewrite Hlength. subst. reflexivity. }
  destruct new as [| s new]; [rewrite Hstate; reflexivity |].
  rewrite (bool_decide_eq_false_2 (s :: new = [])) by discriminate.
  cbn [negb andb].
  destruct (bool_decide (DailySummaryGenerator.target_user self = []));
    cbn [negb]; [rewrite Hstate; reflexivity |].
  unfold DailySummaryGenerator.send_summary_report,
    DailySummaryGenerator.build_summary_report, Bot.send_text.
  rewrite Hstate. reflexivity.
Qed.

Lemma digests_of_save (commits : bool) (ts : Z) (database : DatabaseManager.t)
    (s : DailySummary.t) (date cid : str) :
  digests_of (DatabaseManager.save_daily_summary commits ts database s).1 date cid
  = if commits && bool_decide (digest_key s = (date, cid))
    then [DatabaseManager.digest_row ts s]
    else digests_of database date cid.
Proof.
  destruct commits; cbn [andb]; [| reflexivity].
  unfold digests_of.
  cbn [DatabaseManager.save_daily_summary fst DatabaseManager.daily_summaries].
  rewrite filter_app.
  destruct (bool_decide (digest_key s = (date, cid))) eqn:Hkey.
  - apply bool_decide_eq_true in Hkey.
    rewrite list_filter_filter.
    rewrite (list_filter_iff _ (λ _, False)).
    + assert (Hnone : ∀ l : list DailySummary.t, filter (λ _, False) l = []).
      { induction l as [| x l IHl]; [reflexivity |].
        rewrite filter_cons_False by tauto. exact IHl. }
      rewrite Hnone. cbn [app].
      rewrite filter_cons_True by (rewrite digest_row_key; exact Hkey).
      reflexivity.
    + intros r. rewrite same_digest_key_iff, Hkey. tauto.
  - apply bool_decide_eq_false in Hkey.
    rewrite filter_cons_False by (rewrite digest_row_key; exact Hkey).
    rewrite filter_nil, app_nil_r. apply list_filter_filter_l.
    intros r Hr. rewrite same_digest_key_iff, Hr. intros Heq. apply Hkey.
    symmetry. exact Heq.
Qed.

(** The rows of one key after a run of saves with pairwise distinct keys. *)
Lemma run_digest_saves_rows (saves : list digest_save) (date cid : str) :
  NoDup ((λ s, digest_key (save_summary s)) <$> saves) →
  ∀ database,
    digests_of (run_digest_saves database saves) date cid
    = match filter (λ s, save_commits s = true
                         ∧ digest_key (save_summary s) = (date, cid)) saves with
      | [] => digests_of database date cid
      | s :: _ => [DatabaseManager.digest_row (save_timestamp s) (save_summary s)]
      end.
Proof.
  induction saves as [| s saves IH]; intros Hdistinct database; [reflexivity |].
  cbn [fmap list_fmap] in Hdistinct. apply NoDup_cons in Hdistinct as [Hfresh Hrest].
  cbn [run_digest_saves foldl]. fold (run_digest_saves
    (DatabaseManager.save_daily_summary (save_commits s) (save_timestamp s)
       database (save_summary s)).1 saves).
  rewrite (IH Hrest), digests_of_save, filter_cons.
  destruct (save_commits s) eqn:Hcommits; cbn [andb].
  - destruct (bool_decide (digest_key (save_summary s) = (date, cid))) eqn:Hkey.
    + apply bool_decide_eq_true in Hkey.
      rewrite decide_True by (split; [reflexivity | exact Hkey]).
      destruct (filter _ saves) as [| s' more] eqn:Hfilter; [reflexivity |].
      exfalso. apply Hfresh. apply list_elem_of_fmap. exists s'.
      assert (Hin : s' ∈ filter (λ s, save_commits s = true
                                      ∧ digest_key (save_summary s) = (date, cid))
                           saves) by (rewrite Hfilter; apply list_elem_of_here).
      apply list_elem_of_filter in Hin as [[_ Hkey'] Hin].
      split; [rewrite Hkey, Hkey'; reflexivity | exact Hin].
    + apply bool_decide_eq_false in Hkey.
      rewrite decide_False by tauto. reflexivity.
  - rewrite decide_False by (intros [Htrue _]; discriminate). reflexivity.
Qed.

Lemma active_chat_ids_distinct (commits : bool) (database : DatabaseManager.t) :
  NoDup (DatabaseManager.chat_id <$> DatabaseManager.chats database) →
  NoDup (DatabaseManager.ac_chat_id
           <$> DatabaseManager.get_active_chats commits database).
Proof.
  intros Hdistinct. unfold DatabaseManager.get_active_chats.
  destruct commits; [| apply NoDup_nil_2].
  rewrite <- list_fmap_compose, merge_sort_Permutation.
  eapply sublist_NoDup; [exact Hdistinct |].
  apply (fmap_sublist DatabaseManager.chat_id), sublist_filter.
Qed.

(** X27. After one run of [generate_all_summaries] on a database with one
    row per chat, the digest table has, for the day's date and each active
    chat that had messages that day and whose save committed, exactly one
    row: the digest just returned for that chat, carrying that day's
    message count, whatever row the pair had before. Every other pair of
    date and chat keeps the rows it had: a day without messages writes no
    digest and overwrites none. *)
Theorem digests_are_written_for_busy_chats_only (e : DailySummaryGenerator.env)
    (self : DailySummaryGenerator.t) (st : DailySummaryGenerator.state)
    (target_date : Z) :
  NoDup (DatabaseManager.chat_id
           <$> DatabaseManager.chats (DailySummaryGenerator.s_db st)) →
  let busy := busy_chats e (DailySummaryGenerator.s_db st) target_date in
  let date_str := helpers.get_date_string target_date in
  ∃ st' summaries,
    DailySummaryGenerator.generate_all_summaries e self st (Some target_date)
    = Returns (st', summaries)
    ∧ ∀ date cid,
        if bool_decide (date = date_str
                        ∧ cid ∈ DatabaseManager.ac_chat_id <$> busy
                        ∧ DailySummaryGenerator.save_commits e cid = true)
        then ∃ s, s ∈ summaries
                  ∧ digest_info s
                    = (cid,
                       Z.of_nat
                         (length (day_messages e (DailySummaryGenerator.s_db st)
                                    target_date cid)),
                       date_str)
                  ∧ digests_of (DailySummaryGenerator.s_db st') date cid
                    = [DatabaseManager.digest_row
                         (DailySummaryGenerator.current_timestamp e cid) s]
        else digests_of (DailySummaryGenerator.s_db st') date cid
             = digests_of (DailySummaryGenerator.s_db st) date cid.
Proof.
  intros Hdistinct. cbn zeta.
  destruct (generate_all_summaries_run e self st target_date)
    as (new & Hinfo & Hrun).
  cbn zeta in Hrun. eexists _, _. split; [exact Hrun |].
  cbn [DailySummaryGenerator.s_db].
  set (busy := busy_chats e (DailySummaryGenerator.s_db st) target_date) in *.
  assert (Hids : DailySummary.chat_id <$> new = DatabaseManager.ac_chat_id <$> busy).
  { apply (f_equal (fmap (λ i : str * Z * str, i.1.1))) in Hinfo.
    rewrite <- !list_fmap_compose in Hinfo. exact Hinfo. }
  assert (Hbusy_distinct : NoDup (DatabaseManager.ac_chat_id <$> busy)).
  { eapply sublist_NoDup;
      [apply (active_chat_ids_distinct (DailySummaryGenerator.chats_commit e)),
         Hdistinct |].
    apply fmap_sublist, sublist_filter. }
  assert (Hnew : ∀ s, s ∈ new →
            ∃ c, c ∈ busy
                 ∧ digest_info s
                   = expected_info e (DailySummaryGenerator.s_db st) target_date c).
  { intros s Hs.
    assert (Hin : digest_info s ∈ digest_info <$> new)
      by (apply list_elem_of_fmap; exists s; split; [reflexivity | exact Hs]).
    rewrite Hinfo in Hin. apply list_elem_of_fmap in Hin as (c & Hc & Hin).
    exists c. split; assumption. }
  assert (Hkeys : NoDup ((λ s, digest_key (save_summary s))
                           <$> (digest_save_of e <$> new))).
  { rewrite <- list_fmap_compose.
    apply (NoDup_fmap_1 snd). rewrite <- list_fmap_compose.
    change (NoDup (DailySummary.chat_id <$> new)). rewrite Hids.
    exact Hbusy_distinct. }
  intros date cid.
  rewrite (run_digest_saves_rows _ date cid Hkeys).
  destruct (filter _ (digest_save_of e <$> new)) as [| save more] eqn:Hfilter.
  - rewrite bool_decide_eq_false_2; [reflexivity |].
    intros (Hdate & Hcid & Hcommits).
    rewrite <- Hids in Hcid. apply list_elem_of_fmap in Hcid as (s & Hcid & Hs).
    destruct (Hnew s Hs) as (c & _ & Hs_info).
    eapply (filter_nil_not_elem_of _ _ (digest_save_of e s) Hfilter).
    + cbn [digest_save_of save_commits save_summary]. rewrite <- Hcid.
      split; [exact Hcommits |]. unfold digest_key. rewrite <- Hcid.
      f_equal. rewrite Hdate. unfold digest_info, expected_info in Hs_info.
      injection Hs_info as _ _ Hd. exact Hd.
    + apply list_elem_of_fmap. exists s. split; [reflexivity | exact Hs].
  - assert (Hin : save ∈ filter (λ s, save_commits s = true
                                      ∧ digest_key (save_summary s) = (date, cid))
                           (digest_save_of e <$> new))
      by (rewrite Hfilter; apply list_elem_of_here).
    apply list_elem_of_filter in Hin as [[Hcommits Hkey] Hin].
    apply list_elem_of_fmap in Hin as (s & -> & Hs).
    cbn [digest_save_of save_commits save_summary save_timestamp] in *.
    destruct (Hnew s Hs) as (c & Hc & Hs_info).
    unfold digest_key in Hkey. injection Hkey as Hdate Hcid.
    unfold digest_info, expected_info in Hs_info.
    injection Hs_info as Hs_cid Hs_count Hs_date.
    rewrite bool_decide_eq_true_2.
    + exists s. split; [| split].
      * destruct (negb _ && negb _); [| exact Hs].
        rewrite (sorted_desc_Permutation DailySummary.message_count new). exact Hs.
      * unfold digest_info. rewrite Hcid, Hs_count, Hs_date.
        rewrite <- Hcid, Hs_cid. reflexivity.
      * rewrite Hcid. reflexivity.
    + split; [rewrite <- Hdate; exact Hs_date |].
      split; [| rewrite <- Hcid; exact Hcommits].
      apply list_elem_of_fmap. exists c. split; [| exact Hc].
      rewrite <- Hcid. exact Hs_cid.
Qed.
Lemma digests_are_written_for_busy_chats_only_witness :
  ∃ st' summaries,
    DailySummaryGenerator.generate_all_summaries (summary_env_at eight_pm)
      generator_0 evening_state (Some ten_o_clock)
    = Returns (st', summaries)
    ∧ DailySummary.message_count
        <$> digests_of (DailySummaryGenerator.s_db st') (py "2024-01-15") room
      = [4].
Proof.
  destruct (digests_are_written_for_busy_chats_only (summary_env_at eight_pm)
              generator_0 evening_state ten_o_clock)
    as (st' & summaries & Hrun & Hrows).
  - vm_compute. apply NoDup_singleton.
  - exists st', summaries. split; [exact Hrun |].
    specialize (Hrows (py "2024-01-15") room).
    rewrite bool_decide_eq_true_2 in Hrows.
    + destruct Hrows as (s & _ & Hinfo & Hrow). rewrite Hrow.
      cbn [fmap list_fmap DatabaseManager.digest_row DailySummary.message_count].
      pose proof (f_equal (λ i : str * Z * str, i.1.2) Hinfo) as Hcount.
      cbn [fst snd digest_info] in Hcount. rewrite Hcount. vm_compute.
      reflexivity.
    + split; [vm_compute; reflexivity |].
      split; [vm_compute; apply list_elem_of_here | reflexivity].
Defined.

(** The evening run on the sample morning: the provider is down, the digest
    is the fallback one, and this is the report the owner receives. *)
Example evening_report :
  match DailySummaryGenerator.generate_all_summaries (summary_env_at eight_pm)
          generator_0 evening_state (Some ten_o_clock) with
  | Returns (st', summaries) =>
      Bot.outbox (DailySummaryGenerator.s_bot st')
      = [(py "wxid_owner", py "📊 【每日群聊总结报告】

📅 日期：2024-01-15
📈 统计概览：
• 活跃群聊：1个
• 总消息数：4条
• 重要消息：0条


🏷️ 1. 运维群
💬 消息数：4条
⭐ 重要消息：0条

📝 今日总结：
今日运维群共有4条消息。主要发言人：小王(4条)。
🔍 关键话题：日常交流


⏰ 生成时间：20:00:00")]
      ∧ DailySummary.source_message_ids <$> summaries
        = [[py "msg_1"; py "msg_2"; py "msg_3"; py "msg_4"]]
      ∧ SummaryReply.requests (DailySummaryGenerator.s_client st') = 1%nat
  | Raises => False
  end.
Proof. by_computation. Qed.

(** Without a date the run covers the day before; a chat with no message
    on that day gets no digest, no request and no report. *)
Example silent_day :
  match DailySummaryGenerator.generate_all_summaries (summary_env_at eight_pm)
          generator_0 evening_state None with
  | Returns (st', summaries) =>
      summaries = []
      ∧ DatabaseManager.daily_summaries (DailySummaryGenerator.s_db st') = []
      ∧ SummaryReply.requests (DailySummaryGenerator.s_client st') = 0%nat
      ∧ Bot.outbox (DailySummaryGenerator.s_bot st') = []
  | Raises => False
  end.
Proof. by_computation. Qed.
